(** * Validador de Documentos: the browser client [static/script.js]

    A shallow embedding of class [ValidadorDocumentos] and of the
    properties its specification states about a validation run.

    Conventions.
    - A JavaScript string is the list of its UTF-16 code units
      ([jsstring]); ASCII literals of the source are written [lit "..."].
    - A value obtained from [response.json()] is a [json] tree; the result
      of a property read is a [jsval], where [None] is [undefined].
    - The DOM is the part of the page the class reads and writes: the two
      input fields, the two buttons' [disabled] flags, and a trace of the
      observable effects (alerts, requests, progress, log lines, renders,
      downloads), most recent last. *)

From Stdlib Require Import List NArith ZArith Bool String Ascii Lia Arith.
From Stdlib Require Import Permutation.
From Stdlib Require DecimalNat.
Import ListNotations.

Set Implicit Arguments.
Open Scope string_scope.
Open Scope list_scope.
Set Warnings "-register-all".

(** ** Strings *)

Module JsString.

Definition jsstring := list N.

Definition lit (s : string) : jsstring :=
  map N_of_ascii (list_ascii_of_string s).

Definition eqb (a b : jsstring) : bool :=
  if list_eq_dec N.eq_dec a b then true else false.

(** [WhiteSpace] and [LineTerminator] of ECMAScript: the code units that
    [String.prototype.trim] strips (TAB, LF, VT, FF, CR, SP, NBSP,
    U+1680, U+2000..U+200A, U+2028, U+2029, U+202F, U+205F, U+3000,
    U+FEFF). *)
Definition is_white_space (c : N) : bool :=
  ((9 <=? c) && (c <=? 13) || (c =? 32) || (c =? 160) || (c =? 5760)
   || (8192 <=? c) && (c <=? 8202) || (c =? 8232) || (c =? 8233)
   || (c =? 8239) || (c =? 8287) || (c =? 12288) || (c =? 65279))%N.

Fixpoint trimStart (s : jsstring) : jsstring :=
  match s with
  | [] => []
  | c :: t => if is_white_space c then trimStart t else s
  end.

Definition trimEnd (s : jsstring) : jsstring := rev (trimStart (rev s)).

(** [s.trim()] *)
Definition trim (s : jsstring) : jsstring := trimEnd (trimStart s).

(** [s.split(re)] for a regular expression [re] that matches exactly one
    code unit of the class [sep]: the pieces between the matches, in
    order; the empty string gives the one empty piece. *)
Fixpoint split_by (sep : N -> bool) (s : jsstring) : list jsstring :=
  match s with
  | [] => [[]]
  | c :: t =>
      if sep c then [] :: split_by sep t
      else match split_by sep t with
           | p :: ps => (c :: p) :: ps
           | [] => [[c]]
           end
  end.

(** The character class of the regular expression [/[,\n]/]. *)
Definition is_separator (c : N) : bool := ((c =? 44) || (c =? 10))%N.

(** [s.split(/[,\n]/)] *)
Definition split (s : jsstring) : list jsstring := split_by is_separator s.

(** A piece list with the code unit [c] appended to its last piece. *)
Fixpoint snoc_last (c : N) (pieces : list jsstring) : list jsstring :=
  match pieces with
  | [] => []
  | [p] => [p ++ [c]]
  | p :: ps => p :: snoc_last c ps
  end.

End JsString.

Import JsString.

(** ** [parseDocumentUrls] *)

(** [parseDocumentUrls()], as a function of the value of the
    [#document-urls] field. *)
Definition parseDocumentUrls (value : jsstring) : list jsstring :=
  let text := trim value in
  match text with
  | [] => []
  | _ =>
      filter (fun url => (0 <? List.length url)%nat) (map trim (split text))
  end.

(** The parse without its first two steps, the trim of the whole text and
    the test for the empty text: what [split], [map] and [filter] make of
    the text. *)
Definition parse_split_trim_drop (value : jsstring) : list jsstring :=
  filter (fun url => negb (eqb url [])) (map trim (split value)).

(** A locator is blank when every code unit of it is white space. *)
Definition blank (s : jsstring) : bool := forallb is_white_space s.

(** A raw input made of white space and separators only. *)
Definition only_blank_or_separator (s : jsstring) : bool :=
  forallb (fun c => is_white_space c || is_separator c) s.

(** ** JSON values and property reads *)

(** A value produced by [response.json()].  A number is held as the text
    [Number::toString] gives it ([0], [42], [-1.5], [1e+21], [Infinity]):
    the class does nothing with a number but test it against zero and
    write it out. *)
Inductive json : Type :=
| JNull
| JBool (b : bool)
| JNum (n : jsstring)
| JStr (s : jsstring)
| JArr (items : list json)
| JObj (fields : list (jsstring * json)).

(** The result of reading a property or a field of [this]: [None] is
    [undefined]. *)
Definition jsval := option json.

(** ToBoolean *)
Definition truthy (v : jsval) : bool :=
  match v with
  | None => false
  | Some JNull => false
  | Some (JBool b) => b
  | Some (JNum n) => negb (eqb n (lit "0") || eqb n (lit "NaN"))
  | Some (JStr s) => negb (eqb s [])
  | Some (JArr _) => true
  | Some (JObj _) => true
  end.

(** What a handler can throw.  [error.message] is all the class reads. *)
Inductive exception : Type :=
| ErrorOf (detail : json)      (* new Error(data.error), its message the
                                  string [data.error] converts to *)
| ErrorLiteral (text : string) (* new Error('...') with the fallback text *)
| Rejected (reason : jsstring) (* a rejected fetch or response.json() *)
| TypeError.                   (* raised by the runtime *)

Inductive completion (A : Type) : Type :=
| Normal (a : A)
| Throw (e : exception).
Arguments Normal {A} a.
Arguments Throw {A} e.

Definition bind {A B} (c : completion A) (k : A -> completion B)
  : completion B :=
  match c with
  | Normal a => k a
  | Throw e => Throw e
  end.

Notation "x <- c ;; k" := (bind c (fun x => k))
  (at level 61, c at next level, right associativity).

(** The own property [k] of an object, [undefined] when there is none. *)
Fixpoint assoc (k : jsstring) (fields : list (jsstring * json)) : jsval :=
  match fields with
  | [] => None
  | (k', v) :: rest => if eqb k k' then Some v else assoc k rest
  end.

(** [v.k] for a value [v] that came from JSON and one of the property
    names the class reads ([success], [status], [erro], ...; none of them
    is [length] or inherited from a prototype): a TypeError on [null],
    the own property of an object, [undefined] on anything else. *)
Definition get (v : json) (k : string) : completion jsval :=
  match v with
  | JNull => Throw TypeError
  | JObj fields => Normal (assoc (lit k) fields)
  | _ => Normal None
  end.

(** [v.k] where [v] may also be [undefined]. *)
Definition get_val (v : jsval) (k : string) : completion jsval :=
  match v with
  | None => Throw TypeError
  | Some j => get j k
  end.

(** [v === 'literal'] *)
Definition is_string (v : jsval) (s : string) : bool :=
  match v with
  | Some (JStr x) => eqb x (lit s)
  | _ => false
  end.

(** [a || {}] followed by property reads. *)
Definition or_empty (v : jsval) : json :=
  if truthy v then match v with Some j => j | None => JObj [] end
  else JObj [].

Definition is_null (v : json) : bool :=
  match v with
  | JNull => true
  | _ => false
  end.

(** The own property [k] of an object, [undefined] on the other values
    that are not [null]. *)
Definition field_of (v : json) (k : string) : jsval :=
  match v with
  | JObj fields => assoc (lit k) fields
  | _ => None
  end.

(** *** Conversion to a string

    A template literal and [new Error(v)] convert the value they are
    given with ToString.  On an object ToString asks for [toString] and
    then [valueOf]: a property of the object's own named [toString]
    comes from JSON and cannot be called, and [valueOf], own or
    inherited, gives no primitive value, so the conversion ends in a
    TypeError.  An array is converted by [join], which converts each of
    its elements but [null]. *)
Fixpoint converts_json (v : json) : bool :=
  match v with
  | JObj fields =>
      negb (existsb (fun kv => eqb (fst kv) (lit "toString")) fields)
  | JArr items =>
      forallb (fun x => match x with JNull => true | _ => converts_json x end)
        items
  | _ => true
  end.

(** [undefined] converts to ['undefined']. *)
Definition converts (v : jsval) : bool :=
  match v with
  | Some j => converts_json j
  | None => true
  end.

(** [`${v}`]: the value that is written, or the TypeError. *)
Definition converted (v : jsval) : completion jsval :=
  if converts v then Normal v else Throw TypeError.

(** [v || 'placeholder'] in a row of a card: the value shown, [None] when
    the placeholder is. *)
Definition display (v : jsval) : jsval := if truthy v then v else None.

(** [`${v || 'placeholder'}`] *)
Definition shown (v : completion jsval) : completion jsval :=
  x <- v ;; converted (display x).

(** ** [JSON.stringify(value, null, 2)] *)

Module Json.

Definition hex_digit (n : N) : N :=
  (if n <? 10 then 48 + n else 87 + n)%N.

(** [\uXXXX] with lower-case hexadecimal digits. *)
Definition unicode_escape (c : N) : jsstring :=
  [92; 117; hex_digit ((c / 4096) mod 16); hex_digit ((c / 256) mod 16);
   hex_digit ((c / 16) mod 16); hex_digit (c mod 16)]%N.

Definition is_leading_surrogate (c : N) : bool :=
  ((55296 <=? c) && (c <=? 56319))%N.

Definition is_trailing_surrogate (c : N) : bool :=
  ((56320 <=? c) && (c <=? 57343))%N.

(** QuoteJSONString without the surrounding quotes: the short escapes,
    [\uXXXX] for the other control characters and for a surrogate that is
    not part of a pair, everything else as it is. *)
Fixpoint quote_body (s : jsstring) : jsstring :=
  match s with
  | [] => []
  | c :: t =>
      if (c =? 8)%N then 92 :: 98 :: quote_body t
      else if (c =? 9)%N then 92 :: 116 :: quote_body t
      else if (c =? 10)%N then 92 :: 110 :: quote_body t
      else if (c =? 12)%N then 92 :: 102 :: quote_body t
      else if (c =? 13)%N then 92 :: 114 :: quote_body t
      else if (c =? 34)%N then 92 :: 34 :: quote_body t
      else if (c =? 92)%N then 92 :: 92 :: quote_body t
      else if (c <? 32)%N then unicode_escape c ++ quote_body t
      else if is_leading_surrogate c then
        match t with
        | d :: t' =>
            if is_trailing_surrogate d then c :: d :: quote_body t'
            else unicode_escape c ++ quote_body t
        | [] => unicode_escape c
        end
      else if is_trailing_surrogate c then unicode_escape c ++ quote_body t
      else c :: quote_body t
  end%N.

Definition quote (s : jsstring) : jsstring :=
  (34 :: quote_body s ++ [34])%N.

Fixpoint digits (u : Decimal.uint) : jsstring :=
  match u with
  | Decimal.Nil => []
  | Decimal.D0 u => 48 :: digits u
  | Decimal.D1 u => 49 :: digits u
  | Decimal.D2 u => 50 :: digits u
  | Decimal.D3 u => 51 :: digits u
  | Decimal.D4 u => 52 :: digits u
  | Decimal.D5 u => 53 :: digits u
  | Decimal.D6 u => 54 :: digits u
  | Decimal.D7 u => 55 :: digits u
  | Decimal.D8 u => 56 :: digits u
  | Decimal.D9 u => 57 :: digits u
  end%N.

(** Number::toString of a length or a count, which the class gets from
    an array or a string (fewer than 2^32 elements): the decimal digits. *)
Definition numeral (n : nat) : jsstring := digits (Nat.to_uint n).

(** [Infinity], which [response.json()] gives for a literal beyond the
    range of the numbers, its negative, and [NaN]. *)
Definition non_finite (n : jsstring) : bool :=
  eqb n (lit "Infinity") || eqb n (lit "-Infinity") || eqb n (lit "NaN").

(** SerializeJSONProperty on a number: its text when it is finite,
    [null] when it is not. *)
Definition number (n : jsstring) : jsstring :=
  if non_finite n then lit "null" else n.

Definition newline (indent : nat) : jsstring := (10 :: repeat 32 indent)%N.

(** The elements of a non-empty array or object, [",\n" + indent]
    between them. *)
Fixpoint join (indent : nat) (parts : list jsstring) : jsstring :=
  match parts with
  | [] => []
  | [p] => p
  | p :: ps => p ++ (44 :: newline indent)%N ++ join indent ps
  end.

(** SerializeJSONProperty with the gap of two spaces, at the current
    indentation. *)
Fixpoint stringify_at (indent : nat) (v : json) : jsstring :=
  match v with
  | JNull => lit "null"
  | JBool true => lit "true"
  | JBool false => lit "false"
  | JNum n => number n
  | JStr s => quote s
  | JArr [] => lit "[]"
  | JArr items =>
      (91 :: newline (indent + 2)
         ++ join (indent + 2) (map (stringify_at (indent + 2)) items)
         ++ newline indent ++ [93])%N
  | JObj [] => lit "{}"
  | JObj fields =>
      (123 :: newline (indent + 2)
         ++ join (indent + 2)
              (map (fun kv => quote (fst kv) ++ [58; 32]
                              ++ stringify_at (indent + 2) (snd kv))
                 fields)
         ++ newline indent ++ [125])%N
  end.

(** [JSON.stringify(v, null, 2)] *)
Definition stringify (v : json) : jsstring := stringify_at 0 v.

(** *** Reading the text back

    A decoder of the texts [stringify] writes.  It keeps a number as its
    text and every member of an object, so that it says what the text
    holds. *)

Definition is_json_ws (c : N) : bool :=
  ((c =? 32) || (c =? 9) || (c =? 10) || (c =? 13))%N.

Fixpoint skip_ws (s : jsstring) : jsstring :=
  match s with
  | [] => []
  | c :: t => if is_json_ws c then skip_ws t else s
  end.

Definition hex_value (c : N) : option N :=
  (if (48 <=? c) && (c <=? 57) then Some (c - 48)
   else if (97 <=? c) && (c <=? 102) then Some (c - 87)
   else if (65 <=? c) && (c <=? 70) then Some (c - 55)
   else None)%N.

Definition hex4 (a b c d : N) : option N :=
  match hex_value a, hex_value b, hex_value c, hex_value d with
  | Some x, Some y, Some z, Some w => Some (x * 4096 + y * 256 + z * 16 + w)%N
  | _, _, _, _ => None
  end.

(** The code unit a one-letter escape stands for. *)
Definition unescape (e : N) : option N :=
  (if e =? 34 then Some 34
   else if e =? 92 then Some 92
   else if e =? 47 then Some 47
   else if e =? 98 then Some 8
   else if e =? 102 then Some 12
   else if e =? 110 then Some 10
   else if e =? 114 then Some 13
   else if e =? 116 then Some 9
   else None)%N.

Definition consume {A B} (a : A) (r : option (list A * B))
  : option (list A * B) :=
  match r with
  | Some (l, rest) => Some (a :: l, rest)
  | None => None
  end.

(** The characters of a string literal after its opening quote, up to
    and including the closing quote. *)
Fixpoint decode_string_body (s : jsstring) : option (jsstring * jsstring) :=
  match s with
  | [] => None
  | c :: t =>
      if (c =? 34)%N then Some ([], t)
      else if (c =? 92)%N then
        match t with
        | [] => None
        | e :: t1 =>
            if (e =? 117)%N then
              match t1 with
              | a :: b :: c' :: d :: t2 =>
                  match hex4 a b c' d with
                  | Some u => consume u (decode_string_body t2)
                  | None => None
                  end
              | _ => None
              end
            else
              match unescape e with
              | Some u => consume u (decode_string_body t1)
              | None => None
              end
        end
      else if (c <? 32)%N then None
      else consume c (decode_string_body t)
  end.

Definition is_digit (c : N) : bool := ((48 <=? c) && (c <=? 57))%N.

(** The code units of a number: the digits, the signs, the point and the
    mark of the exponent. *)
Definition numeral_char (c : N) : bool :=
  (is_digit c || (c =? 43) || (c =? 45) || (c =? 46) || (c =? 101)
   || (c =? 69))%N.

Fixpoint decode_number (s : jsstring) : jsstring * jsstring :=
  match s with
  | [] => ([], [])
  | c :: t =>
      if numeral_char c then let (n, r) := decode_number t in (c :: n, r)
      else ([], s)
  end.

Fixpoint strip_prefix (p s : jsstring) : option jsstring :=
  match p, s with
  | [], _ => Some s
  | a :: p', b :: s' => if (a =? b)%N then strip_prefix p' s' else None
  | _ :: _, [] => None
  end.

(** The grammar of JSON values, by recursive descent; [fuel] bounds the
    number of nested calls. *)
Fixpoint decode_value (fuel : nat) (s : jsstring) : option (json * jsstring) :=
  match fuel with
  | O => None
  | S f =>
      match skip_ws s with
      | [] => None
      | c :: t =>
          if (c =? 34)%N then
            match decode_string_body t with
            | Some (x, r) => Some (JStr x, r)
            | None => None
            end
          else if (c =? 91)%N then
            match skip_ws t with
            | d :: r =>
                if (d =? 93)%N then Some (JArr [], r)
                else
                  match decode_elements f t with
                  | Some (vs, r') => Some (JArr vs, r')
                  | None => None
                  end
            | [] => None
            end
          else if (c =? 123)%N then
            match skip_ws t with
            | d :: r =>
                if (d =? 125)%N then Some (JObj [], r)
                else
                  match decode_members f t with
                  | Some (kvs, r') => Some (JObj kvs, r')
                  | None => None
                  end
            | [] => None
            end
          else if (c =? 110)%N then
            option_map (pair JNull) (strip_prefix (lit "ull") t)
          else if (c =? 116)%N then
            option_map (pair (JBool true)) (strip_prefix (lit "rue") t)
          else if (c =? 102)%N then
            option_map (pair (JBool false)) (strip_prefix (lit "alse") t)
          else if is_digit c || (c =? 45)%N then
            let (n, r) := decode_number (c :: t) in Some (JNum n, r)
          else None
      end
  end
with decode_elements (fuel : nat) (s : jsstring)
  : option (list json * jsstring) :=
  match fuel with
  | O => None
  | S f =>
      match decode_value f s with
      | None => None
      | Some (v, r) =>
          match skip_ws r with
          | [] => None
          | c :: r' =>
              if (c =? 44)%N then consume v (decode_elements f r')
              else if (c =? 93)%N then Some ([v], r')
              else None
          end
      end
  end
with decode_members (fuel : nat) (s : jsstring)
  : option (list (jsstring * json) * jsstring) :=
  match fuel with
  | O => None
  | S f =>
      match skip_ws s with
      | [] => None
      | q :: t =>
          if (q =? 34)%N then
            match decode_string_body t with
            | None => None
            | Some (k, r) =>
                match skip_ws r with
                | [] => None
                | colon :: r1 =>
                    if (colon =? 58)%N then
                      match decode_value f r1 with
                      | None => None
                      | Some (v, r2) =>
                          match skip_ws r2 with
                          | [] => None
                          | c :: r3 =>
                              if (c =? 44)%N
                              then consume (k, v) (decode_members f r3)
                              else if (c =? 125)%N then Some ([(k, v)], r3)
                              else None
                          end
                      end
                    else None
                end
            end
          else None
      end
  end.

(** The value a text holds; [None] when it is not the text of one. *)
Definition decode (text : jsstring) : option json :=
  match decode_value (S (List.length text)) text with
  | Some (v, rest) =>
      match skip_ws rest with
      | [] => Some v
      | _ :: _ => None
      end
  | None => None
  end.

(** *** Values with finite numbers *)

(** The text of a finite number: it opens with a digit or the sign and
    is made of the code units of a number. *)
Definition is_numeral (n : jsstring) : bool :=
  match n with
  | [] => false
  | c :: _ => (is_digit c || (c =? 45)%N) && forallb numeral_char n
  end.

(** Every number of the value, at any depth, is finite. *)
Fixpoint finite_numbers (v : json) : bool :=
  match v with
  | JNum n => is_numeral n
  | JArr items => forallb finite_numbers items
  | JObj fields => forallb (fun kv => finite_numbers (snd kv)) fields
  | _ => true
  end.

(** A bound on the calls [decode_value] nests on the text of [v]. *)
Fixpoint size (v : json) : nat :=
  match v with
  | JArr items => S (list_sum (map (fun x => S (size x)) items))
  | JObj fields => S (list_sum (map (fun kv => S (size (snd kv))) fields))
  | _ => 1
  end.

(** What may follow a value in a text: nothing, a comma, a line break. *)
Definition terminated (rest : jsstring) : bool :=
  match rest with
  | [] => true
  | c :: _ => ((c =? 44) || (c =? 10))%N
  end.

(** A code unit that can open the text of a value: not white space, and
    none of the closing brackets and the comma. *)
Definition opens_value (c : N) : Prop :=
  is_json_ws c = false
  /\ (c =? 93)%N = false /\ (c =? 125)%N = false /\ (c =? 44)%N = false.

(** The text of a member of an object at the indentation [indent]. *)
Definition member_text (indent : nat) (kv : jsstring * json) : jsstring :=
  quote (fst kv) ++ [58; 32]%N ++ stringify_at indent (snd kv).

(** [decode_value] reads the text of [v] back, whatever follows it. *)
Definition round_trips (v : json) : Prop :=
  forall indent rest fuel,
    finite_numbers v = true ->
    terminated rest = true ->
    size v <= fuel ->
    decode_value fuel (stringify_at indent v ++ rest) = Some (v, rest).

End Json.

(** ** The page and the instance *)

(** The body of a request of the class. *)
Inductive request : Type :=
| CarregarPlanilha (csv_url : jsstring)
    (* POST /api/carregar-planilha { csv_url } *)
| ProcessarDocumentos (document_urls : list jsstring) (planilha_data : jsval).
    (* POST /api/processar-documentos { document_urls, planilha_data } *)

(** How the two awaits of a request end. *)
Inductive outcome : Type :=
| FetchRejects (reason : jsstring)  (* [await fetch(...)] throws *)
| JsonRejects (reason : jsstring)   (* [await response.json()] throws *)
| Responds (data : json).           (* the parsed body *)

(** Text put on the page: a literal of the source, or one of its two
    templates. *)
Inductive message : Type :=
| Text (s : string)
| ErroMsg (e : exception)
    (* `❌ Erro: ${error.message}` *)
| PlanilhaCarregada (razoes_sociais cnpjs representantes responsaveis_rede
                     : jsval).
    (* `✅ Planilha carregada com sucesso! ... ${dados.razoes_sociais} ...` *)

(** The body of a result card: the error box, or the two tables (a value
    that is absent is shown by its placeholder) and the six checks. *)
Inductive conteudo : Type :=
| ConteudoErro (erro : jsval)
| ConteudoDados (extraidos receita : list (string * jsval))
                (validacoes : list (string * bool)).

Record card : Type := mkCard {
  statusClass : string;
  statusIcon : string;
  statusText : string;
  numero : nat;
  card_url : jsval;
  card_conteudo : conteudo
}.

(** What a handler does to the page and the network, in order. *)
Inductive effect : Type :=
| Alert (text : string)
| StatusPlanilha (type : string) (msg : message)
| Caption (button : string) (html : string)
| Display (section : string) (value : string)
| Fetch (req : request)
| ProgressBar (percentage : nat)
| LogEntry (msg : message) (class : string)
| ConsoleError (text : string) (e : exception)
| ClearResults
| RenderStats (validos invalidos erros : nat)
| RenderCard (c : card)
| Download (filename content : jsstring)
| Uncaught (e : exception).

Record state : Type := mkState {
  planilhaData : jsval;          (* this.planilhaData *)
  resultados : jsval;            (* this.resultados *)
  csv_url_value : jsstring;      (* #csv-url *)
  document_urls_value : jsstring;(* #document-urls *)
  iniciar_disabled : bool;       (* #iniciar-validacao *)
  carregar_disabled : bool;      (* #carregar-planilha *)
  trace : list effect
}.

(** *** Handlers as state transformers that may throw *)

Definition M (A : Type) : Type := state -> completion A * state.

Definition ret {A} (a : A) : M A := fun st => (Normal a, st).

Definition throw {A} (e : exception) : M A := fun st => (Throw e, st).

Definition mbind {A B} (m : M A) (k : A -> M B) : M B :=
  fun st =>
    match m st with
    | (Normal a, st') => k a st'
    | (Throw e, st') => (Throw e, st')
    end.

Declare Scope js_scope.
Delimit Scope js_scope with js.
Notation "'let*' x := m 'in' k" := (mbind m (fun x => k))
  (at level 10, x name, m at level 100, k at level 200) : js_scope.
Notation "m ;;; k" := (mbind m (fun _ => k))
  (at level 100, k at level 200, right associativity) : js_scope.
Local Open Scope js_scope.

(** A property read lifted into a handler. *)
Definition lift {A} (c : completion A) : M A := fun st => (c, st).

(** [try { body } catch (error) { handler }] *)
Definition try_catch (body : M unit) (handler : exception -> M unit) : M unit :=
  fun st =>
    match body st with
    | (Normal tt, st') => (Normal tt, st')
    | (Throw e, st') => handler e st'
    end.

(** [try { body } finally { final }] *)
Definition try_finally (body final : M unit) : M unit :=
  fun st =>
    match body st with
    | (Normal tt, st') => final st'
    | (Throw e, st') =>
        match final st' with
        | (Normal tt, st'') => (Throw e, st'')
        | (Throw e', st'') => (Throw e', st'')
        end
    end.

Definition emit (e : effect) : M unit :=
  fun st =>
    (Normal tt,
     mkState (planilhaData st) (resultados st) (csv_url_value st)
       (document_urls_value st) (iniciar_disabled st) (carregar_disabled st)
       (trace st ++ [e])).

Definition read {A} (f : state -> A) : M A := fun st => (Normal (f st), st).

Definition set_planilhaData (v : jsval) : M unit :=
  fun st =>
    (Normal tt,
     mkState v (resultados st) (csv_url_value st) (document_urls_value st)
       (iniciar_disabled st) (carregar_disabled st) (trace st)).

Definition set_resultados (v : jsval) : M unit :=
  fun st =>
    (Normal tt,
     mkState (planilhaData st) v (csv_url_value st) (document_urls_value st)
       (iniciar_disabled st) (carregar_disabled st) (trace st)).

Definition set_csv_url_value (v : jsstring) : M unit :=
  fun st =>
    (Normal tt,
     mkState (planilhaData st) (resultados st) v (document_urls_value st)
       (iniciar_disabled st) (carregar_disabled st) (trace st)).

Definition set_document_urls_value (v : jsstring) : M unit :=
  fun st =>
    (Normal tt,
     mkState (planilhaData st) (resultados st) (csv_url_value st) v
       (iniciar_disabled st) (carregar_disabled st) (trace st)).

Definition set_iniciar_disabled (b : bool) : M unit :=
  fun st =>
    (Normal tt,
     mkState (planilhaData st) (resultados st) (csv_url_value st)
       (document_urls_value st) b (carregar_disabled st) (trace st)).

Definition set_carregar_disabled (b : bool) : M unit :=
  fun st =>
    (Normal tt,
     mkState (planilhaData st) (resultados st) (csv_url_value st)
       (document_urls_value st) (iniciar_disabled st) b (trace st)).

(** [for (x of l) body(x, index)], as [Array.prototype.forEach] runs it. *)
Fixpoint forEach {A} (l : list A) (index : nat) (body : A -> nat -> M unit)
  : M unit :=
  match l with
  | [] => ret tt
  | x :: rest => body x index ;;; forEach rest (S index) body
  end.

(** ** The methods of [ValidadorDocumentos] *)

(** [addLog(message, type = 'info')]; the clock prefix of the line is not
    part of the entry. *)
Definition addLog (msg : message) (type : string) : M unit :=
  emit (LogEntry msg
          (if String.eqb type "danger" then "danger"
           else if String.eqb type "success" then "success"
           else "light")).

(** [updateProgress(percentage, message)] *)
Definition updateProgress (percentage : nat) (msg : message) : M unit :=
  emit (ProgressBar percentage) ;;;
  addLog msg (if (percentage =? 100)%nat then "success" else "info").

(** [showAlert(statusElement, type, message)] *)
Definition showAlert (type : string) (msg : message) : M unit :=
  emit (StatusPlanilha type msg).

(** [updateUI()] *)
Definition updateUI : M unit :=
  let* planilha := read planilhaData in
  let* documentUrls := read (fun st => trim (document_urls_value st)) in
  set_iniciar_disabled (negb (truthy planilha) || eqb documentUrls []).

(** [criarItemValidacao(label, status)] *)
Definition criarItemValidacao (label : string) (status : completion jsval)
  : completion (string * bool) :=
  x <- status ;; Normal (label, truthy x).

Definition row (label : string) (v : completion jsval)
  : completion (string * jsval) :=
  x <- shown v ;; Normal (label, x).

(** [criarCardResultado(resultado, numero)] *)
Definition criarCardResultado (resultado : json) (numero : nat)
  : completion card :=
  status <- get resultado "status" ;;
  let statusClass :=
    if is_string status "valido" then "valido"
    else if is_string status "invalido" then "invalido" else "erro" in
  let statusIcon :=
    if is_string status "valido" then "fa-check-circle text-success"
    else if is_string status "invalido" then "fa-times-circle text-danger"
    else "fa-exclamation-triangle text-warning" in
  let statusText :=
    if is_string status "valido" then "Válido"
    else if is_string status "invalido" then "Inválido" else "Erro" in
  erro <- get resultado "erro" ;;
  body <-
    (if truthy erro then
       e <- converted erro ;; Normal (ConteudoErro e)
     else
       dados_extraidos <- get resultado "dados_extraidos" ;;
       dados_receita <- get resultado "dados_receita" ;;
       validacoes_ <- get resultado "validacoes" ;;
       let dados := or_empty dados_extraidos in
       let receita := or_empty dados_receita in
       let validacoes := or_empty validacoes_ in
       d1 <- row "CNPJ:" (get dados "cnpj") ;;
       d2 <- row "Representante Legal:" (get dados "representante_legal") ;;
       d3 <- row "Data:" (get dados "data_documento") ;;
       d4 <- row "Nome Específico:" (get dados "nome_especifico_encontrado") ;;
       r1 <- row "Razão Social:" (get receita "razao_social") ;;
       r2 <- row "Situação:" (get receita "situacao_cadastral") ;;
       r3 <- row "Endereço:" (get receita "logradouro") ;;
       v1 <- criarItemValidacao "CNPJ na Planilha"
               (get validacoes "cnpj_validado_planilha") ;;
       v2 <- criarItemValidacao "Razão Social Válida"
               (get validacoes "razao_social_validada") ;;
       v3 <- criarItemValidacao "CNPJ Ativo na Receita"
               (get validacoes "cnpj_ativo_receita") ;;
       v4 <- criarItemValidacao "Representante Válido"
               (get validacoes "representante_validado") ;;
       v5 <- criarItemValidacao "Nome Específico Válido"
               (get validacoes "nome_especifico_validado") ;;
       v6 <- criarItemValidacao "Data Válida (30 dias)"
               (get validacoes "data_validada") ;;
       Normal (ConteudoDados [d1; d2; d3; d4] [r1; r2; r3]
                 [v1; v2; v3; v4; v5; v6])) ;;
  url <- get resultado "url" ;;
  u <- converted url ;;
  Normal (mkCard statusClass statusIcon statusText numero u body).

(** [this.resultados] as the receiver of [.filter] and [.forEach]: only
    an array has these methods. *)
Definition as_array (v : jsval) : completion (list json) :=
  match v with
  | Some (JArr items) => Normal items
  | _ => Throw TypeError
  end.

(** [items.filter(r => r.status === s)] *)
Fixpoint filter_status (s : string) (items : list json)
  : completion (list json) :=
  match items with
  | [] => Normal []
  | r :: rest =>
      status <- get r "status" ;;
      kept <- filter_status s rest ;;
      Normal (if is_string status s then r :: kept else kept)
  end.

(** [this.resultados.filter(r => r.status === s).length] *)
Definition count_status (s : string) (rs : jsval) : completion nat :=
  items <- as_array rs ;;
  kept <- filter_status s items ;;
  Normal (List.length kept).

(** The callback of the [forEach] of [exibirResultados]. *)
Definition draw_card (resultado : json) (index : nat) : M unit :=
  let* c := lift (criarCardResultado resultado (index + 1)) in
  emit (RenderCard c).

(** [exibirResultados()] *)
Definition exibirResultados : M unit :=
  emit ClearResults ;;;
  emit (Display "secao-resultados" "block") ;;;
  let* rs := read resultados in
  let* validos := lift (count_status "valido" rs) in
  let* invalidos := lift (count_status "invalido" rs) in
  let* erros := lift (count_status "erro" rs) in
  emit (RenderStats validos invalidos erros) ;;;
  let* items := lift (as_array rs) in
  forEach items 0 draw_card.

(** [v.length] for a value that is neither [null] nor [undefined]. *)
Definition length_of (v : jsval) : jsval :=
  match v with
  | Some (JArr items) => Some (JNum (Json.numeral (List.length items)))
  | Some (JStr s) => Some (JNum (Json.numeral (List.length s)))
  | Some (JObj fields) => assoc (lit "length") fields
  | _ => None
  end.

(** [v === 0] *)
Definition is_zero (v : jsval) : bool :=
  match v with
  | Some (JNum n) => eqb n (lit "0")
  | _ => false
  end.

(** The object literal [relatorio] of [downloadRelatorio]. *)
Definition relatorio (timestamp : jsstring) (items : list json)
    (validos invalidos erros : nat) : json :=
  JObj [ (lit "timestamp", JStr timestamp);
         (lit "total_documentos", JNum (Json.numeral (List.length items)));
         (lit "validos", JNum (Json.numeral validos));
         (lit "invalidos", JNum (Json.numeral invalidos));
         (lit "erros", JNum (Json.numeral erros));
         (lit "resultados", JArr items) ].

(** The names of the members of an object, in order. *)
Definition keys (v : json) : list jsstring :=
  match v with
  | JObj fields => map fst fields
  | _ => []
  end.

(** The member names of a BatchReport in section 3 of the specification. *)
Definition batch_report_names : list jsstring :=
  map lit ["timestamp"; "totalDocuments"; "validCount"; "invalidCount";
           "errorCount"; "results"].

(** The member names of the object literal [relatorio]. *)
Definition relatorio_names : list jsstring :=
  map lit ["timestamp"; "total_documentos"; "validos"; "invalidos"; "erros";
           "resultados"].

(** [`relatorio-validacao-${iso.split('T')[0]}.json`] *)
Definition nome_do_arquivo (iso : jsstring) : jsstring :=
  lit "relatorio-validacao-"
    ++ hd [] (split_by (fun c => (c =? 84)%N) iso) ++ lit ".json".

(** [downloadRelatorio()]; [agora] and [depois] are what the two reads of
    the clock, [new Date().toISOString()], give. *)
Definition downloadRelatorio (agora depois : jsstring) : M unit :=
  let* rs := read resultados in
  if negb (truthy rs) || is_zero (length_of rs) then
    emit (Alert "Nenhum resultado para download")
  else
    let* validos := lift (count_status "valido" rs) in
    let* invalidos := lift (count_status "invalido" rs) in
    let* erros := lift (count_status "erro" rs) in
    let* items := lift (as_array rs) in
    emit (Download (nome_do_arquivo depois)
            (Json.stringify (relatorio agora items validos invalidos erros))).

(** *** The two asynchronous methods

    An [async] method runs up to its first [await] when the button is
    clicked and hands back what it waits for; the rest of it runs when
    the request settles, on the state the page has by then. *)

Inductive pendente : Type :=
| AguardaPlanilha     (* carregarPlanilha, at [await fetch] *)
| AguardaDocumentos.  (* iniciarValidacao, at [await fetch] *)

Definition await_fetch (o : outcome) : M unit :=
  match o with
  | FetchRejects reason => throw (Rejected reason)
  | _ => ret tt
  end.

Definition await_json (o : outcome) : M json :=
  match o with
  | FetchRejects reason => throw (Rejected reason)
  | JsonRejects reason => throw (Rejected reason)
  | Responds data => ret data
  end.

(** What [throw new Error(v || fallback)] throws: the constructor
    converts its argument to a string, and its TypeError is thrown in
    place of the error under construction. *)
Definition error_or (v : jsval) (fallback : string) : exception :=
  match v with
  | Some j =>
      if truthy v then if converts v then ErrorOf j else TypeError
      else ErrorLiteral fallback
  | None => ErrorLiteral fallback
  end.

(** [carregarPlanilha()], up to [await fetch('/api/carregar-planilha')]. *)
Definition carregarPlanilha : M (option pendente) :=
  let* csvUrl := read (fun st => trim (csv_url_value st)) in
  if eqb csvUrl [] then
    showAlert "danger" (Text "Por favor, insira a URL da planilha") ;;;
    ret None
  else
    set_carregar_disabled true ;;;
    emit (Caption "carregar-planilha" "Carregando...") ;;;
    showAlert "info" (Text "Carregando planilha...") ;;;
    emit (Fetch (CarregarPlanilha csvUrl)) ;;;
    ret (Some AguardaPlanilha).

(** [carregarPlanilha()], from the settled request to its end. *)
Definition carregarPlanilha_resume (o : outcome) : M unit :=
  try_finally
    (try_catch
       (await_fetch o ;;;
        let* data := await_json o in
        let* success := lift (get data "success") in
        if truthy success then
          let* planilha_data := lift (get data "planilha_data") in
          set_planilhaData planilha_data ;;;
          let* dados := lift (get data "dados") in
          let* razoes_sociais :=
            lift (x <- get_val dados "razoes_sociais" ;; converted x) in
          let* cnpjs := lift (x <- get_val dados "cnpjs" ;; converted x) in
          let* representantes :=
            lift (x <- get_val dados "representantes" ;; converted x) in
          let* responsaveis :=
            lift (x <- get_val dados "responsaveis_rede" ;; converted x) in
          showAlert "success"
            (PlanilhaCarregada razoes_sociais cnpjs representantes
               responsaveis) ;;;
          updateUI
        else
          let* err := lift (get data "error") in
          throw (error_or err "Erro desconhecido"))
       (fun error =>
          emit (ConsoleError "Erro ao carregar planilha:" error) ;;;
          showAlert "danger" (ErroMsg error) ;;;
          set_planilhaData (Some JNull)))
    (set_carregar_disabled false ;;;
     emit (Caption "carregar-planilha" "Carregar Planilha") ;;;
     updateUI).

(** [iniciarValidacao()], up to
    [await fetch('/api/processar-documentos')]. *)
Definition iniciarValidacao : M (option pendente) :=
  let* documentUrls :=
    read (fun st => parseDocumentUrls (document_urls_value st)) in
  if (List.length documentUrls =? 0)%nat then
    emit (Alert "Por favor, insira pelo menos uma URL de documento") ;;;
    ret None
  else if (3 <? List.length documentUrls)%nat then
    emit (Alert "Máximo de 3 documentos permitidos") ;;;
    ret None
  else
    emit (Display "secao-progresso" "block") ;;;
    emit (Display "secao-resultados" "none") ;;;
    updateProgress 0 (Text "Iniciando validação...") ;;;
    set_iniciar_disabled true ;;;
    emit (Caption "iniciar-validacao" "Processando...") ;;;
    updateProgress 20 (Text "Enviando documentos para processamento...") ;;;
    let* planilha := read planilhaData in
    emit (Fetch (ProcessarDocumentos documentUrls planilha)) ;;;
    ret (Some AguardaDocumentos).

(** [iniciarValidacao()], from the settled request to its end. *)
Definition iniciarValidacao_resume (o : outcome) : M unit :=
  try_finally
    (try_catch
       (await_fetch o ;;;
        updateProgress 60 (Text "Processando documentos...") ;;;
        let* data := await_json o in
        let* success := lift (get data "success") in
        if truthy success then
          updateProgress 100 (Text "Processamento concluído!") ;;;
          let* rs := lift (get data "resultados") in
          set_resultados rs ;;;
          exibirResultados
        else
          let* err := lift (get data "error") in
          throw (error_or err "Erro no processamento"))
       (fun error =>
          emit (ConsoleError "Erro no processamento:" error) ;;;
          updateProgress 0 (ErroMsg error) ;;;
          addLog (ErroMsg error) "danger"))
    (set_iniciar_disabled false ;;;
     emit (Caption "iniciar-validacao" "Iniciar Validação") ;;;
     updateUI).

Definition resume (p : pendente) (o : outcome) : M unit :=
  match p with
  | AguardaPlanilha => carregarPlanilha_resume o
  | AguardaDocumentos => iniciarValidacao_resume o
  end.

(** A method with the outcome of its request known: from the click to
    the end of the method, nothing else happening in between. *)
Definition to_completion (start : M (option pendente)) (o : outcome)
  : M unit :=
  let* p := start in
  match p with
  | Some w => resume w o
  | None => ret tt
  end.

(** [st] with its trace replaced. *)
Definition with_trace (st : state) (t : list effect) : state :=
  mkState (planilhaData st) (resultados st) (csv_url_value st)
    (document_urls_value st) (iniciar_disabled st) (carregar_disabled st) t.

(** The values of [this.resultados] that [exibirResultados] and
    [downloadRelatorio] go through without a TypeError: the arrays with
    no [null] in them. *)
Definition renders (rs : jsval) : bool :=
  match rs with
  | Some (JArr items) => forallb (fun r => negb (is_null r)) items
  | _ => false
  end.

(** The cards [exibirResultados] makes of the results from [index] on. *)
Fixpoint card_list (items : list json) (index : nat)
  : completion (list card) :=
  match items with
  | [] => Normal []
  | r :: rest =>
      c <- criarCardResultado r (index + 1) ;;
      cs <- card_list rest (S index) ;;
      Normal (c :: cs)
  end.

(** The number of results of status [s]. *)
Definition count_of (s : string) (items : list json) : nat :=
  List.length (filter (fun r => is_string (field_of r "status") s) items).

(** The effects that only draw the results. *)
Definition rendering (e : effect) : bool :=
  match e with
  | ClearResults | Display _ _ | RenderStats _ _ _ | RenderCard _ => true
  | _ => false
  end.

(** The response reports success: [data.success] is truthy. *)
Definition succeeded (data : json) : bool :=
  negb (is_null data) && truthy (field_of data "success").

(** The request did not end in a response that reports success. *)
Definition run_failed (o : outcome) : bool :=
  match o with
  | Responds data => negb (succeeded data)
  | _ => true
  end.

(** What the [try] block of a method throws on such an outcome. *)
Definition failure (fallback : string) (o : outcome) : exception :=
  match o with
  | FetchRejects reason => Rejected reason
  | JsonRejects reason => Rejected reason
  | Responds data =>
      if is_null data then TypeError
      else error_or (field_of data "error") fallback
  end.

(** The results [criarCardResultado] makes a card of: those that are not
    [null] and whose values on the card convert to strings. *)
Definition drawable (r : json) : bool :=
  negb (is_null r)
  && (if truthy (field_of r "erro") then converts (field_of r "erro")
      else
        let dados := or_empty (field_of r "dados_extraidos") in
        let receita := or_empty (field_of r "dados_receita") in
        forallb (fun v => converts (display v))
          [ field_of dados "cnpj";
            field_of dados "representante_legal";
            field_of dados "data_documento";
            field_of dados "nome_especifico_encontrado";
            field_of receita "razao_social";
            field_of receita "situacao_cadastral";
            field_of receita "logradouro" ])
  && converts (field_of r "url").

(** The values of [this.resultados] that [exibirResultados] draws to the
    last card: the arrays of results it makes a card of. *)
Definition draws (rs : jsval) : bool :=
  match rs with
  | Some (JArr items) => forallb drawable items
  | _ => false
  end.

(** The percentages [iniciarValidacao] sets once its request settled. *)
Definition stages (o : outcome) : list nat :=
  match o with
  | FetchRejects _ => [0]
  | JsonRejects _ => [60; 0]
  | Responds data =>
      if succeeded data then
        if draws (field_of data "resultados") then [60; 100]
        else [60; 100; 0]
      else [60; 0]
  end.

(** The lines of the log of a trace, each with its class. *)
Fixpoint log_lines (t : list effect) : list (message * string) :=
  match t with
  | [] => []
  | LogEntry msg class :: rest => (msg, class) :: log_lines rest
  | _ :: rest => log_lines rest
  end.

(** The lines [iniciarValidacao] writes once its request settled: one
    per stage, and the error a second time, in red, when there is one. *)
Definition closing_lines (o : outcome) : list (message * string) :=
  let failed e := [(ErroMsg e, "light"); (ErroMsg e, "danger")] in
  let answered := (Text "Processando documentos...", "light") in
  match o with
  | FetchRejects reason => failed (Rejected reason)
  | JsonRejects reason => answered :: failed (Rejected reason)
  | Responds data =>
      if succeeded data then
        answered
          :: (Text "Processamento concluído!", "success")
          :: (if draws (field_of data "resultados") then []
              else failed TypeError)
      else answered :: failed (failure "Erro no processamento" o)
  end.

(** A batch [iniciarValidacao] accepts: one to three locators. *)
Definition accepted (st : state) : bool :=
  let n := List.length (parseDocumentUrls (document_urls_value st)) in
  (1 <=? n)%nat && (n <=? 3)%nat.

(** What [iniciarValidacao] puts on the trace before it waits. *)
Definition opening (st : state) : list effect :=
  [ Display "secao-progresso" "block";
    Display "secao-resultados" "none";
    ProgressBar 0;
    LogEntry (Text "Iniciando validação...") "light";
    Caption "iniciar-validacao" "Processando...";
    ProgressBar 20;
    LogEntry (Text "Enviando documentos para processamento...") "light";
    Fetch (ProcessarDocumentos
             (parseDocumentUrls (document_urls_value st))
             (planilhaData st)) ].

(** The lifecycle the specification describes for a batch of [n]
    documents, as a shape of the list of notifications: a first one, one
    per document, a last one. *)
Definition one_notification_per_document {A} (n : nat)
    (notifications : list A) : Prop :=
  exists started per_document finished,
    notifications = started :: per_document ++ [finished]
    /\ List.length per_document = n.

(** The load ends well: the response reports success and carries the
    counts [dados] that the success message reads and writes out. *)
Definition loads (o : outcome) : bool :=
  match o with
  | Responds data =>
      succeeded data
      && match field_of data "dados" with
         | Some d =>
             negb (is_null d)
             && converts (field_of d "razoes_sociais")
             && converts (field_of d "cnpjs")
             && converts (field_of d "representantes")
             && converts (field_of d "responsaveis_rede")
         | None => false
         end
  | _ => false
  end.

(** [this.planilhaData] once a load has settled. *)
Definition planilha_after (o : outcome) : jsval :=
  match o with
  | Responds data =>
      if loads o then field_of data "planilha_data" else Some JNull
  | _ => Some JNull
  end.

(** What a method that only alerts [text] and returns leaves. *)
Definition rejected (text : string) (st : state)
  : completion (option pendente) * state :=
  (Normal None, snd (emit (Alert text) st)).

(** What a handler adds to the trace of [st]. *)
Definition emitted {A} (h : M A) (st : state) : list effect :=
  skipn (List.length (trace st)) (trace (snd (h st))).

(** *** The event loop *)

(** The state a handler leaves; an exception that escapes it is reported
    and the event is over. *)
Definition exec {A} (h : M A) (st : state) : state :=
  match h st with
  | (Normal _, st') => st'
  | (Throw e, st') => snd (emit (Uncaught e) st')
  end.

(** [new ValidadorDocumentos()] on a page whose two fields hold [csv] and
    [docs]: the constructor, then [init()]. *)
Definition construct (csv docs : jsstring) : state :=
  exec updateUI (mkState (Some JNull) (Some (JArr [])) csv docs false false []).

Record app : Type := mkApp {
  page : state;
  waiting : list pendente   (* the requests in flight, oldest first *)
}.

Inductive event : Type :=
| InputCsvUrl (value : jsstring)        (* the user edits #csv-url *)
| InputDocumentUrls (value : jsstring)  (* the user edits #document-urls *)
| ClickCarregar
| ClickIniciar
| ClickDownload (agora depois : jsstring)
| Settle (n : nat) (o : outcome).       (* the n-th request in flight ends *)

Fixpoint remove_nth {A} (n : nat) (l : list A) : list A :=
  match n, l with
  | _, [] => []
  | O, _ :: t => t
  | S m, x :: t => x :: remove_nth m t
  end.

(** A click on a disabled button dispatches nothing. *)
Definition click (disabled : bool) (start : M (option pendente)) (a : app)
  : app :=
  if disabled then a
  else
    match start (page a) with
    | (Normal (Some w), st) => mkApp st (waiting a ++ [w])
    | (Normal None, st) => mkApp st (waiting a)
    | (Throw e, st) => mkApp (snd (emit (Uncaught e) st)) (waiting a)
    end.

Definition step (a : app) (ev : event) : app :=
  match ev with
  | InputCsvUrl v =>
      mkApp (exec (set_csv_url_value v ;;; updateUI) (page a)) (waiting a)
  | InputDocumentUrls v =>
      mkApp (exec (set_document_urls_value v ;;; updateUI) (page a))
        (waiting a)
  | ClickCarregar => click (carregar_disabled (page a)) carregarPlanilha a
  | ClickIniciar => click (iniciar_disabled (page a)) iniciarValidacao a
  | ClickDownload agora depois =>
      mkApp (exec (downloadRelatorio agora depois) (page a)) (waiting a)
  | Settle n o =>
      match nth_error (waiting a) n with
      | Some w => mkApp (exec (resume w o) (page a)) (remove_nth n (waiting a))
      | None => a
      end
  end.

Definition run (a : app) (evs : list event) : app := fold_left step evs a.

(** The event is the end of a load that went well. *)
Definition is_successful_load (a : app) (ev : event) : bool :=
  match ev with
  | Settle n o =>
      match nth_error (waiting a) n with
      | Some AguardaPlanilha => loads o
      | _ => false
      end
  | _ => false
  end.

(** No event of the sequence is the end of a load that went well. *)
Fixpoint without_reload (a : app) (evs : list event) : bool :=
  match evs with
  | [] => true
  | ev :: rest =>
      negb (is_successful_load a ev) && without_reload (step a ev) rest
  end.

(** *** Observations on a trace *)

Definition is_processing_request (e : effect) : bool :=
  match e with
  | Fetch (ProcessarDocumentos _ _) => true
  | _ => false
  end.

Definition is_request (e : effect) : bool :=
  match e with
  | Fetch _ => true
  | _ => false
  end.

(** No dataset, and the start button disabled. *)
Definition locked (st : state) : Prop :=
  planilhaData st = Some JNull /\ iniciar_disabled st = true.

Definition processing_requests (st : state) : list effect :=
  filter is_processing_request (trace st).

(** The progress notifications of a trace: the calls of
    [updateProgress], as the percentages they set. *)
Fixpoint progress (t : list effect) : list nat :=
  match t with
  | [] => []
  | ProgressBar p :: rest => p :: progress rest
  | _ :: rest => progress rest
  end.

Fixpoint cards (t : list effect) : list card :=
  match t with
  | [] => []
  | RenderCard c :: rest => c :: cards rest
  | _ :: rest => cards rest
  end.

Fixpoint downloads (t : list effect) : list jsstring :=
  match t with
  | [] => []
  | Download _ content :: rest => content :: downloads rest
  | _ :: rest => downloads rest
  end.

(** ** The processing endpoint

    [/api/processar-documentos] is served by [src/main.py], which is not
    among the sources at hand.  The definitions of this module follow the
    specification of the orchestrator instead. *)

Module Orchestrator.

(** Modelled from the spec: the ReferenceDataset of [main.py], four sets
    of strings that are compared after normalization. *)
Record ReferenceDataset : Type := mkReference {
  legalNames : list jsstring;
  taxIds : list jsstring;
  representatives : list jsstring;
  networkContacts : list jsstring
}.

(** Modelled from the spec: the ExtractedFields of [main.py]; an absent
    field was not found.  A date is an instant, in milliseconds. *)
Record ExtractedFields : Type := mkFields {
  taxId : option jsstring;
  representativeName : option jsstring;
  documentDate : option Z;
  specificNameFound : option jsstring
}.

(** Modelled from the spec: the RegistryRecord of [main.py]. *)
Record RegistryRecord : Type := mkRegistry {
  legalName : option jsstring;
  registrationStatus : option jsstring;
  address : option jsstring
}.

(** Modelled from the spec: the failure of an adapter of [main.py]. *)
Inductive FailureKind : Type := notFound | unreadable | timeout | network.

Record Failure : Type := mkFailure {
  kind : FailureKind;
  detail : jsstring
}.

(** Modelled from the spec: the six ValidationFlags of [main.py]. *)
Record ValidationFlags : Type := mkFlags {
  taxIdInReference : bool;
  legalNameValid : bool;
  taxIdActiveInRegistry : bool;
  representativeValid : bool;
  specificNameValid : bool;
  documentDateValid : bool
}.

(** Modelled from the spec: the terminal status of a document in
    [main.py]. *)
Inductive Status : Type := valid | invalid | error.

(** Modelled from the spec: the DocumentResult of [main.py]. *)
Record DocumentResult : Type := mkResult {
  locator : jsstring;
  status : Status;
  extractedFields : option ExtractedFields;
  registryRecord : option RegistryRecord;
  validationFlags : ValidationFlags;
  errorDetail : option jsstring
}.

(** Modelled from the spec: the normalization [main.py] applies before a
    comparison: trim, case-fold (the ASCII letters), collapse each run of
    inner white space to one space. *)
Definition case_fold (c : N) : N :=
  (if (65 <=? c) && (c <=? 90) then c + 32 else c)%N.

Fixpoint collapse (s : jsstring) : jsstring :=
  match s with
  | [] => []
  | c :: t =>
      if is_white_space c then
        match t with
        | d :: _ => if is_white_space d then collapse t else 32%N :: collapse t
        | [] => [32%N]
        end
      else c :: collapse t
  end.

Definition normalize (s : jsstring) : jsstring :=
  map case_fold (collapse (trim s)).

Definition same (a b : jsstring) : bool := eqb (normalize a) (normalize b).

(** Set membership, not a count. *)
Definition member (x : jsstring) (set : list jsstring) : bool :=
  existsb (same x) set.

Definition present_in (x : option jsstring) (set : list jsstring) : bool :=
  match x with
  | Some v => member v set
  | None => false
  end.

Definition thirty_days : Z := 30 * 86400000.

(** Modelled from the spec: the date rule of [main.py]: the date is
    present, not in the future, and at most 30 days before the processing
    time. *)
Definition date_rule (now : Z) (date : option Z) : bool :=
  match date with
  | Some t => ((t <=? now) && (now - t <=? thirty_days))%Z
  | None => false
  end.

Section Adapters.

(** The collaborators of the orchestrator: the two adapters (a call that
    times out returns the failure of kind [timeout]), the status value
    the registry gives an active company, and the processing time. *)
Variable extract : jsstring -> ExtractedFields + Failure.
Variable lookup : jsstring -> RegistryRecord + Failure.
Variable active : jsstring.
Variable now : Z.

(** Modelled from the spec: [evaluate(fields, reference, registry)] of
    the Validation Rule Engine of [main.py]. *)
Definition evaluate (fields : ExtractedFields) (reference : ReferenceDataset)
    (registry : option RegistryRecord) : ValidationFlags :=
  mkFlags
    (present_in (taxId fields) (taxIds reference))
    (match registry with
     | Some r => present_in (legalName r) (legalNames reference)
     | None => false
     end)
    (match registry with
     | Some r =>
         match registrationStatus r with
         | Some s => same s active
         | None => false
         end
     | None => false
     end)
    (present_in (representativeName fields) (representatives reference))
    (present_in (specificNameFound fields) (networkContacts reference))
    (date_rule now (documentDate fields)).

Definition all_true (f : ValidationFlags) : bool :=
  taxIdInReference f && legalNameValid f && taxIdActiveInRegistry f
  && representativeValid f && specificNameValid f && documentDateValid f.

Definition no_flags : ValidationFlags :=
  mkFlags false false false false false false.

(** Modelled from the spec: step 3 of the Document Processor of
    [main.py]: the registry is asked when a tax id was extracted, and a
    failure of it leaves the record absent. *)
Definition consult (fields : ExtractedFields) : option RegistryRecord :=
  match taxId fields with
  | Some id =>
      match lookup id with
      | inl r => Some r
      | inr _ => None
      end
  | None => None
  end.

(** Modelled from the spec: [process(locator, reference)] of the Document
    Processor of [main.py]. *)
Definition process (reference : ReferenceDataset) (loc : jsstring)
  : DocumentResult :=
  match extract loc with
  | inr failure =>
      mkResult loc error None None no_flags (Some (detail failure))
  | inl fields =>
      let registry := consult fields in
      let flags := evaluate fields reference registry in
      mkResult loc (if all_true flags then valid else invalid)
        (Some fields) registry flags None
  end.

(** Modelled from the spec: the result slots of the Batch Orchestrator of
    [main.py]: one per locator, filled at the document's own index when
    the document finishes. *)
Fixpoint fill {A} (i : nat) (x : A) (slots : list (option A))
  : list (option A) :=
  match slots, i with
  | [], _ => []
  | _ :: rest, O => Some x :: rest
  | s :: rest, S j => s :: fill j x rest
  end.

Definition finish (reference : ReferenceDataset) (locators : list jsstring)
    (slots : list (option DocumentResult)) (i : nat)
  : list (option DocumentResult) :=
  match nth_error locators i with
  | Some loc => fill i (process reference loc) slots
  | None => slots
  end.

(** The slots of a run in progress: one per locator, each holding
    nothing or the result of the document of its index. *)
Definition sound (reference : ReferenceDataset) (locators : list jsstring)
    (slots : list (option DocumentResult)) : Prop :=
  List.length slots = List.length locators
  /\ forall i loc, nth_error locators i = Some loc ->
       nth_error slots i = Some None
       \/ nth_error slots i = Some (Some (process reference loc)).

Fixpoint collect {A} (slots : list (option A)) : option (list A) :=
  match slots with
  | [] => Some []
  | Some x :: rest => option_map (cons x) (collect rest)
  | None :: _ => None
  end.

(** Modelled from the spec: [run(reference, locators)] of the Batch
    Orchestrator of [main.py], the documents finishing in the order
    [completion]: [None] is InvalidBatchSize, and so is a run that ends
    with a slot still empty. *)
Definition runBatch (reference : ReferenceDataset) (locators : list jsstring)
    (completion : list nat) : option (list DocumentResult) :=
  let n := List.length locators in
  if (n =? 0)%nat || (3 <? n)%nat then None
  else
    collect (fold_left (finish reference locators) completion
               (repeat None n)).

(** *** What the endpoint answers

    [script.js] reads two members of the body: [success], and
    [resultados], the array of the results.  How [main.py] writes one
    result is not at hand; [encode] stands for it, and nothing is
    assumed of it. *)
Variable encode : DocumentResult -> json.

(** Modelled from the spec: the body [main.py] answers a batch that ran
    with, one element per result, in the order of the results. *)
Definition response (results : list DocumentResult) : json :=
  JObj [ (lit "success", JBool true);
         (lit "resultados", JArr (map encode results)) ].

End Adapters.

End Orchestrator.

(** ** Further observations *)

(** What the handler of an event adds to the trace, the report of an
    exception that escapes it included. *)
Definition reported {A} (h : M A) (st : state) : list effect :=
  skipn (List.length (trace st)) (trace (exec h st)).

(** [st] with the [disabled] flag of the start button replaced. *)
Definition with_iniciar_disabled (st : state) (b : bool) : state :=
  mkState (planilhaData st) (resultados st) (csv_url_value st)
    (document_urls_value st) b (carregar_disabled st) (trace st).

(** A string that [trim] leaves as it is: empty, or with a first and a
    last code unit that are not white space. *)
Definition trimmed (s : jsstring) : Prop :=
  trimStart s = s /\ trimStart (rev s) = rev s.

Definition no_separator (s : jsstring) : bool :=
  forallb (fun c => negb (is_separator c)) s.

(** [us.join(',')] *)
Fixpoint join_comma (us : list jsstring) : jsstring :=
  match us with
  | [] => []
  | [u] => u
  | u :: rest => u ++ 44%N :: join_comma rest
  end.

(** The rows and checks of the card of a result without [erro]. *)
Definition dados_do_card (resultado : json) : conteudo :=
  let dados := or_empty (field_of resultado "dados_extraidos") in
  let receita := or_empty (field_of resultado "dados_receita") in
  let validacoes := or_empty (field_of resultado "validacoes") in
  ConteudoDados
    [ ("CNPJ:", display (field_of dados "cnpj"));
      ("Representante Legal:", display (field_of dados "representante_legal"));
      ("Data:", display (field_of dados "data_documento"));
      ("Nome Específico:",
       display (field_of dados "nome_especifico_encontrado")) ]
    [ ("Razão Social:", display (field_of receita "razao_social"));
      ("Situação:", display (field_of receita "situacao_cadastral"));
      ("Endereço:", display (field_of receita "logradouro")) ]
    [ ("CNPJ na Planilha",
       truthy (field_of validacoes "cnpj_validado_planilha"));
      ("Razão Social Válida",
       truthy (field_of validacoes "razao_social_validada"));
      ("CNPJ Ativo na Receita",
       truthy (field_of validacoes "cnpj_ativo_receita"));
      ("Representante Válido",
       truthy (field_of validacoes "representante_validado"));
      ("Nome Específico Válido",
       truthy (field_of validacoes "nome_especifico_validado"));
      ("Data Válida (30 dias)", truthy (field_of validacoes "data_validada")) ].

(** The card [criarCardResultado] makes of a result it can draw. *)
Definition card_of (resultado : json) (numero : nat) : card :=
  let status := field_of resultado "status" in
  mkCard
    (if is_string status "valido" then "valido"
     else if is_string status "invalido" then "invalido" else "erro")
    (if is_string status "valido" then "fa-check-circle text-success"
     else if is_string status "invalido" then "fa-times-circle text-danger"
     else "fa-exclamation-triangle text-warning")
    (if is_string status "valido" then "Válido"
     else if is_string status "invalido" then "Inválido" else "Erro")
    numero
    (field_of resultado "url")
    (if truthy (field_of resultado "erro")
     then ConteudoErro (field_of resultado "erro")
     else dados_do_card resultado).

(** What the [try] block of [carregarPlanilha] throws when the load does
    not end well: the failure of the request, or the TypeError of
    reading the counts of a response that has none. *)
Definition load_failure (o : outcome) : exception :=
  if run_failed o then failure "Erro desconhecido" o else TypeError.

(** The success message of a load: the four counts of [dados]. *)
Definition counts_message (dados : jsval) : message :=
  match dados with
  | Some d =>
      PlanilhaCarregada (field_of d "razoes_sociais") (field_of d "cnpjs")
        (field_of d "representantes") (field_of d "responsaveis_rede")
  | None => PlanilhaCarregada None None None None
  end.

(** [data.dados] of the response, when there is one. *)
Definition dados_of (o : outcome) : jsval :=
  match o with
  | Responds data => field_of data "dados"
  | _ => None
  end.

(** What [carregarPlanilha] puts on the trace once its request has
    settled. *)
Definition load_closing (o : outcome) : list effect :=
  (if loads o then
     [ StatusPlanilha "success" (counts_message (dados_of o)) ]
   else
     [ ConsoleError "Erro ao carregar planilha:" (load_failure o);
       StatusPlanilha "danger" (ErroMsg (load_failure o)) ])
  ++ [ Caption "carregar-planilha" "Carregar Planilha" ].

Definition is_load (w : pendente) : bool :=
  match w with
  | AguardaPlanilha => true
  | AguardaDocumentos => false
  end.

(** The number of load requests in flight. *)
Definition loads_in_flight (a : app) : nat :=
  List.length (filter is_load (waiting a)).

(** Every effect but a request to the processing endpoint that carries
    no dataset, no locator, more than three locators, or a blank
    locator. *)
Definition legitimate (e : effect) : bool :=
  match e with
  | Fetch (ProcessarDocumentos document_urls planilha_data) =>
      truthy planilha_data
      && (1 <=? List.length document_urls)%nat
      && (List.length document_urls <=? 3)%nat
      && forallb (fun u => negb (blank u)) document_urls
  | _ => true
  end.

(** The start button is disabled whenever no dataset is loaded. *)
Definition guarded (st : state) : Prop :=
  truthy (planilhaData st) = false -> iniciar_disabled st = true.

(** No load in flight and the load button enabled, or one load in flight
    and the button disabled. *)
Definition one_load (a : app) : Prop :=
  (loads_in_flight a = 0 /\ carregar_disabled (page a) = false)
  \/ (loads_in_flight a = 1 /\ carregar_disabled (page a) = true).

(** ** The description of the parsing, on its own *)

(** The pieces of a text between its commas (code unit 44) and its line
    feeds (code unit 10), from the first to the last; [piece] holds the
    piece under way, its last code unit first. *)
Fixpoint pieces (piece text : jsstring) : list jsstring :=
  match text with
  | [] => [rev piece]
  | c :: rest =>
      if ((c =? 44) || (c =? 10))%N then rev piece :: pieces [] rest
      else pieces (c :: piece) rest
  end.

(** Split on commas and newlines, trim each piece, drop the empty
    pieces. *)
Definition split_trim_drop (raw : jsstring) : list jsstring :=
  filter (fun p => (0 <? List.length p)%nat) (map trim (pieces [] raw)).

(** Nothing but white space, commas and line feeds. *)
Definition only_space_and_separators (raw : jsstring) : bool :=
  forallb (fun c => is_white_space c || (c =? 44)%N || (c =? 10)%N) raw.

(** ** Observations on the results *)


(** The cards of the results that come before the first one
    [criarCardResultado] makes no card of. *)
Fixpoint first_cards (items : list json) (index : nat) : list card :=
  match items with
  | [] => []
  | r :: rest =>
      match criarCardResultado r (index + 1) with
      | Normal c => c :: first_cards rest (S index)
      | Throw _ => []
      end
  end.

(** What [exibirResultados] puts on the page: the section emptied and
    shown, then, unless a filter met a [null], the three counts and the
    cards up to the first result no card is made of. *)
Definition drawing (rs : jsval) : list effect :=
  ClearResults
    :: Display "secao-resultados" "block"
    :: match rs with
       | Some (JArr items) =>
           if renders rs then
             RenderStats (count_of "valido" items)
               (count_of "invalido" items) (count_of "erro" items)
               :: map RenderCard (first_cards items 0)
           else []
       | _ => []
       end.

(** What [iniciarValidacao] puts on the trace once its request has
    settled. *)
Definition closing (o : outcome) : list effect :=
  let failed e :=
    [ ConsoleError "Erro no processamento:" e;
      ProgressBar 0;
      LogEntry (ErroMsg e) "light";
      LogEntry (ErroMsg e) "danger" ] in
  let answered :=
    [ ProgressBar 60; LogEntry (Text "Processando documentos...") "light" ] in
  match o with
  | FetchRejects reason => failed (Rejected reason)
  | JsonRejects reason => answered ++ failed (Rejected reason)
  | Responds data =>
      if succeeded data then
        answered
          ++ [ ProgressBar 100;
               LogEntry (Text "Processamento concluído!") "success" ]
          ++ drawing (field_of data "resultados")
          ++ (if draws (field_of data "resultados") then []
              else failed TypeError)
      else answered ++ failed (failure "Erro no processamento" o)
  end
  ++ [ Caption "iniciar-validacao" "Iniciar Validação" ].

(** [this.resultados] once a run has settled. *)
Definition resultados_after (o : outcome) (before : jsval) : jsval :=
  match o with
  | Responds data =>
      if succeeded data then field_of data "resultados" else before
  | _ => before
  end.

(** The text of the report, line by line: the opening brace, the six
    members at an indentation of two, a comma and a line break between
    them, and the closing brace. *)
Definition relatorio_text (timestamp : jsstring) (items : list json)
    (validos invalidos erros : nat) : jsstring :=
  let member key v := Json.member_text 2 (lit key, v) in
  let next := (44 :: Json.newline 2)%N in
  (123 :: Json.newline 2)%N
    ++ member "timestamp" (JStr timestamp) ++ next
    ++ member "total_documentos" (JNum (Json.numeral (List.length items)))
    ++ next
    ++ member "validos" (JNum (Json.numeral validos)) ++ next
    ++ member "invalidos" (JNum (Json.numeral invalidos)) ++ next
    ++ member "erros" (JNum (Json.numeral erros)) ++ next
    ++ member "resultados" (JArr items)
    ++ Json.newline 0 ++ [125%N].

(** * Properties *)

Unset Implicit Arguments.

(** ** Strings *)

Lemma eqb_eq a b : eqb a b = true <-> a = b.
Proof.
  unfold eqb. destruct (list_eq_dec N.eq_dec a b); split; congruence.
Qed.

Lemma eqb_refl a : eqb a a = true.
Proof. now apply eqb_eq. Qed.

Lemma eqb_neq a b : eqb a b = false <-> a <> b.
Proof.
  unfold eqb. destruct (list_eq_dec N.eq_dec a b); split; congruence.
Qed.

Lemma eqb_nil_length (u : jsstring) :
  negb (eqb u []) = (0 <? List.length u)%nat.
Proof. now destruct u. Qed.

Section Trim.

Lemma blank_app a b : blank (a ++ b) = blank a && blank b.
Proof. apply forallb_app. Qed.

Lemma blank_rev s : blank (rev s) = blank s.
Proof.
  induction s as [|c t IH]; simpl; auto.
  rewrite blank_app, IH. simpl. rewrite andb_true_r. apply andb_comm.
Qed.

Lemma trimStart_blank s : blank s = true -> trimStart s = [].
Proof.
  induction s as [|c t IH]; simpl; auto.
  destruct (is_white_space c); simpl; auto. discriminate.
Qed.

Lemma blank_trimStart s : blank (trimStart s) = true -> trimStart s = [].
Proof.
  induction s as [|c t IH]; simpl; auto.
  destruct (is_white_space c) eqn:E; auto.
  simpl. rewrite E. discriminate.
Qed.

Lemma trimEnd_blank s : blank s = true -> trimEnd s = [].
Proof.
  intros H. unfold trimEnd. rewrite trimStart_blank; auto.
  now rewrite blank_rev.
Qed.

Lemma blank_trimEnd s : blank (trimEnd s) = true -> trimEnd s = [].
Proof.
  unfold trimEnd. rewrite blank_rev. intros H.
  now rewrite (blank_trimStart _ H).
Qed.

Lemma trim_blank s : blank s = true -> trim s = [].
Proof.
  intros H. unfold trim. now rewrite (trimStart_blank _ H).
Qed.

Lemma blank_trim s : blank (trim s) = true -> trim s = [].
Proof. apply blank_trimEnd. Qed.

Lemma trim_cons_ws c s : is_white_space c = true -> trim (c :: s) = trim s.
Proof. intros H. unfold trim. simpl. now rewrite H. Qed.

Lemma trimEnd_snoc_ws c s :
  is_white_space c = true -> trimEnd (s ++ [c]) = trimEnd s.
Proof.
  intros H. unfold trimEnd. rewrite rev_app_distr. simpl. now rewrite H.
Qed.

Lemma trimStart_snoc_ws c s :
  is_white_space c = true ->
  trimStart (s ++ [c]) = if blank s then [] else trimStart s ++ [c].
Proof.
  intros H. induction s as [|a t IH]; simpl.
  - now rewrite H.
  - destruct (is_white_space a); simpl; auto.
Qed.

Lemma trim_snoc_ws c s : is_white_space c = true -> trim (s ++ [c]) = trim s.
Proof.
  intros H. unfold trim. rewrite (trimStart_snoc_ws c s H).
  destruct (blank s) eqn:B.
  - now rewrite (trimStart_blank _ B).
  - now apply trimEnd_snoc_ws.
Qed.

End Trim.

Section Split.

Lemma split_by_not_nil sep s : split_by sep s <> [].
Proof.
  destruct s as [|c t]; simpl; try discriminate.
  destruct (sep c); try discriminate.
  destruct (split_by sep t); discriminate.
Qed.

Lemma separator_cases c :
  is_separator c = true -> c = 44%N \/ c = 10%N.
Proof.
  unfold is_separator. rewrite orb_true_iff, !N.eqb_eq. tauto.
Qed.

Lemma comma_not_ws : is_white_space 44 = false.
Proof. reflexivity. Qed.

Lemma split_snoc c s :
  split (s ++ [c]) =
  if is_separator c then split s ++ [[]] else snoc_last c (split s).
Proof.
  unfold split. induction s as [|a t IH]; simpl.
  - now destruct (is_separator c).
  - destruct (is_separator a).
    + rewrite IH. destruct (is_separator c); auto.
      simpl. destruct (split_by is_separator t) eqn:E; auto.
      now destruct (split_by_not_nil _ _ E).
    + rewrite IH. destruct (is_separator c).
      * destruct (split_by is_separator t) eqn:E; auto.
        now destruct (split_by_not_nil _ _ E).
      * destruct (split_by is_separator t) as [|p [|q ps]] eqn:E; simpl; auto.
        now destruct (split_by_not_nil _ _ E).
Qed.

Lemma map_trim_snoc_last c pieces :
  is_white_space c = true ->
  map trim (snoc_last c pieces) = map trim pieces.
Proof.
  intros H. induction pieces as [|p [|q ps] IH]; simpl in *; auto.
  - now rewrite (trim_snoc_ws c p H).
  - now rewrite IH.
Qed.

End Split.

(** ** Parsing the locators *)

Section ParseDocumentUrls.

Lemma parse_cons_ws c s :
  is_white_space c = true ->
  parse_split_trim_drop (c :: s) = parse_split_trim_drop s.
Proof.
  intros H. unfold parse_split_trim_drop, split. simpl.
  destruct (is_separator c); simpl.
  - reflexivity.
  - destruct (split_by is_separator s) as [|p ps] eqn:E.
    + now destruct (split_by_not_nil _ _ E).
    + simpl. now rewrite (trim_cons_ws c p H).
Qed.

Lemma parse_snoc_ws c s :
  is_white_space c = true ->
  parse_split_trim_drop (s ++ [c]) = parse_split_trim_drop s.
Proof.
  intros H. unfold parse_split_trim_drop. rewrite split_snoc.
  destruct (is_separator c).
  - rewrite map_app, filter_app. simpl. apply app_nil_r.
  - now rewrite map_trim_snoc_last.
Qed.

Lemma parse_trimStart s :
  parse_split_trim_drop (trimStart s) = parse_split_trim_drop s.
Proof.
  induction s as [|c t IH]; simpl; auto.
  destruct (is_white_space c) eqn:E; auto.
  now rewrite (parse_cons_ws c t E).
Qed.

Lemma parse_rev_trimStart w :
  parse_split_trim_drop (rev (trimStart w)) = parse_split_trim_drop (rev w).
Proof.
  induction w as [|c t IH]; simpl; auto.
  destruct (is_white_space c) eqn:E; auto.
  now rewrite (parse_snoc_ws c (rev t) E).
Qed.

Lemma parse_trim s :
  parse_split_trim_drop (trim s) = parse_split_trim_drop s.
Proof.
  unfold trim, trimEnd. rewrite parse_rev_trimStart, rev_involutive.
  apply parse_trimStart.
Qed.

Lemma parseDocumentUrls_refines value :
  parseDocumentUrls value = parse_split_trim_drop value.
Proof.
  rewrite <- parse_trim. unfold parseDocumentUrls.
  destruct (trim value) as [|c t] eqn:E; [reflexivity|].
  unfold parse_split_trim_drop. apply filter_ext.
  intros u. symmetry. apply eqb_nil_length.
Qed.

Lemma parse_elements_trimmed value u :
  In u (parse_split_trim_drop value) -> u <> [] /\ blank u = false.
Proof.
  unfold parse_split_trim_drop. rewrite filter_In, in_map_iff.
  intros [[p [Hp _]] Hne]. subst u.
  assert (N0 : trim p <> []).
  { intros E. rewrite E in Hne. discriminate. }
  split; auto.
  destruct (blank (trim p)) eqn:B; auto.
  now destruct N0; apply blank_trim.
Qed.

Lemma split_pieces_blank s :
  only_blank_or_separator s = true -> Forall (fun p => blank p = true) (split s).
Proof.
  unfold split. induction s as [|c t IH]; simpl.
  - intros _. now repeat constructor.
  - rewrite andb_true_iff. intros [Hc Ht]. specialize (IH Ht).
    destruct (is_separator c) eqn:S.
    + constructor; auto.
    + rewrite orb_false_r in Hc.
      destruct (split_by is_separator t) as [|p ps].
      * repeat constructor. simpl. now rewrite Hc.
      * inversion IH; subst. constructor; auto. simpl. now rewrite Hc.
Qed.

Lemma parse_blank value :
  only_blank_or_separator value = true -> parse_split_trim_drop value = [].
Proof.
  intros H. unfold parse_split_trim_drop.
  induction (split_pieces_blank value H) as [|p ps Hp _ IH]; simpl; auto.
  now rewrite (trim_blank p Hp).
Qed.

End ParseDocumentUrls.

(** ** Starting a run *)

Lemma iniciarValidacao_empty st :
  parseDocumentUrls (document_urls_value st) = [] ->
  iniciarValidacao st =
  rejected "Por favor, insira pelo menos uma URL de documento" st.
Proof.
  intros H. unfold iniciarValidacao, mbind, read. now rewrite H.
Qed.

(** C1.  With no locator, or with more than three, starting a run ends at
    once with the alert of that case (a different text for each), and
    returns before anything else: the trace gains that alert only, so no
    request is sent, and the method waits for nothing. *)
Theorem iniciarValidacao_invalid_batch_size (st : state) :
  let n := List.length (parseDocumentUrls (document_urls_value st)) in
  n = 0 \/ 3 < n ->
  let text :=
    if (n =? 0)%nat
    then "Por favor, insira pelo menos uma URL de documento"
    else "Máximo de 3 documentos permitidos" in
  iniciarValidacao st = rejected text st
  /\ emitted iniciarValidacao st = [Alert text]
  /\ filter is_request (emitted iniciarValidacao st) = []
  /\ (forall o, to_completion iniciarValidacao o st
                = (Normal tt, snd (rejected text st)))
  /\ (forall w, step (mkApp st w) ClickIniciar
                = if iniciar_disabled st then mkApp st w
                  else mkApp (snd (rejected text st)) w).
Proof.
  intros n H text.
  assert (E : iniciarValidacao st = rejected text st).
  { unfold iniciarValidacao, mbind, read. fold n. subst text.
    destruct (n =? 0)%nat eqn:Z; [reflexivity|].
    assert (L : (3 <? n)%nat = true).
    { apply Nat.ltb_lt. apply Nat.eqb_neq in Z. lia. }
    now rewrite L. }
  assert (T : emitted iniciarValidacao st = [Alert text]).
  { unfold emitted. rewrite E. simpl.
    rewrite skipn_app, skipn_all, Nat.sub_diag. reflexivity. }
  split; [exact E|]. split; [exact T|]. split; [now rewrite T|]. split.
  - intros o. unfold to_completion, mbind. now rewrite E.
  - intros w. unfold step, click. simpl. now rewrite E.
Qed.

Lemma iniciarValidacao_invalid_batch_size_witness :
  let st := construct [] (lit "a,b,c,d") in
  emitted iniciarValidacao st = [Alert "Máximo de 3 documentos permitidos"].
Proof.
  intros st.
  apply (iniciarValidacao_invalid_batch_size st). right. vm_compute. lia.
Defined.

(** ** Result cards *)

Lemma or_empty_not_null v : or_empty v <> JNull.
Proof.
  unfold or_empty. destruct (truthy v) eqn:T; [|discriminate].
  destruct v as [[| | | | |]|]; simpl in *; discriminate.
Qed.

Lemma or_empty_is_null v : is_null (or_empty v) = false.
Proof.
  pose proof (or_empty_not_null v). now destruct (or_empty v).
Qed.

Lemma get_field v k : is_null v = false -> get v k = Normal (field_of v k).
Proof. now destruct v. Qed.

Lemma criarCardResultado_spec resultado numero :
  criarCardResultado resultado numero
  = if drawable resultado then Normal (card_of resultado numero)
    else Throw TypeError.
Proof.
  unfold drawable. destruct (is_null resultado) eqn:N0.
  { destruct resultado; try discriminate. reflexivity. }
  unfold criarCardResultado, card_of.
  rewrite !(get_field resultado _ N0). cbn [bind negb andb].
  destruct (truthy (field_of resultado "erro")).
  - unfold converted.
    destruct (converts (field_of resultado "erro")); [|reflexivity].
    cbn [bind andb].
    now destruct (converts (field_of resultado "url")).
  - unfold row, shown, criarItemValidacao, dados_do_card, converted.
    rewrite !(get_field (or_empty _) _ (or_empty_is_null _)).
    cbn [bind forallb].
    repeat match goal with
    | |- context [converts (display ?v)] =>
        destruct (converts (display v)); cbn [bind andb]; [|reflexivity]
    end.
    now destruct (converts (field_of resultado "url")).
Qed.

Lemma criarCardResultado_class resultado numero :
  drawable resultado = true ->
  exists icon body,
    criarCardResultado resultado numero =
    Normal (mkCard
              (if is_string (field_of resultado "status") "valido"
               then "valido"
               else if is_string (field_of resultado "status") "invalido"
               then "invalido"
               else "erro")
              icon
              (if is_string (field_of resultado "status") "valido"
               then "Válido"
               else if is_string (field_of resultado "status") "invalido"
               then "Inválido"
               else "Erro")
              numero (field_of resultado "url") body).
Proof.
  intros D. rewrite criarCardResultado_spec, D. unfold card_of. eauto.
Qed.

Lemma drawable_not_null r : drawable r = true -> is_null r = false.
Proof.
  unfold drawable. destruct (is_null r); [discriminate|reflexivity].
Qed.

(** C3.  The card of a result shows one of three classifications and no
    other: valid when its status is ['valido'], invalid when it is
    ['invalido'], and error for every other status, whatever it is.  A
    card is made for every result that is not [null] and whose values
    on the card convert to strings; of the others (a result whose [url]
    is [{"toString": 1}], say) the method makes no card at all: it
    throws a TypeError. *)
Theorem criarCardResultado_three_statuses (resultado : json) (numero : nat) :
  match criarCardResultado resultado numero with
  | Normal c =>
      exists status, get resultado "status" = Normal status
      /\ ((is_string status "valido" = true
           /\ statusClass c = "valido" /\ statusText c = "Válido")
          \/ (is_string status "valido" = false
              /\ is_string status "invalido" = true
              /\ statusClass c = "invalido" /\ statusText c = "Inválido")
          \/ (is_string status "valido" = false
              /\ is_string status "invalido" = false
              /\ statusClass c = "erro" /\ statusText c = "Erro"))
  | Throw e => drawable resultado = false /\ e = TypeError
  end.
Proof.
  rewrite criarCardResultado_spec.
  destruct (drawable resultado) eqn:D; [|split; reflexivity].
  exists (field_of resultado "status"). split.
  - apply get_field. now apply drawable_not_null.
  - unfold card_of. cbn [statusClass statusText].
    destruct (is_string (field_of resultado "status") "valido"); [tauto|].
    destruct (is_string (field_of resultado "status") "invalido"); tauto.
Qed.

(** ** Drawing the results *)

Section Rendering.

Lemma filter_status_ok s items :
  forallb (fun r => negb (is_null r)) items = true ->
  filter_status s items =
  Normal (filter (fun r => is_string (field_of r "status") s) items).
Proof.
  induction items as [|r rest IH]; simpl; auto.
  rewrite andb_true_iff, negb_true_iff. intros [Hr Hrest].
  rewrite (get_field r "status" Hr), (IH Hrest). simpl.
  now destruct (is_string (field_of r "status") s).
Qed.

Lemma filter_status_null s items :
  forallb (fun r => negb (is_null r)) items = false ->
  filter_status s items = Throw TypeError.
Proof.
  induction items as [|r rest IH]; simpl; [discriminate|].
  destruct r; simpl; auto; intros H; rewrite (IH H);
    reflexivity.
Qed.

Lemma count_status_spec s rs :
  count_status s rs =
  match rs with
  | Some (JArr items) =>
      if renders rs
      then Normal (count_of s items)
      else Throw TypeError
  | _ => Throw TypeError
  end.
Proof.
  unfold count_status. destruct rs as [[| | | |items|]|]; simpl; auto.
  destruct (forallb (fun r => negb (is_null r)) items) eqn:E.
  - now rewrite (filter_status_ok s items E).
  - now rewrite (filter_status_null s items E).
Qed.

Lemma draws_renders rs : draws rs = true -> renders rs = true.
Proof.
  destruct rs as [[| | | |items|]|]; simpl; try discriminate.
  induction items as [|r rest IH]; simpl; auto.
  rewrite andb_true_iff. intros [Hr Hrest].
  now rewrite (drawable_not_null r Hr), (IH Hrest).
Qed.

Lemma card_list_ok items :
  forallb drawable items = true ->
  forall index, exists cs,
    card_list items index = Normal cs
    /\ first_cards items index = cs
    /\ List.length cs = List.length items
    /\ forall k r, nth_error items k = Some r ->
         exists c, nth_error cs k = Some c
                   /\ numero c = index + k + 1
                   /\ card_url c = field_of r "url"
                   /\ criarCardResultado r (index + k + 1) = Normal c.
Proof.
  induction items as [|r rest IH]; simpl.
  - intros _ index. exists []. repeat split; auto.
    intros [|k] r; discriminate.
  - rewrite andb_true_iff. intros [Hr Hrest] index.
    destruct (IH Hrest (S index)) as (cs & E & F & L & K).
    rewrite criarCardResultado_spec, Hr, E, F. simpl.
    eexists. split; [reflexivity|]. split; [reflexivity|]. split.
    + simpl. now rewrite L.
    + intros [|k] r' Hk; simpl in *.
      * injection Hk as <-. eexists. split; [reflexivity|].
        rewrite Nat.add_0_r, criarCardResultado_spec, Hr. simpl. auto.
      * destruct (K k r' Hk) as (c & A & B & C & D).
        exists c. replace (index + S k + 1) with (S index + k + 1) by lia.
        auto.
Qed.

Lemma card_list_throws items :
  forallb drawable items = false ->
  forall index, card_list items index = Throw TypeError.
Proof.
  induction items as [|r rest IH]; simpl; [discriminate|].
  intros H index. rewrite criarCardResultado_spec.
  destruct (drawable r); simpl in *; [|reflexivity].
  now rewrite (IH H).
Qed.

Lemma forEach_draw items :
  forall index st,
    forEach items index draw_card st =
    (match card_list items index with
     | Normal _ => Normal tt
     | Throw e => Throw e
     end,
     with_trace st (trace st ++ map RenderCard (first_cards items index))).
Proof.
  induction items as [|r rest IH]; intros index st; simpl.
  - destruct st; unfold ret, with_trace; simpl.
    now rewrite app_nil_r.
  - unfold mbind at 1. unfold draw_card at 1. unfold mbind, lift.
    destruct (criarCardResultado r (index + 1)) as [c|e]; simpl.
    + rewrite IH.
      destruct st; unfold with_trace; simpl. rewrite <- app_assoc.
      destruct (card_list rest (S index)); reflexivity.
    + destruct st; unfold with_trace; simpl. now rewrite app_nil_r.
Qed.

End Rendering.

Lemma drawing_rendering rs : Forall (fun e => rendering e = true) (drawing rs).
Proof.
  unfold drawing. do 2 (constructor; [reflexivity|]).
  destruct rs as [[| | | |items|]|]; try constructor.
  destruct (renders (Some (JArr items))); constructor; [reflexivity|].
  apply Forall_forall. intros e He. apply in_map_iff in He.
  now destruct He as (c & <- & _).
Qed.

Lemma exibirResultados_spec st :
  exibirResultados st =
  (if draws (resultados st) then Normal tt else Throw TypeError,
   with_trace st (trace st ++ drawing (resultados st))).
Proof.
  destruct st as [pd rs csv docs idis cdis tr].
  unfold exibirResultados, drawing, mbind, emit, read, lift. simpl.
  rewrite !count_status_spec.
  destruct rs as [[| | | |items|]|]; simpl;
    try (unfold with_trace; simpl; rewrite <- app_assoc; reflexivity).
  destruct (forallb (fun r => negb (is_null r)) items) eqn:E.
  - rewrite forEach_draw. unfold with_trace. simpl.
    rewrite <- !app_assoc. simpl.
    destruct (forallb drawable items) eqn:D.
    + destruct (card_list_ok items D 0) as (cs & -> & _). reflexivity.
    + now rewrite (card_list_throws items D 0).
  - unfold with_trace; simpl; rewrite <- app_assoc.
    destruct (forallb drawable items) eqn:D; [|reflexivity].
    pose proof (draws_renders (Some (JArr items)) D) as R. simpl in R.
    congruence.
Qed.

Lemma drawing_draws items :
  draws (Some (JArr items)) = true ->
  exists cs,
    card_list items 0 = Normal cs
    /\ drawing (Some (JArr items))
       = [ClearResults; Display "secao-resultados" "block";
          RenderStats (count_of "valido" items)
            (count_of "invalido" items) (count_of "erro" items)]
         ++ map RenderCard cs.
Proof.
  intros D. pose proof (draws_renders _ D) as R.
  destruct (card_list_ok items D 0) as (cs & E & F & _).
  exists cs. split; auto. unfold drawing. now rewrite R, F.
Qed.

(** ** The trace of a run *)

Section Traces.

Lemma progress_app a b : progress (a ++ b) = progress a ++ progress b.
Proof.
  induction a as [|e a IH]; simpl; auto.
  destruct e; simpl; auto. now rewrite IH.
Qed.

Lemma cards_app a b : cards (a ++ b) = cards a ++ cards b.
Proof.
  induction a as [|e a IH]; simpl; auto.
  destruct e; simpl; auto. now rewrite IH.
Qed.

Lemma downloads_app a b : downloads (a ++ b) = downloads a ++ downloads b.
Proof.
  induction a as [|e a IH]; simpl; auto.
  destruct e; simpl; auto. now rewrite IH.
Qed.

Lemma progress_rendering l :
  Forall (fun e => rendering e = true) l -> progress l = [].
Proof.
  induction 1 as [|e l He _ IH]; simpl; auto.
  destruct e; simpl in *; auto; discriminate.
Qed.

Lemma requests_rendering l :
  Forall (fun e => rendering e = true) l -> filter is_request l = [].
Proof.
  induction 1 as [|e l He _ IH]; simpl; auto.
  destruct e; simpl in *; auto; discriminate.
Qed.

Lemma cards_map_RenderCard cs : cards (map RenderCard cs) = cs.
Proof. induction cs; simpl; congruence. Qed.

Lemma skipn_length_app {A} (a b : list A) : skipn (List.length a) (a ++ b) = b.
Proof.
  rewrite skipn_app, skipn_all, Nat.sub_diag. reflexivity.
Qed.

Lemma iniciarValidacao_accepted st :
  accepted st = true ->
  iniciarValidacao st =
  (Normal (Some AguardaDocumentos),
   mkState (planilhaData st) (resultados st) (csv_url_value st)
     (document_urls_value st) true (carregar_disabled st)
     (trace st ++ opening st)).
Proof.
  unfold accepted, opening. rewrite andb_true_iff, Nat.leb_le, Nat.leb_le.
  intros [H1 H3]. destruct st as [pd rs csv docs idis cdis tr].
  unfold iniciarValidacao, mbind, read. simpl in *.
  destruct (List.length (parseDocumentUrls docs)) as [|n] eqn:L; [lia|].
  simpl. destruct (3 <? S n)%nat eqn:E.
  - apply Nat.ltb_lt in E. lia.
  - destruct n as [|[|[|n]]]; try lia; simpl; rewrite <- !app_assoc;
      reflexivity.
Qed.

Opaque drawing.

Lemma iniciarValidacao_resume_eq o st :
  iniciarValidacao_resume o st =
  (Normal tt,
   mkState (planilhaData st) (resultados_after o (resultados st))
     (csv_url_value st) (document_urls_value st)
     (negb (truthy (planilhaData st))
      || eqb (trim (document_urls_value st)) [])
     (carregar_disabled st) (trace st ++ closing o)).
Proof.
  destruct st as [pd rs csv docs idis cdis tr].
  unfold iniciarValidacao_resume, try_finally, try_catch, closing,
    resultados_after.
  destruct o as [reason|reason|data]; simpl.
  - unfold mbind, emit, read, updateUI; simpl.
    rewrite <- !app_assoc. reflexivity.
  - unfold mbind, emit, read, updateUI; simpl.
    rewrite <- !app_assoc. reflexivity.
  - unfold succeeded. destruct (is_null data) eqn:N0.
    + destruct data; try discriminate. simpl.
      unfold mbind, emit, read, updateUI; simpl.
      rewrite <- !app_assoc. reflexivity.
    + unfold mbind, lift. simpl.
      rewrite (get_field data "success" N0). cbn [negb andb].
      destruct (truthy (field_of data "success")) eqn:T.
      * rewrite (get_field data "resultados" N0). simpl.
        rewrite exibirResultados_spec. cbn [resultados].
        generalize (drawing (field_of data "resultados")). intros d.
        destruct (draws (field_of data "resultados")) eqn:R.
        -- unfold mbind, emit, read, updateUI, with_trace; simpl.
           rewrite <- ?app_assoc. simpl. rewrite ?app_nil_r, <- ?app_assoc.
           reflexivity.
        -- unfold mbind, emit, read, updateUI, with_trace; simpl.
           rewrite <- ?app_assoc. simpl. rewrite ?app_nil_r, <- ?app_assoc.
           reflexivity.
      * unfold mbind, lift. simpl.
        rewrite (get_field data "error" N0). simpl.
        unfold mbind, emit, read, updateUI; simpl.
        rewrite <- !app_assoc. reflexivity.
Qed.

Transparent drawing.

Lemma log_lines_app a b : log_lines (a ++ b) = log_lines a ++ log_lines b.
Proof.
  induction a as [|e a IH]; simpl; auto.
  destruct e; simpl; auto. now rewrite IH.
Qed.

Lemma log_lines_rendering l :
  Forall (fun e => rendering e = true) l -> log_lines l = [].
Proof.
  induction 1 as [|e l He _ IH]; simpl; auto.
  destruct e; simpl in *; auto; discriminate.
Qed.

Lemma progress_closing o : progress (closing o) = stages o.
Proof.
  unfold closing, stages. destruct o as [reason|reason|data]; try reflexivity.
  destruct (succeeded data); [|reflexivity].
  cbn [List.app progress]. rewrite !progress_app.
  rewrite (progress_rendering _ (drawing_rendering _)).
  now destruct (draws (field_of data "resultados")).
Qed.

Lemma requests_closing o : filter is_request (closing o) = [].
Proof.
  unfold closing. destruct o as [reason|reason|data]; try reflexivity.
  destruct (succeeded data); [|reflexivity].
  cbn [List.app filter is_request]. rewrite !filter_app.
  rewrite (requests_rendering _ (drawing_rendering _)).
  now destruct (draws (field_of data "resultados")).
Qed.

Lemma log_lines_closing o : log_lines (closing o) = closing_lines o.
Proof.
  unfold closing, closing_lines.
  destruct o as [reason|reason|data]; try reflexivity.
  destruct (succeeded data); [|reflexivity].
  cbn [List.app log_lines]. rewrite !log_lines_app.
  rewrite (log_lines_rendering _ (drawing_rendering _)).
  now destruct (draws (field_of data "resultados")).
Qed.

Lemma cards_closing data items :
  succeeded data = true ->
  field_of data "resultados" = Some (JArr items) ->
  draws (Some (JArr items)) = true ->
  card_list items 0 = Normal (cards (closing (Responds data)))
  /\ List.length (cards (closing (Responds data))) = List.length items.
Proof.
  intros S0 Hi D. unfold closing. rewrite S0, Hi, D.
  destruct (drawing_draws items D) as (cs & Hcs & ->).
  destruct (card_list_ok items D 0) as (cs' & Hcs' & _ & L & _).
  assert (cs' = cs) by congruence. subst cs'.
  cbn [List.app cards]. rewrite !cards_app, cards_map_RenderCard.
  simpl. rewrite !app_nil_r. auto.
Qed.

Lemma iniciarValidacao_resume_spec o st :
  exists l,
    iniciarValidacao_resume o st =
    (Normal tt,
     mkState (planilhaData st) (resultados_after o (resultados st))
       (csv_url_value st) (document_urls_value st)
       (negb (truthy (planilhaData st))
        || eqb (trim (document_urls_value st)) [])
       (carregar_disabled st) (trace st ++ l))
    /\ progress l = stages o
    /\ filter is_request l = [].
Proof.
  exists (closing o). split; [apply iniciarValidacao_resume_eq|].
  split; [apply progress_closing|apply requests_closing].
Qed.

End Traces.

(** ** Progress notifications *)

Lemma to_completion_iniciarValidacao st o :
  accepted st = true ->
  to_completion iniciarValidacao o st =
  (Normal tt,
   mkState (planilhaData st) (resultados_after o (resultados st))
     (csv_url_value st) (document_urls_value st)
     (negb (truthy (planilhaData st))
      || eqb (trim (document_urls_value st)) [])
     (carregar_disabled st) (trace st ++ opening st ++ closing o)).
Proof.
  intros H. unfold to_completion, mbind.
  rewrite (iniciarValidacao_accepted st H), iniciarValidacao_resume_eq.
  simpl. now rewrite <- app_assoc.
Qed.

Lemma emitted_iniciarValidacao st o :
  accepted st = true ->
  emitted (to_completion iniciarValidacao o) st = opening st ++ closing o.
Proof.
  intros H. unfold emitted. rewrite (to_completion_iniciarValidacao st o H).
  apply skipn_length_app.
Qed.

(** C8, as the code has it.  A run over an accepted batch reports its
    progress at fixed stages, the same for one, two or three documents:
    0 with the line ['Iniciando validação...'] when it starts and 20
    when the request is sent, the only one it sends; then 60 once the
    endpoint has answered and 100 with the line ['Processamento
    concluído!'] when the answer reports success.  A failure at any
    stage, the drawing of the results included, ends the sequence with
    a 0 that carries the error, written a second time in red.  Nothing
    is notified per document; after the 100, one card per result is
    drawn, in the order of the response, as long as a card can be made
    of each. *)
Theorem iniciarValidacao_progress (st : state) (o : outcome) :
  accepted st = true ->
  let run := emitted (to_completion iniciarValidacao o) st in
  run = opening st ++ closing o
  /\ progress run = 0 :: 20 :: stages o
  /\ log_lines run
     = (Text "Iniciando validação...", "light")
         :: (Text "Enviando documentos para processamento...", "light")
         :: closing_lines o
  /\ filter is_request run =
     [Fetch (ProcessarDocumentos (parseDocumentUrls (document_urls_value st))
               (planilhaData st))]
  /\ (forall data items,
        o = Responds data -> succeeded data = true ->
        field_of data "resultados" = Some (JArr items) ->
        draws (Some (JArr items)) = true ->
        card_list items 0 = Normal (cards run)
        /\ List.length (cards run) = List.length items
        /\ exists before,
             run = before
                   ++ ProgressBar 100
                   :: LogEntry (Text "Processamento concluído!") "success"
                   :: ClearResults
                   :: Display "secao-resultados" "block"
                   :: RenderStats (count_of "valido" items)
                        (count_of "invalido" items) (count_of "erro" items)
                   :: map RenderCard (cards run)
                   ++ [Caption "iniciar-validacao" "Iniciar Validação"]).
Proof.
  intros H run.
  assert (E : run = opening st ++ closing o)
    by now apply emitted_iniciarValidacao.
  split; [exact E|]. rewrite E.
  rewrite progress_app, log_lines_app, filter_app, progress_closing,
    log_lines_closing, requests_closing.
  split; [reflexivity|]. split; [reflexivity|]. split; [reflexivity|].
  intros data items -> S0 Hi D.
  destruct (cards_closing data items S0 Hi D) as [C L].
  rewrite cards_app. cbn [opening cards List.app].
  split; [exact C|]. split; [exact L|].
  exists (opening st
          ++ [ProgressBar 60;
              LogEntry (Text "Processando documentos...") "light"]).
  unfold closing at 1. rewrite S0, Hi, D.
  destruct (drawing_draws items D) as (cs & Hcs & ->).
  assert (cs = cards (closing (Responds data))) by congruence. subst cs.
  rewrite <- !app_assoc. reflexivity.
Qed.

Lemma iniciarValidacao_progress_witness :
  let st :=
    mkState (Some (JObj [])) (Some (JArr [])) (lit "http://planilha")
      (lit "a,b,c") false false [] in
  progress (emitted (to_completion iniciarValidacao (FetchRejects [])) st)
  = [0; 20; 0].
Proof.
  intros st.
  apply (iniciarValidacao_progress st (FetchRejects []) eq_refl).
Defined.

(** C8, as the specification has it, fails: a run over three documents
    whose three results arrive notifies four times, 0, 20, 60 and 100,
    not once at the start, once per document and once at the end. *)
Lemma iniciarValidacao_progress_not_per_document :
  let st :=
    mkState (Some (JObj [])) (Some (JArr [])) (lit "http://planilha")
      (lit "a,b,c") false false [] in
  let resultado url :=
    JObj [(lit "url", JStr (lit url)); (lit "status", JStr (lit "valido"))] in
  let o :=
    Responds (JObj [(lit "success", JBool true);
                    (lit "resultados",
                     JArr [resultado "a"; resultado "b"; resultado "c"])]) in
  let run := emitted (to_completion iniciarValidacao o) st in
  parseDocumentUrls (document_urls_value st) = [lit "a"; lit "b"; lit "c"]
  /\ List.length (cards run) = 3
  /\ progress run = [0; 20; 60; 100]
  /\ ~ one_notification_per_document 3 (progress run).
Proof.
  intros st resultado o run.
  assert (P : progress run = [0; 20; 60; 100]) by (vm_compute; reflexivity).
  split; [vm_compute; reflexivity|]. split; [vm_compute; reflexivity|].
  split; [exact P|]. rewrite P.
  intros (s & d & f & E & L).
  apply (f_equal (@List.length nat)) in E. simpl in E.
  rewrite length_app in E. simpl in E. lia.
Qed.

(** ** Loading the spreadsheet *)

Section Loading.

Lemma processing_request_is_request l :
  filter is_request l = [] -> filter is_processing_request l = [].
Proof.
  induction l as [|e l IH]; simpl; auto.
  destruct e; simpl; auto; discriminate.
Qed.

Lemma get_val_field d k :
  get_val d k =
  match d with
  | Some j => if is_null j then Throw TypeError else Normal (field_of j k)
  | None => Throw TypeError
  end.
Proof. destruct d as [[| | | | |]|]; reflexivity. Qed.

Lemma carregarPlanilha_resume_eq o st :
  carregarPlanilha_resume o st =
  (Normal tt,
   mkState (planilha_after o) (resultados st) (csv_url_value st)
     (document_urls_value st)
     (negb (truthy (planilha_after o))
      || eqb (trim (document_urls_value st)) [])
     false (trace st ++ load_closing o)).
Proof.
  destruct st as [pd rs csv docs idis cdis tr].
  unfold carregarPlanilha_resume, try_finally, try_catch, planilha_after,
    load_closing, load_failure, run_failed, failure, dados_of, counts_message.
  destruct o as [reason|reason|data]; simpl.
  - unfold mbind, emit, read, updateUI; simpl.
    rewrite <- !app_assoc. reflexivity.
  - unfold mbind, emit, read, updateUI; simpl.
    rewrite <- !app_assoc. reflexivity.
  - unfold succeeded. destruct (is_null data) eqn:N0.
    + destruct data; try discriminate. simpl.
      unfold mbind, emit, read, updateUI; simpl.
      rewrite <- !app_assoc. reflexivity.
    + unfold mbind, lift. simpl.
      rewrite (get_field data "success" N0). cbn [negb andb].
      destruct (truthy (field_of data "success")) eqn:T.
      * rewrite (get_field data "planilha_data" N0). simpl.
        rewrite (get_field data "dados" N0). simpl.
        rewrite !get_val_field. unfold converted.
        destruct (field_of data "dados") as [d|]; simpl.
        -- destruct (is_null d); simpl.
           ++ unfold mbind, emit, read, updateUI; simpl.
              rewrite <- !app_assoc. reflexivity.
           ++ destruct (converts (field_of d "razoes_sociais")); simpl;
                [destruct (converts (field_of d "cnpjs")); simpl;
                 [destruct (converts (field_of d "representantes")); simpl;
                  [destruct (converts (field_of d "responsaveis_rede"));
                   simpl|]|]|];
                unfold mbind, emit, read, updateUI; simpl;
                rewrite <- !app_assoc; reflexivity.
        -- unfold mbind, emit, read, updateUI; simpl.
           rewrite <- !app_assoc. reflexivity.
      * rewrite (get_field data "error" N0). simpl.
        unfold mbind, emit, read, updateUI; simpl.
        rewrite <- !app_assoc. reflexivity.
Qed.

Lemma requests_load_closing o : filter is_request (load_closing o) = [].
Proof. unfold load_closing. now destruct (loads o). Qed.

Lemma carregarPlanilha_resume_spec o st :
  exists l,
    carregarPlanilha_resume o st =
    (Normal tt,
     mkState (planilha_after o) (resultados st) (csv_url_value st)
       (document_urls_value st)
       (negb (truthy (planilha_after o))
        || eqb (trim (document_urls_value st)) [])
       false (trace st ++ l))
    /\ filter is_request l = [].
Proof.
  exists (load_closing o). split; [apply carregarPlanilha_resume_eq|].
  apply requests_load_closing.
Qed.

Lemma carregarPlanilha_spec st :
  exists l w,
    carregarPlanilha st =
    (Normal w,
     mkState (planilhaData st) (resultados st) (csv_url_value st)
       (document_urls_value st) (iniciar_disabled st)
       (match w with Some _ => true | None => carregar_disabled st end)
       (trace st ++ l))
    /\ filter is_processing_request l = []
    /\ w <> Some AguardaDocumentos.
Proof.
  destruct st as [pd rs csv docs idis cdis tr].
  unfold carregarPlanilha, mbind, read. simpl.
  destruct (eqb (trim csv) []); simpl.
  - eexists _, None. split; [reflexivity|]. split; [reflexivity|]. discriminate.
  - eexists _, (Some AguardaPlanilha). rewrite <- !app_assoc. simpl.
    split; [reflexivity|]. split; [reflexivity|]. discriminate.
Qed.

Lemma downloadRelatorio_spec agora depois st :
  downloadRelatorio agora depois st =
  if negb (truthy (resultados st)) || is_zero (length_of (resultados st))
  then (Normal tt,
        with_trace st (trace st ++ [Alert "Nenhum resultado para download"]))
  else
    match resultados st with
    | Some (JArr items) =>
        if renders (resultados st)
        then (Normal tt,
              with_trace st
                (trace st
                 ++ [Download (nome_do_arquivo depois)
                       (Json.stringify
                          (relatorio agora items (count_of "valido" items)
                             (count_of "invalido" items)
                             (count_of "erro" items)))]))
        else (Throw TypeError, st)
    | _ => (Throw TypeError, st)
    end.
Proof.
  destruct st as [pd rs csv docs idis cdis tr].
  unfold downloadRelatorio, mbind, read, lift. simpl.
  destruct (negb (truthy rs) || is_zero (length_of rs)); [reflexivity|].
  rewrite !count_status_spec.
  destruct rs as [[| | | |items|]|]; try reflexivity.
  destruct (renders (Some (JArr items))); reflexivity.
Qed.

Lemma exec_downloadRelatorio agora depois st :
  exists l,
    exec (downloadRelatorio agora depois) st = with_trace st (trace st ++ l)
    /\ filter is_request l = [].
Proof.
  unfold exec. rewrite downloadRelatorio_spec.
  destruct (negb (truthy (resultados st)) || is_zero (length_of (resultados st))).
  - eexists. split; reflexivity.
  - destruct (resultados st) as [[| | | |items|]|];
      try (exists [Uncaught TypeError]; split; reflexivity).
    destruct (renders (Some (JArr items))).
    + eexists. split; reflexivity.
    + exists [Uncaught TypeError]; split; reflexivity.
Qed.

End Loading.

(** ** After a failed load *)

Section FailedLoad.

Lemma step_locked a ev :
  locked (page a) ->
  is_successful_load a ev = false ->
  locked (page (step a ev))
  /\ processing_requests (page (step a ev)) = processing_requests (page a).
Proof.
  destruct a as [st w]. unfold locked, processing_requests. simpl.
  intros [Hp Hd] Hq.
  destruct ev as [v|v| | |agora depois|n o]; simpl.
  - destruct st; simpl in *. unfold exec, mbind, updateUI, read; simpl.
    rewrite Hp. simpl. auto.
  - destruct st; simpl in *. unfold exec, mbind, updateUI, read; simpl.
    rewrite Hp. simpl. auto.
  - unfold click. destruct (carregar_disabled st); simpl; auto.
    destruct (carregarPlanilha_spec st) as (l & p & E & R & _).
    rewrite E. destruct p; simpl; rewrite filter_app, R, app_nil_r; auto.
  - unfold click. rewrite Hd. simpl. auto.
  - destruct (exec_downloadRelatorio agora depois st) as (l & E & R).
    rewrite E. simpl. rewrite filter_app.
    rewrite (processing_request_is_request l R), app_nil_r. auto.
  - simpl in Hq. destruct (nth_error w n) as [[|]|]; simpl; auto.
    + destruct (carregarPlanilha_resume_spec o st) as (l & E & R).
      unfold exec. rewrite E. simpl.
      assert (P : planilha_after o = Some JNull).
      { unfold planilha_after. destruct o; auto. now rewrite Hq. }
      rewrite P. simpl. rewrite filter_app.
      rewrite (processing_request_is_request l R), app_nil_r. auto.
    + destruct (iniciarValidacao_resume_spec o st) as (l & E & _ & R).
      unfold exec. rewrite E. simpl. rewrite Hp. simpl. rewrite filter_app.
      rewrite (processing_request_is_request l R), app_nil_r. auto.
Qed.

Lemma run_locked evs :
  forall a,
  locked (page a) ->
  without_reload a evs = true ->
  locked (page (run a evs))
  /\ processing_requests (page (run a evs)) = processing_requests (page a).
Proof.
  induction evs as [|ev rest IH]; intros a L Q; simpl in *; auto.
  apply andb_true_iff in Q. destruct Q as [Q1 Q2].
  apply negb_true_iff in Q1.
  destruct (step_locked a ev L Q1) as [L1 R1].
  destruct (IH (step a ev) L1 Q2) as [L2 R2].
  split; auto. congruence.
Qed.

End FailedLoad.

(** C10.  When a load that was sent fails (the request or its body is
    rejected, the response does not report success, or it lacks the
    counts), [this.planilhaData] is [null] afterwards, whatever was
    loaded before, and the start button is disabled.  From then on, and
    until a load ends well, every event leaves both so, and no request
    to the processing endpoint is sent: a click on the disabled button
    dispatches nothing. *)
Theorem failed_load_disables_validation
    (a : app) (n : nat) (o : outcome) (evs : list event) :
  nth_error (waiting a) n = Some AguardaPlanilha ->
  loads o = false ->
  let a1 := step a (Settle n o) in
  planilhaData (page a1) = Some JNull
  /\ iniciar_disabled (page a1) = true
  /\ (without_reload a1 evs = true ->
      let a2 := run a1 evs in
      planilhaData (page a2) = Some JNull
      /\ iniciar_disabled (page a2) = true
      /\ filter is_processing_request (trace (page a2))
         = filter is_processing_request (trace (page a1))).
Proof.
  intros Hw Hl a1.
  assert (L : locked (page a1)).
  { subst a1. simpl. rewrite Hw. simpl.
    destruct (carregarPlanilha_resume_spec o (page a)) as (l & E & _).
    unfold exec. rewrite E.
    assert (P : planilha_after o = Some JNull).
    { unfold planilha_after. destruct o; auto. now rewrite Hl. }
    rewrite P. split; reflexivity. }
  destruct L as [L1 L2]. split; auto. split; auto.
  intros Q a2. destruct (run_locked evs a1 (conj L1 L2) Q) as [[A B] C].
  auto.
Qed.

Lemma failed_load_disables_validation_witness :
  let a0 := mkApp (construct (lit "http://planilha") (lit "http://doc")) [] in
  let ok :=
    Responds (JObj [(lit "success", JBool true);
                    (lit "planilha_data", JObj [(lit "cnpjs", JArr [])]);
                    (lit "dados", JObj [(lit "cnpjs", JNum (lit "0"))])]) in
  let a := run a0 [ClickCarregar; Settle 0 ok; ClickCarregar] in
  let evs :=
    [InputDocumentUrls (lit "a,b"); ClickIniciar; ClickCarregar;
     Settle 0 (JsonRejects []); ClickIniciar] in
  let a1 := step a (Settle 0 (FetchRejects (lit "Failed to fetch"))) in
  (truthy (planilhaData (page a)) = true
   /\ iniciar_disabled (page a) = false)
  /\ planilhaData (page a1) = Some JNull
  /\ iniciar_disabled (page a1) = true
  /\ planilhaData (page (run a1 evs)) = Some JNull
  /\ iniciar_disabled (page (run a1 evs)) = true
  /\ filter is_processing_request (trace (page (run a1 evs)))
     = filter is_processing_request (trace (page a1)).
Proof.
  intros a0 ok a evs a1.
  split; [split; reflexivity|].
  destruct (failed_load_disables_validation a 0
              (FetchRejects (lit "Failed to fetch")) evs eq_refl eq_refl)
    as (A & B & C).
  split; [exact A|]. split; [exact B|].
  exact (C eq_refl).
Defined.

(** ** A run that the endpoint answers with results *)

Section AnsweredRun.

Lemma digits_zero u : Json.digits u = lit "0" -> u = Decimal.D0 Decimal.Nil.
Proof.
  destruct u as [|u|u|u|u|u|u|u|u|u|u]; try discriminate.
  destruct u; try discriminate. reflexivity.
Qed.

Lemma numeral_zero n : eqb (Json.numeral n) (lit "0") = (n =? 0)%nat.
Proof.
  destruct n as [|n]; [reflexivity|].
  apply eqb_neq. intros H. apply digits_zero in H.
  apply (f_equal Nat.of_uint) in H.
  rewrite DecimalNat.Unsigned.of_to in H. discriminate.
Qed.

Lemma is_zero_length items :
  is_zero (length_of (Some (JArr items)))
  = match items with [] => true | _ :: _ => false end.
Proof.
  unfold is_zero, length_of. rewrite numeral_zero. now destruct items.
Qed.

Lemma resultados_answered st data items :
  accepted st = true ->
  succeeded data = true ->
  field_of data "resultados" = Some (JArr items) ->
  resultados (exec (to_completion iniciarValidacao (Responds data)) st)
  = Some (JArr items).
Proof.
  intros H S0 Hi. unfold exec.
  rewrite (to_completion_iniciarValidacao st (Responds data) H).
  cbn [resultados resultados_after]. now rewrite S0.
Qed.

Lemma downloadRelatorio_results st items agora depois :
  resultados st = Some (JArr items) ->
  items <> [] ->
  renders (Some (JArr items)) = true ->
  emitted (downloadRelatorio agora depois) st
  = [Download (nome_do_arquivo depois)
       (Json.stringify
          (relatorio agora items (count_of "valido" items)
             (count_of "invalido" items) (count_of "erro" items)))].
Proof.
  intros R N0 Hr. unfold emitted.
  rewrite downloadRelatorio_spec, R, Hr, is_zero_length.
  destruct items as [|r rest]; [contradiction|].
  cbn [truthy negb orb snd with_trace trace]. apply skipn_length_app.
Qed.

Lemma stringify_relatorio agora items validos invalidos erros :
  Json.stringify (relatorio agora items validos invalidos erros)
  = relatorio_text agora items validos invalidos erros.
Proof.
  unfold Json.stringify, relatorio, relatorio_text, Json.member_text.
  cbn [Json.stringify_at map Json.join fst snd Nat.add].
  repeat (rewrite <- app_assoc; cbn [List.app]). reflexivity.
Qed.

Lemma accepted_length st :
  accepted st = true ->
  1 <= List.length (parseDocumentUrls (document_urls_value st)) <= 3.
Proof.
  unfold accepted. rewrite andb_true_iff, !Nat.leb_le. tauto.
Qed.




End AnsweredRun.




(** ** The orchestrator of the specification *)

Module OrchestratorFacts.

Import Orchestrator.

(** C7.  For a document that has a date, the date flag is set exactly
    when the date is not after the processing time and at most 30 days
    before it: set at exactly 30 days, not set at 31 days, not set for
    any date in the future (one day ahead among them); without a date it
    is not set. *)
Theorem documentDateValid_thirty_days
    (active : jsstring) (now : Z) (fields : ExtractedFields)
    (reference : ReferenceDataset) (registry : option RegistryRecord) :
  let flag date :=
    documentDateValid
      (evaluate active now
         (mkFields (taxId fields) (representativeName fields) date
            (specificNameFound fields))
         reference registry) in
  (forall date,
     flag (Some date) = true
     <-> (date <= now /\ now - date <= 30 * 86400000)%Z)
  /\ flag (Some (now - 30 * 86400000)%Z) = true
  /\ flag (Some (now - 31 * 86400000)%Z) = false
  /\ flag (Some (now + 86400000)%Z) = false
  /\ (forall date, (now < date)%Z -> flag (Some date) = false)
  /\ flag None = false.
Proof.
  intros flag. subst flag. unfold evaluate, date_rule, thirty_days. simpl.
  assert (A : forall date,
             ((date <=? now) && (now - date <=? 30 * 86400000))%Z = true
             <-> (date <= now /\ now - date <= 30 * 86400000)%Z).
  { intros date. rewrite andb_true_iff, !Z.leb_le. tauto. }
  split; [exact A|].
  split; [apply A; lia|].
  split; [apply not_true_is_false; rewrite A; lia|].
  split; [apply not_true_is_false; rewrite A; lia|].
  split; [|reflexivity].
  intros date H. apply not_true_is_false. rewrite A. lia.
Qed.

Lemma documentDateValid_thirty_days_witness :
  let now := 1793664000000%Z in
  documentDateValid
    (evaluate (lit "ATIVA") now
       (mkFields None None (Some (now + 1)%Z) None)
       (mkReference [] [] [] []) None) = false.
Proof.
  intros now.
  destruct (documentDateValid_thirty_days (lit "ATIVA") now
              (mkFields None None None None) (mkReference [] [] [] []) None)
    as (_ & _ & _ & _ & F & _).
  apply (F (now + 1)%Z). unfold now. lia.
Defined.

(** C4.  When the extraction of a document succeeds with a tax id and
    the registry lookup for it fails, the document is not an error: it
    has no registry record, its two registry flags are unset, its four
    other flags are what the extracted fields alone give, it has no
    error detail, and its status is valid or invalid (invalid, in fact,
    since two flags are unset). *)
Theorem registry_failure_is_not_an_error
    (extract : jsstring -> ExtractedFields + Failure)
    (lookup : jsstring -> RegistryRecord + Failure)
    (active : jsstring) (now : Z)
    (reference : ReferenceDataset) (loc : jsstring)
    (fields : ExtractedFields) (id : jsstring) (failure : Failure) :
  extract loc = inl fields ->
  taxId fields = Some id ->
  lookup id = inr failure ->
  let r := process extract lookup active now reference loc in
  status r <> error
  /\ (status r = valid \/ status r = invalid)
  /\ status r = invalid
  /\ registryRecord r = None
  /\ errorDetail r = None
  /\ extractedFields r = Some fields
  /\ taxIdActiveInRegistry (validationFlags r) = false
  /\ legalNameValid (validationFlags r) = false
  /\ taxIdInReference (validationFlags r)
     = present_in (taxId fields) (taxIds reference)
  /\ representativeValid (validationFlags r)
     = present_in (representativeName fields) (representatives reference)
  /\ specificNameValid (validationFlags r)
     = present_in (specificNameFound fields) (networkContacts reference)
  /\ documentDateValid (validationFlags r)
     = date_rule now (documentDate fields).
Proof.
  intros He Ht Hl r. subst r. unfold process, consult.
  rewrite He, Ht, Hl. simpl. unfold all_true. simpl.
  rewrite andb_false_r. simpl. rewrite Ht. simpl.
  split; [discriminate|]. repeat split; auto.
Qed.

Lemma registry_failure_is_not_an_error_witness :
  let fields :=
    mkFields (Some (lit "12.345.678/0001-90")) (Some (lit "Ana")) None None in
  let extract (loc : jsstring) : ExtractedFields + Failure := inl fields in
  let lookup (id : jsstring) : RegistryRecord + Failure :=
    inr (mkFailure timeout (lit "timeout")) in
  status (process extract lookup (lit "ATIVA") 0
            (mkReference [] [lit "12.345.678/0001-90"] [lit "ana"] [])
            (lit "http://doc"))
  = invalid.
Proof.
  intros fields extract lookup.
  apply (registry_failure_is_not_an_error extract lookup (lit "ATIVA") 0%Z
           (mkReference [] [lit "12.345.678/0001-90"] [lit "ana"] [])
           (lit "http://doc") fields (lit "12.345.678/0001-90")
           (mkFailure timeout (lit "timeout")) eq_refl eq_refl eq_refl).
Defined.

(** *** Result slots *)

Section Slots.

Variable extract : jsstring -> ExtractedFields + Failure.
Variable lookup : jsstring -> RegistryRecord + Failure.
Variable active : jsstring.
Variable now : Z.
Variable reference : ReferenceDataset.

Let process' := process extract lookup active now reference.
Let finish' := finish extract lookup active now reference.

Lemma length_fill {A} i (x : A) slots :
  List.length (fill i x slots) = List.length slots.
Proof.
  revert i. induction slots as [|s rest IH]; intros [|i]; simpl; auto.
Qed.

Lemma nth_error_fill {A} i (x : A) slots j :
  nth_error (fill i x slots) j =
  if (j =? i)%nat && (i <? List.length slots)%nat then Some (Some x)
  else nth_error slots j.
Proof.
  revert i j. induction slots as [|s rest IH]; intros i j; simpl.
  - rewrite andb_false_r. now destruct i.
  - destruct i as [|i], j as [|j]; simpl; auto.
Qed.

Lemma length_finish locators slots i :
  List.length (finish' locators slots i) = List.length slots.
Proof.
  unfold finish', finish. destruct (nth_error locators i); auto.
  apply length_fill.
Qed.

Let sound := sound extract lookup active now reference.

Lemma sound_empty locators :
  sound locators (repeat None (List.length locators)).
Proof.
  split; [apply repeat_length|].
  intros i loc H. left. apply nth_error_repeat.
  apply nth_error_Some. congruence.
Qed.

Lemma sound_finish locators slots i :
  sound locators slots -> sound locators (finish' locators slots i).
Proof.
  intros [L S]. split; [now rewrite length_finish|].
  intros j loc Hj. unfold finish', finish.
  destruct (nth_error locators i) as [loc'|] eqn:Hi; [|now apply S].
  rewrite nth_error_fill.
  destruct (j =? i)%nat eqn:E; simpl; [|now apply S].
  apply Nat.eqb_eq in E. subst j.
  assert (B : (i <? List.length slots)%nat = true).
  { apply Nat.ltb_lt. rewrite L. apply nth_error_Some. congruence. }
  rewrite B. right. congruence.
Qed.

Lemma filled_finish locators slots i j :
  List.length slots = List.length locators ->
  (exists r, nth_error slots j = Some (Some r)) ->
  exists r, nth_error (finish' locators slots i) j = Some (Some r).
Proof.
  intros L [r H]. unfold finish', finish.
  destruct (nth_error locators i); [|eauto].
  rewrite nth_error_fill.
  destruct ((j =? i)%nat && (i <? List.length slots)%nat); eauto.
Qed.

Lemma fold_finish locators completion :
  forall slots,
  sound locators slots ->
  sound locators (fold_left (finish' locators) completion slots)
  /\ forall j, j < List.length locators ->
       (In j completion \/ exists r, nth_error slots j = Some (Some r)) ->
       exists r,
         nth_error (fold_left (finish' locators) completion slots) j
         = Some (Some r).
Proof.
  induction completion as [|i rest IH]; intros slots S; simpl.
  - split; auto. intros j _ [[]|H]; auto.
  - destruct (IH _ (sound_finish locators slots i S)) as [S' F].
    split; auto. intros j Hj H. apply F; auto.
    destruct H as [[->|H]|H]; auto.
    + right. unfold finish', finish.
      destruct (nth_error locators j) as [loc|] eqn:E.
      * rewrite nth_error_fill, Nat.eqb_refl. simpl.
        destruct S as [L _]. rewrite L.
        apply Nat.ltb_lt in Hj. rewrite Hj. eauto.
      * apply nth_error_None in E. lia.
    + right. apply filled_finish; auto. now destruct S.
Qed.

Lemma collect_map_Some {A} (xs : list A) : collect (map Some xs) = Some xs.
Proof.
  induction xs as [|x xs IH]; simpl; auto. now rewrite IH.
Qed.

Lemma slots_complete locators completion :
  (forall j, j < List.length locators -> In j completion) ->
  fold_left (finish' locators) completion
    (repeat None (List.length locators))
  = map Some (map process' locators).
Proof.
  intros H.
  destruct (fold_finish locators completion _ (sound_empty locators))
    as [[L S] F].
  apply nth_error_ext. intros j.
  destruct (nth_error locators j) as [loc|] eqn:E.
  - assert (Hj : j < List.length locators).
    { apply nth_error_Some. congruence. }
    destruct (F j Hj (or_introl (H j Hj))) as [r Hr].
    rewrite !nth_error_map, E. unfold process'. simpl.
    destruct (S j loc E) as [K|K]; congruence.
  - rewrite !nth_error_map, E. simpl.
    apply nth_error_None. rewrite L. now apply nth_error_None.
Qed.

Lemma runBatch_in_order locators completion :
  1 <= List.length locators <= 3 ->
  Permutation completion (seq 0 (List.length locators)) ->
  runBatch extract lookup active now reference locators completion
  = Some (map process' locators).
Proof.
  intros [H1 H3] P. unfold runBatch.
  destruct (List.length locators =? 0)%nat eqn:Z.
  { apply Nat.eqb_eq in Z. lia. }
  destruct (3 <? List.length locators)%nat eqn:T.
  { apply Nat.ltb_lt in T. lia. }
  simpl. fold finish'. rewrite slots_complete; [apply collect_map_Some|].
  intros j Hj. apply (Permutation_in j (Permutation_sym P)).
  apply in_seq. lia.
Qed.

End Slots.

Lemma process_locator extract lookup active now reference loc :
  locator (process extract lookup active now reference loc) = loc.
Proof. unfold process. now destruct (extract loc). Qed.

(** C6.  Whatever the order in which the documents of a batch finish,
    each finishing once, the results of the run are those of the
    locators in the order they were submitted.  The page sends the
    locators in the order they were written and keeps the results in
    the order of the response, however a result is written on the wire:
    [this.resultados] and the member [resultados] of the report hold the
    result of the k-th locator at index k, and card number k+1 is the
    card of the k-th locator. *)
Theorem results_in_submission_order
    (extract : jsstring -> ExtractedFields + Failure)
    (lookup : jsstring -> RegistryRecord + Failure)
    (active : jsstring) (now : Z) (reference : ReferenceDataset)
    (encode : DocumentResult -> json)
    (st : state) (completion : list nat) (agora depois : jsstring) :
  accepted st = true ->
  let urls := parseDocumentUrls (document_urls_value st) in
  Permutation completion (seq 0 (List.length urls)) ->
  let result := process extract lookup active now reference in
  let o := Responds (response encode (map result urls)) in
  let run := emitted (to_completion iniciarValidacao o) st in
  let st1 := exec (to_completion iniciarValidacao o) st in
  let items := map encode (map result urls) in
  let report :=
    relatorio agora items (count_of "valido" items)
      (count_of "invalido" items) (count_of "erro" items) in
  runBatch extract lookup active now reference urls completion
  = Some (map result urls)
  /\ map locator (map result urls) = urls
  /\ filter is_request run
     = [Fetch (ProcessarDocumentos urls (planilhaData st))]
  /\ resultados st1 = Some (JArr items)
  /\ field_of report "resultados" = Some (JArr items)
  /\ Json.stringify report
     = relatorio_text agora items (count_of "valido" items)
         (count_of "invalido" items) (count_of "erro" items)
  /\ (forall k loc, nth_error urls k = Some loc ->
       nth_error items k = Some (encode (result loc)))
  /\ (renders (Some (JArr items)) = true ->
      emitted (downloadRelatorio agora depois) st1
      = [Download (nome_do_arquivo depois) (Json.stringify report)])
  /\ (draws (Some (JArr items)) = true ->
      List.length (cards run) = List.length urls
      /\ forall k loc, nth_error urls k = Some loc ->
           exists c,
             nth_error (cards run) k = Some c
             /\ numero c = k + 1
             /\ criarCardResultado (encode (result loc)) (k + 1) = Normal c).
Proof.
  intros H urls P result o run st1 items report.
  pose proof (accepted_length st H) as L. fold urls in L.
  assert (S0 : succeeded (response encode (map result urls)) = true)
    by reflexivity.
  assert (Hi : field_of (response encode (map result urls)) "resultados"
               = Some (JArr items)) by reflexivity.
  assert (E : run = opening st ++ closing o)
    by now apply emitted_iniciarValidacao.
  assert (R1 : resultados st1 = Some (JArr items))
    by now apply resultados_answered.
  assert (K : forall k loc, nth_error urls k = Some loc ->
                nth_error items k = Some (encode (result loc))).
  { intros k loc Hk. subst items. now rewrite !nth_error_map, Hk. }
  split; [now apply runBatch_in_order|].
  split.
  { rewrite map_map. rewrite <- (map_id urls) at 2.
    apply map_ext. intros loc. apply process_locator. }
  split.
  { rewrite E, filter_app, requests_closing. reflexivity. }
  split; [exact R1|]. split; [reflexivity|].
  split; [apply stringify_relatorio|]. split; [exact K|]. split.
  - intros Hr. apply downloadRelatorio_results; auto.
    subst items. destruct urls; [simpl in L; lia|discriminate].
  - intros D.
    destruct (cards_closing _ items S0 Hi D) as [C Lc].
    assert (Ec : cards run = cards (closing o)).
    { rewrite E, cards_app. reflexivity. }
    rewrite Ec. split.
    { subst o. rewrite Lc. subst items. now rewrite !length_map. }
    intros k loc Hk.
    destruct (card_list_ok items D 0) as (cs & Hcs & _ & _ & Kc).
    assert (cs = cards (closing o)) by (subst o; congruence). subst cs.
    destruct (Kc k _ (K k loc Hk)) as (c & A & B & _ & M).
    exists c. split; [exact A|]. split; [exact B|exact M].
Qed.

Lemma results_in_submission_order_witness :
  let extract (loc : jsstring) : ExtractedFields + Failure :=
    inl (mkFields (Some loc) None None None) in
  let lookup (id : jsstring) : RegistryRecord + Failure :=
    inr (mkFailure network []) in
  let reference := mkReference [] [] [] [] in
  let encode (r : DocumentResult) := JObj [(lit "url", JStr (locator r))] in
  let st :=
    mkState (Some (JObj [])) (Some (JArr [])) (lit "http://planilha")
      (lit "a,b,c") false false [] in
  let o :=
    Responds
      (response encode
         (map (process extract lookup (lit "ATIVA") 0 reference)
            (parseDocumentUrls (document_urls_value st)))) in
  runBatch extract lookup (lit "ATIVA") 0 reference
    (parseDocumentUrls (document_urls_value st)) [2; 0; 1]
  = Some (map (process extract lookup (lit "ATIVA") 0 reference)
            [lit "a"; lit "b"; lit "c"])
  /\ resultados (exec (to_completion iniciarValidacao o) st)
     = Some (JArr [ JObj [(lit "url", JStr (lit "a"))];
                    JObj [(lit "url", JStr (lit "b"))];
                    JObj [(lit "url", JStr (lit "c"))] ]).
Proof.
  intros extract lookup reference encode st o.
  assert (P : Permutation [2; 0; 1]
                (seq 0 (List.length
                          (parseDocumentUrls (document_urls_value st))))).
  { apply perm_trans with [0; 2; 1];
      [apply perm_swap | apply perm_skip, perm_swap]. }
  destruct (results_in_submission_order extract lookup (lit "ATIVA") 0%Z
              reference encode st [2; 0; 1] [] [] eq_refl P)
    as (A & _ & _ & B & _).
  split; [exact A | exact B].
Defined.

End OrchestratorFacts.

(** ** The report as text *)

Module JsonFacts.

Import Json.

Section Strings.

Lemma hex_value_digit n : (n < 16)%N -> hex_value (hex_digit n) = Some n.
Proof.
  intros H. destruct n as [|p]; [reflexivity|].
  do 4 (try destruct p as [p|p|]); try reflexivity; lia.
Qed.

Lemma hex4_escape c :
  (c < 65536)%N ->
  hex4 (hex_digit ((c / 4096) mod 16)) (hex_digit ((c / 256) mod 16))
    (hex_digit ((c / 16) mod 16)) (hex_digit (c mod 16)) = Some c.
Proof.
  intros H. unfold hex4.
  rewrite !hex_value_digit by (apply N.mod_lt; discriminate).
  f_equal. zify. Z.to_euclidean_division_equations. lia.
Qed.

Lemma decode_unicode_escape c tail :
  (c < 65536)%N ->
  decode_string_body (unicode_escape c ++ tail)
  = consume c (decode_string_body tail).
Proof.
  intros H. unfold unicode_escape. cbn [List.app decode_string_body].
  change (92 =? 34)%N with false. change (92 =? 92)%N with true.
  change (117 =? 117)%N with true. cbv iota.
  now rewrite (hex4_escape c H).
Qed.

Lemma surrogate_small c :
  is_leading_surrogate c = true \/ is_trailing_surrogate c = true ->
  (c < 65536)%N /\ (c =? 34)%N = false /\ (c =? 92)%N = false
  /\ (c <? 32)%N = false.
Proof.
  unfold is_leading_surrogate, is_trailing_surrogate.
  rewrite !andb_true_iff, !N.leb_le.
  intros H. rewrite !N.eqb_neq, N.ltb_ge. lia.
Qed.

Ltac branch c k :=
  destruct (N.eqb_spec c k) as [->|?];
  [cbn; try match goal with IH : _ |- _ => rewrite IH by (simpl in *; lia) end;
   reflexivity|].

Lemma decode_quote_body n :
  forall s rest, List.length s <= n ->
  decode_string_body (quote_body s ++ 34%N :: rest) = Some (s, rest).
Proof.
  induction n as [|n IH]; intros [|c t] rest L; simpl in L; try lia;
    try reflexivity.
  cbn [quote_body].
  branch c 8%N. branch c 9%N. branch c 10%N. branch c 12%N. branch c 13%N.
  branch c 34%N. branch c 92%N.
  destruct (N.ltb_spec c 32) as [Hc|Hc].
  { rewrite <- app_assoc, decode_unicode_escape by lia.
    rewrite IH by lia. reflexivity. }
  assert (P : forall tail,
            decode_string_body (c :: tail)
            = consume c (decode_string_body tail)).
  { intros tail. cbn [decode_string_body].
    destruct (N.eqb_spec c 34); [contradiction|].
    destruct (N.eqb_spec c 92); [contradiction|].
    destruct (N.ltb_spec c 32); [lia|]. reflexivity. }
  destruct (is_leading_surrogate c) eqn:Hl.
  - destruct t as [|d t'].
    + destruct (surrogate_small c (or_introl Hl)) as (B & _).
      rewrite decode_unicode_escape by exact B. reflexivity.
    + destruct (is_trailing_surrogate d) eqn:Ht.
      * destruct (surrogate_small d (or_intror Ht)) as (_ & D1 & D2 & D3).
        cbn [List.app]. rewrite P. cbn [decode_string_body].
        rewrite D1, D2, D3. rewrite IH by (simpl in L; lia). reflexivity.
      * destruct (surrogate_small c (or_introl Hl)) as (B & _).
        rewrite <- app_assoc, decode_unicode_escape by exact B.
        rewrite IH by lia. reflexivity.
  - destruct (is_trailing_surrogate c) eqn:Ht.
    + destruct (surrogate_small c (or_intror Ht)) as (B & _).
      rewrite <- app_assoc, decode_unicode_escape by exact B.
      rewrite IH by lia. reflexivity.
    + cbn [List.app]. rewrite P, IH by lia. reflexivity.
Qed.

Lemma decode_quote s rest :
  decode_string_body (quote_body s ++ 34%N :: rest) = Some (s, rest).
Proof. apply (decode_quote_body (List.length s)). lia. Qed.

End Strings.

Section Numbers.

Lemma is_numeral_finite n : is_numeral n = true -> non_finite n = false.
Proof.
  intros H. unfold non_finite.
  destruct (eqb n (lit "Infinity")) eqn:A;
    [apply eqb_eq in A; subst; discriminate H|].
  destruct (eqb n (lit "-Infinity")) eqn:B;
    [apply eqb_eq in B; subst; discriminate H|].
  destruct (eqb n (lit "NaN")) eqn:C;
    [apply eqb_eq in C; subst; discriminate H|].
  reflexivity.
Qed.

Lemma number_numeral n : is_numeral n = true -> number n = n.
Proof. intros H. unfold number. now rewrite (is_numeral_finite n H). Qed.

Lemma numeral_head n :
  is_numeral n = true ->
  exists c t, n = c :: t
    /\ (is_digit c || (c =? 45)%N) = true
    /\ forallb numeral_char n = true.
Proof.
  destruct n as [|c t]; [discriminate|]. unfold is_numeral.
  rewrite andb_true_iff. intros [A B]. eauto.
Qed.

Lemma decode_number_numeral n rest :
  forallb numeral_char n = true ->
  terminated rest = true ->
  decode_number (n ++ rest) = (n, rest).
Proof.
  intros H T. induction n as [|c t IH]; cbn [List.app].
  - destruct rest as [|c t]; [reflexivity|].
    simpl in T. rewrite orb_true_iff, !N.eqb_eq in T.
    destruct T as [->| ->]; reflexivity.
  - cbn [forallb] in H. apply andb_true_iff in H. destruct H as [Hc Ht].
    cbn [decode_number]. now rewrite Hc, (IH Ht).
Qed.

Lemma digits_numeral u : forallb numeral_char (digits u) = true.
Proof. induction u; simpl; auto. Qed.

Lemma is_numeral_numeral k : is_numeral (numeral k) = true.
Proof.
  unfold numeral, is_numeral. rewrite digits_numeral.
  destruct (Nat.to_uint k) eqn:E; try reflexivity.
  pose proof (DecimalNat.Unsigned.of_to k) as O. rewrite E in O.
  simpl in O. subst k. vm_compute in E. discriminate E.
Qed.

End Numbers.

Section Values.

Lemma json_induction (P : json -> Prop) :
  P JNull ->
  (forall b, P (JBool b)) ->
  (forall n, P (JNum n)) ->
  (forall s, P (JStr s)) ->
  (forall items, Forall P items -> P (JArr items)) ->
  (forall fields, Forall (fun kv => P (snd kv)) fields -> P (JObj fields)) ->
  forall v, P v.
Proof.
  intros Hnull Hbool Hnum Hstr Harr Hobj.
  fix IH 1. intros v. destruct v as [|b|z|s|items|fields].
  - exact Hnull.
  - apply Hbool.
  - apply Hnum.
  - apply Hstr.
  - apply Harr. induction items as [|x xs IHxs]; constructor;
      [apply IH | exact IHxs].
  - apply Hobj. induction fields as [|[k x] xs IHxs]; constructor;
      [apply IH | exact IHxs].
Qed.

Lemma skip_ws_newline indent s : skip_ws (newline indent ++ s) = skip_ws s.
Proof.
  unfold newline. cbn [List.app skip_ws]. change (is_json_ws 10) with true.
  cbv iota. induction indent as [|n IH]; simpl; auto.
Qed.

Lemma skip_ws_head c s : is_json_ws c = false -> skip_ws (c :: s) = c :: s.
Proof. intros H. simpl. now rewrite H. Qed.

Lemma decode_value_skip fuel a b :
  skip_ws a = skip_ws b -> decode_value fuel a = decode_value fuel b.
Proof. intros H. destruct fuel; simpl; auto. now rewrite H. Qed.

Lemma decode_elements_skip fuel a b :
  skip_ws a = skip_ws b -> decode_elements fuel a = decode_elements fuel b.
Proof.
  intros H. destruct fuel; simpl; auto.
  now rewrite (decode_value_skip fuel a b H).
Qed.

Lemma decode_members_skip fuel a b :
  skip_ws a = skip_ws b -> decode_members fuel a = decode_members fuel b.
Proof. intros H. destruct fuel; simpl; auto. now rewrite H. Qed.

Lemma number_start c :
  (is_digit c || (c =? 45)%N) = true ->
  opens_value c
  /\ (c =? 34)%N = false /\ (c =? 91)%N = false /\ (c =? 123)%N = false
  /\ (c =? 110)%N = false /\ (c =? 116)%N = false /\ (c =? 102)%N = false.
Proof.
  unfold is_digit, opens_value, is_json_ws.
  rewrite orb_true_iff, andb_true_iff, N.eqb_eq, !N.leb_le. intros H.
  rewrite !orb_false_iff, !N.eqb_neq. lia.
Qed.

Lemma stringify_head indent v :
  finite_numbers v = true ->
  exists c t, stringify_at indent v = c :: t /\ opens_value c.
Proof.
  destruct v as [|[|]|n|s|[|x xs]|[|kv fields]]; intros D;
    try (eexists _, _; split; [reflexivity|repeat split; reflexivity]).
  cbn [finite_numbers] in D. cbn [stringify_at].
  rewrite (number_numeral n D).
  destruct (numeral_head n D) as (c & t & E & H & _).
  exists c, t. split; [exact E|]. now apply number_start.
Qed.

End Values.

Section RoundTrip.

Lemma join_more indent p ps :
  ps <> [] ->
  join indent (p :: ps) = p ++ 44%N :: newline indent ++ join indent ps.
Proof. destruct ps; [now intros []|reflexivity]. Qed.

Lemma list_sum_cons a l : list_sum (a :: l) = a + list_sum l.
Proof. reflexivity. Qed.

Lemma terminated_comma s : terminated (44%N :: s) = true.
Proof. reflexivity. Qed.

Lemma terminated_newline indent s : terminated (newline indent ++ s) = true.
Proof. reflexivity. Qed.

Lemma elements_round_trip indent closing rest items :
  Forall round_trips items ->
  items <> [] ->
  forallb finite_numbers items = true ->
  forall fuel,
  list_sum (map (fun x => S (size x)) items) <= fuel ->
  decode_elements fuel
    (join indent (map (stringify_at indent) items)
     ++ newline closing ++ 93%N :: rest)
  = Some (items, rest).
Proof.
  induction 1 as [|x xs Hx _ IH]; [now intros []|].
  intros _ D fuel F. cbn [forallb] in D. apply andb_true_iff in D.
  destruct D as [Dx Dxs]. cbn [map] in F. rewrite list_sum_cons in F.
  destruct fuel as [|f]; [lia|]. cbn [decode_elements].
  destruct xs as [|y ys].
  - cbn [map join]. rewrite (Hx indent _ f Dx (terminated_newline _ _))
      by (simpl in F; lia).
    rewrite skip_ws_newline. reflexivity.
  - change (map (stringify_at indent) (x :: y :: ys))
      with (stringify_at indent x :: map (stringify_at indent) (y :: ys)).
    rewrite join_more by discriminate.
    rewrite <- app_assoc. cbn [List.app].
    rewrite (Hx indent _ f Dx (terminated_comma _)) by lia.
    cbn [skip_ws]. change (is_json_ws 44) with false. cbv iota.
    change (44 =? 44)%N with true. cbv iota.
    rewrite <- app_assoc.
    rewrite (decode_elements_skip f _ _ (skip_ws_newline indent _)).
    rewrite IH; auto; [discriminate | lia].
Qed.

Lemma members_round_trip indent closing rest fields :
  Forall (fun kv => round_trips (snd kv)) fields ->
  fields <> [] ->
  forallb (fun kv => finite_numbers (snd kv)) fields = true ->
  forall fuel,
  list_sum (map (fun kv => S (size (snd kv))) fields) <= fuel ->
  decode_members fuel
    (join indent (map (member_text indent) fields)
     ++ newline closing ++ 125%N :: rest)
  = Some (fields, rest).
Proof.
  induction 1 as [|[k x] xs Hx _ IH]; [now intros []|].
  intros _ D fuel F. cbn [forallb snd] in D. apply andb_true_iff in D.
  destruct D as [Dx Dxs]. cbn [map snd] in F. rewrite list_sum_cons in F.
  simpl snd in Hx.
  destruct fuel as [|f]; [lia|].
  assert (K : forall tail,
            terminated tail = true ->
            decode_members (S f) (member_text indent (k, x) ++ tail)
            = match skip_ws tail with
              | [] => None
              | c :: r3 =>
                  if (c =? 44)%N then consume (k, x) (decode_members f r3)
                  else if (c =? 125)%N then Some ([(k, x)], r3)
                  else None
              end).
  { intros tail T. unfold member_text, quote. cbn [fst snd].
    rewrite <- !app_assoc. cbn [List.app decode_members skip_ws].
    change (is_json_ws 34) with false. cbv iota.
    change (34 =? 34)%N with true. cbv iota.
    rewrite <- app_assoc. cbn [List.app].
    rewrite decode_quote. cbn [skip_ws].
    change (is_json_ws 58) with false. cbv iota.
    change (58 =? 58)%N with true. cbv iota.
    rewrite (decode_value_skip f (32%N :: stringify_at indent x ++ tail)
               (stringify_at indent x ++ tail) eq_refl).
    rewrite (Hx indent tail f Dx T) by lia. reflexivity. }
  destruct xs as [|y ys].
  - cbn [map join]. rewrite K by apply terminated_newline.
    rewrite skip_ws_newline. reflexivity.
  - change (map (member_text indent) ((k, x) :: y :: ys))
      with (member_text indent (k, x) :: map (member_text indent) (y :: ys)).
    rewrite join_more by discriminate.
    rewrite <- app_assoc. cbn [List.app]. rewrite K by apply terminated_comma.
    cbn [skip_ws]. change (is_json_ws 44) with false. cbv iota.
    change (44 =? 44)%N with true. cbv iota.
    rewrite <- app_assoc.
    rewrite (decode_members_skip f _ _ (skip_ws_newline indent _)).
    rewrite IH; auto; [discriminate | lia].
Qed.

End RoundTrip.

Section Whole.

Lemma decode_value_open f c t :
  is_json_ws c = false ->
  decode_value (S f) (c :: t) =
  if (c =? 34)%N then
    match decode_string_body t with
    | Some (x, r) => Some (JStr x, r)
    | None => None
    end
  else if (c =? 91)%N then
    match skip_ws t with
    | d :: r =>
        if (d =? 93)%N then Some (JArr [], r)
        else
          match decode_elements f t with
          | Some (vs, r') => Some (JArr vs, r')
          | None => None
          end
    | [] => None
    end
  else if (c =? 123)%N then
    match skip_ws t with
    | d :: r =>
        if (d =? 125)%N then Some (JObj [], r)
        else
          match decode_members f t with
          | Some (kvs, r') => Some (JObj kvs, r')
          | None => None
          end
    | [] => None
    end
  else if (c =? 110)%N then
    option_map (pair JNull) (strip_prefix (lit "ull") t)
  else if (c =? 116)%N then
    option_map (pair (JBool true)) (strip_prefix (lit "rue") t)
  else if (c =? 102)%N then
    option_map (pair (JBool false)) (strip_prefix (lit "alse") t)
  else if is_digit c || (c =? 45)%N then
    let (n, r) := decode_number (c :: t) in Some (JNum n, r)
  else None.
Proof. intros H. cbn [decode_value skip_ws]. now rewrite H. Qed.

Lemma stringify_round_trips v : round_trips v.
Proof.
  induction v as [|b|n|s|items IH|fields IH] using json_induction;
    intros indent rest fuel D T F; (destruct fuel as [|f]; [simpl in F; lia|]).
  - reflexivity.
  - destruct b; reflexivity.
  - cbn [stringify_at finite_numbers] in *. rewrite (number_numeral n D).
    destruct (numeral_head n D) as (c & t & E & H & A).
    destruct (number_start c H) as ((W & _) & A1 & A2 & A3 & A4 & A5 & A6).
    rewrite E at 1. cbn [List.app]. rewrite (decode_value_open f c _ W).
    rewrite A1, A2, A3, A4, A5, A6, H.
    change (c :: t ++ rest) with ((c :: t) ++ rest). rewrite <- E.
    now rewrite (decode_number_numeral n rest A T).
  - cbn [stringify_at]. unfold quote. cbn [List.app].
    rewrite decode_value_open by reflexivity.
    change (34 =? 34)%N with true. cbv iota.
    rewrite <- app_assoc. cbn [List.app]. now rewrite decode_quote.
  - destruct items as [|x xs]; [reflexivity|].
    cbn [stringify_at]. cbn [List.app].
    rewrite decode_value_open by reflexivity.
    change (91 =? 34)%N with false. change (91 =? 91)%N with true. cbv iota.
    rewrite <- !app_assoc. cbn [List.app].
    rewrite skip_ws_newline.
    cbn [finite_numbers] in D.
    destruct (stringify_head (indent + 2) x) as (c & t & E & W & N93 & _).
    { cbn [forallb] in D. now apply andb_true_iff in D. }
    assert (S0 : exists t',
              join (indent + 2) (map (stringify_at (indent + 2)) (x :: xs))
              ++ newline indent ++ 93%N :: rest = c :: t').
    { cbn [map]. destruct xs as [|y ys].
      - cbn [map join]. rewrite E. cbn [List.app]. eauto.
      - change (map (stringify_at (indent + 2)) (y :: ys))
          with (stringify_at (indent + 2) y
                :: map (stringify_at (indent + 2)) ys).
        cbn [join]. rewrite E. cbn [List.app]. eauto. }
    destruct S0 as [t' S0]. rewrite S0 at 1. rewrite (skip_ws_head c t' W).
    rewrite N93.
    rewrite (decode_elements_skip f _ _ (skip_ws_newline (indent + 2) _)).
    cbn [size] in F.
    rewrite (elements_round_trip (indent + 2) indent rest (x :: xs) IH)
      by (auto; try discriminate; lia).
    reflexivity.
  - destruct fields as [|kv kvs]; [reflexivity|].
    cbn [stringify_at]. cbn [List.app].
    rewrite decode_value_open by reflexivity.
    change (123 =? 34)%N with false. change (123 =? 91)%N with false.
    change (123 =? 123)%N with true. cbv iota.
    rewrite <- !app_assoc. cbn [List.app].
    rewrite skip_ws_newline.
    fold (member_text (indent + 2)).
    assert (S0 : exists t',
              join (indent + 2) (map (member_text (indent + 2)) (kv :: kvs))
              ++ newline indent ++ 125%N :: rest = 34%N :: t').
    { cbn [map]. destruct kvs as [|y ys].
      - cbn [map join]. unfold member_text, quote. cbn [List.app]. eauto.
      - change (map (member_text (indent + 2)) (y :: ys))
          with (member_text (indent + 2) y
                :: map (member_text (indent + 2)) ys).
        cbn [join]. unfold member_text at 1, quote. cbn [List.app]. eauto. }
    destruct S0 as [t' S0]. rewrite S0 at 1.
    rewrite (skip_ws_head 34%N t' eq_refl).
    change (34 =? 125)%N with false. cbv iota.
    rewrite (decode_members_skip f _ _ (skip_ws_newline (indent + 2) _)).
    cbn [finite_numbers] in D. cbn [size] in F.
    rewrite (members_round_trip (indent + 2) indent rest (kv :: kvs) IH)
      by (auto; try discriminate; lia).
    reflexivity.
Qed.

End Whole.

Section Fuel.

Lemma join_length indent (ns : list nat) (parts : list jsstring) :
  Forall2 (fun n p => n <= List.length p) ns parts ->
  list_sum (map S ns) <= List.length (join indent parts) + 1.
Proof.
  induction 1 as [|n p ns parts H T IH]; [simpl; lia|].
  cbn [map]. rewrite list_sum_cons. destruct parts as [|q qs].
  - inversion T; subst. simpl. lia.
  - rewrite join_more by discriminate.
    rewrite length_app. cbn [List.length]. rewrite length_app. lia.
Qed.

Lemma size_le_length v :
  finite_numbers v = true ->
  forall indent, size v <= List.length (stringify_at indent v).
Proof.
  induction v as [|b|n|s|items IH|fields IH] using json_induction;
    intros D indent.
  - simpl. lia.
  - destruct b; simpl; lia.
  - cbn [stringify_at size finite_numbers] in *.
    rewrite (number_numeral n D).
    destruct (numeral_head n D) as (c & t & -> & _). simpl. lia.
  - cbn [stringify_at size]. unfold quote. simpl. lia.
  - destruct items as [|x xs]; [simpl; lia|].
    cbn [stringify_at size]. cbn [List.length]. rewrite !length_app.
    pose proof (join_length (indent + 2) (map size (x :: xs))
                  (map (stringify_at (indent + 2)) (x :: xs))) as J.
    rewrite map_map in J.
    assert (F : forall l,
                Forall (fun v => finite_numbers v = true -> forall indent,
                          size v <= List.length (stringify_at indent v)) l ->
                forallb finite_numbers l = true ->
                Forall2 (fun n p => n <= List.length p)
                  (map size l) (map (stringify_at (indent + 2)) l)).
    { clear. induction 1 as [|y ys Hy _ IHys]; simpl; intros E;
        constructor; apply andb_true_iff in E; destruct E; auto. }
    cbn [finite_numbers] in D.
    specialize (J (F _ IH D)). unfold newline. cbn [List.length]. lia.
  - destruct fields as [|kv kvs]; [simpl; lia|].
    cbn [stringify_at size]. cbn [List.length]. rewrite !length_app.
    fold (member_text (indent + 2)).
    pose proof (join_length (indent + 2) (map (fun kv => size (snd kv))
                                            (kv :: kvs))
                  (map (member_text (indent + 2)) (kv :: kvs))) as J.
    rewrite map_map in J.
    assert (F : forall l,
                Forall (fun kv : jsstring * json =>
                          finite_numbers (snd kv) = true -> forall indent,
                          size (snd kv)
                          <= List.length (stringify_at indent (snd kv))) l ->
                forallb (fun kv => finite_numbers (snd kv)) l = true ->
                Forall2 (fun n p => n <= List.length p)
                  (map (fun kv => size (snd kv)) l)
                  (map (member_text (indent + 2)) l)).
    { clear. induction 1 as [|y ys Hy _ IHys]; simpl; intros E;
        constructor; apply andb_true_iff in E; destruct E as [E1 E2]; auto.
      unfold member_text. rewrite !length_app.
      specialize (Hy E1 (indent + 2)). lia. }
    cbn [finite_numbers] in D.
    specialize (J (F _ IH D)). unfold newline, jsstring in *.
    cbn [List.length]. lia.
Qed.

End Fuel.

(** The text [JSON.stringify(v, null, 2)] gives for a value with finite
    numbers is read back as the value. *)
Lemma decode_stringify v :
  finite_numbers v = true -> decode (stringify v) = Some v.
Proof.
  intros D. unfold decode, stringify.
  pose proof (stringify_round_trips v 0 [] (S (List.length (stringify_at 0 v)))
                D eq_refl) as R.
  rewrite app_nil_r in R. rewrite R; [reflexivity|].
  pose proof (size_le_length v D 0). lia.
Qed.

(** Two such values with the same text are the same value. *)
Lemma stringify_injective v w :
  finite_numbers v = true ->
  finite_numbers w = true ->
  stringify v = stringify w ->
  v = w.
Proof.
  intros Dv Dw E. apply decode_stringify in Dv, Dw.
  rewrite E in Dv. congruence.
Qed.

End JsonFacts.

(** ** The exported report *)

Lemma relatorio_finite agora items validos invalidos erros :
  Json.finite_numbers (JArr items) = true ->
  Json.finite_numbers (relatorio agora items validos invalidos erros) = true.
Proof.
  intros D. unfold relatorio.
  cbn [Json.finite_numbers forallb snd].
  rewrite !JsonFacts.is_numeral_numeral.
  cbn [Json.finite_numbers] in D. now rewrite D.
Qed.

(** C5, as the code has it.  The report that is downloaded is the text
    [JSON.stringify] gives for the object [relatorio].  As long as every
    number of the results is finite the text holds the report whole: it
    decodes to that object again, member for member, and no other
    object has the same text.  Its members are named [timestamp],
    [total_documentos], [validos], [invalidos], [erros] and
    [resultados], in this order, and [resultados] holds the results as
    the page received them.  The text is a function of the results and
    of the reading of the clock. *)
Theorem downloadRelatorio_round_trips
    (st : state) (items : list json) (agora depois : jsstring) :
  resultados st = Some (JArr items) ->
  items <> [] ->
  renders (resultados st) = true ->
  Json.finite_numbers (JArr items) = true ->
  let report :=
    relatorio agora items (count_of "valido" items)
      (count_of "invalido" items) (count_of "erro" items) in
  emitted (downloadRelatorio agora depois) st
  = [Download (nome_do_arquivo depois) (Json.stringify report)]
  /\ Json.decode (Json.stringify report) = Some report
  /\ (forall other,
        Json.finite_numbers other = true ->
        Json.stringify other = Json.stringify report ->
        other = report)
  /\ keys report = relatorio_names
  /\ field_of report "timestamp" = Some (JStr agora)
  /\ field_of report "total_documentos"
     = Some (JNum (Json.numeral (List.length items)))
  /\ field_of report "resultados" = Some (JArr items).
Proof.
  intros R N0 Hr D report.
  assert (F : Json.finite_numbers report = true)
    by now apply relatorio_finite.
  split; [|split; [|split; [|repeat split]]].
  - rewrite R in Hr. now apply downloadRelatorio_results.
  - now apply JsonFacts.decode_stringify.
  - intros other Fo E. now apply JsonFacts.stringify_injective.
Qed.

Lemma downloadRelatorio_round_trips_witness :
  let items :=
    [JObj [(lit "url", JStr (lit "http://doc"));
           (lit "status", JStr (lit "invalido"));
           (lit "dados_extraidos",
            JObj [(lit "data_documento", JNum (lit "1.7e+12"))]);
           (lit "validacoes", JObj [(lit "data_validada", JBool false)])]] in
  let st :=
    mkState (Some (JObj [])) (Some (JArr items)) [] (lit "http://doc")
      false false [] in
  let report := relatorio (lit "2026-11-03T10:00:00.000Z") items 0 1 0 in
  Json.decode (Json.stringify report) = Some report.
Proof.
  intros items st report.
  apply (downloadRelatorio_round_trips st items
           (lit "2026-11-03T10:00:00.000Z") [] eq_refl).
  - discriminate.
  - reflexivity.
  - reflexivity.
Defined.

(** C5, as the specification has it, fails twice.  On the names: the
    report of a run with one result has no member [totalDocuments] (nor
    [validCount], [invalidCount], [errorCount], [results]); the members
    it has are those of [relatorio_names].  On the round trip: a number
    that is not finite, which [response.json()] gives for a literal
    beyond the range of the numbers, is written as [null], so that the
    report of such a result has the text of another report and is not
    what its text decodes to.  And nothing is exported at all when there
    is no result, or a [null] among the results. *)
Lemma downloadRelatorio_names_differ :
  let resultado data :=
    JObj [(lit "url", JStr (lit "http://doc"));
          (lit "status", JStr (lit "valido"));
          (lit "dados_extraidos", JObj [(lit "data_documento", data)])] in
  let st data :=
    mkState (Some (JObj [])) (Some (JArr [resultado data])) []
      (lit "http://doc") false false [] in
  let agora := lit "2026-11-03T10:00:00.000Z" in
  let report data := relatorio agora [resultado data] 1 0 0 in
  let huge := JNum (lit "Infinity") in
  (emitted (downloadRelatorio agora agora) (st (JStr (lit "2026-10-30")))
   = [Download (lit "relatorio-validacao-2026-11-03.json")
        (Json.stringify (report (JStr (lit "2026-10-30"))))]
   /\ keys (report (JStr (lit "2026-10-30"))) <> batch_report_names
   /\ field_of (report (JStr (lit "2026-10-30"))) "totalDocuments" = None
   /\ field_of (report (JStr (lit "2026-10-30"))) "validCount" = None
   /\ field_of (report (JStr (lit "2026-10-30"))) "invalidCount" = None
   /\ field_of (report (JStr (lit "2026-10-30"))) "errorCount" = None
   /\ field_of (report (JStr (lit "2026-10-30"))) "results" = None)
  /\ (emitted (downloadRelatorio agora agora) (st huge)
      = [Download (lit "relatorio-validacao-2026-11-03.json")
           (Json.stringify (report huge))]
      /\ Json.stringify (report huge) = Json.stringify (report JNull)
      /\ Json.decode (Json.stringify (report huge)) = Some (report JNull)
      /\ report huge <> report JNull)
  /\ reported (downloadRelatorio agora agora)
       (mkState (Some (JObj [])) (Some (JArr [])) [] (lit "http://doc")
          false false [])
     = [Alert "Nenhum resultado para download"]
  /\ reported (downloadRelatorio agora agora)
       (mkState (Some (JObj [])) (Some (JArr [JNull])) [] (lit "http://doc")
          false false [])
     = [Uncaught TypeError].
Proof.
  intros resultado st agora report huge.
  split; [|split; [|split; vm_compute; reflexivity]].
  - split; [vm_compute; reflexivity|].
    split; [vm_compute; discriminate|].
    repeat split; vm_compute; reflexivity.
  - split; [vm_compute; reflexivity|].
    split; [vm_compute; reflexivity|].
    split; [vm_compute; reflexivity|].
    vm_compute. discriminate.
Qed.

(** ** What the page alone guarantees *)

(** The three counts of the page never exceed the number of results; they
    add up to it when every status is one of the three names. *)
Lemma counts_at_most_total items :
  count_of "valido" items + count_of "invalido" items + count_of "erro" items
  <= List.length items.
Proof.
  unfold count_of. induction items as [|r rest IH]; [simpl; lia|].
  cbn [filter].
  assert (E : forall v a b, is_string v a = true -> is_string v b = true ->
                            lit a = lit b).
  { intros [[|q|z|s|l|l]|] a b Ha Hb; try discriminate.
    apply eqb_eq in Ha, Hb. congruence. }
  destruct (is_string (field_of r "status") "valido") eqn:V,
    (is_string (field_of r "status") "invalido") eqn:I,
    (is_string (field_of r "status") "erro") eqn:R;
    cbn [List.length]; try lia;
    match goal with
    | A : is_string _ ?a = true, B : is_string _ ?b = true |- _ =>
        pose proof (E _ a b A B) as K; vm_compute in K; discriminate K
    end.
Qed.

(** A result whose status is none of the three names is drawn as an
    error card and counted nowhere. *)
Example unknown_status_is_drawn_as_error :
  let r := JObj [(lit "url", JStr (lit "http://doc"));
                 (lit "status", JStr (lit "pendente"))] in
  (exists c, criarCardResultado r 1 = Normal c /\ statusClass c = "erro")
  /\ count_of "valido" [r] + count_of "invalido" [r] + count_of "erro" [r] = 0.
Proof.
  intros r. split; [|vm_compute; reflexivity].
  eexists. split; [vm_compute; reflexivity|reflexivity].
Qed.

(** A click on the load button with no URL in the field asks for one and
    does no more: nothing is sent, and the dataset is the one there was. *)
Lemma carregarPlanilha_without_url st :
  trim (csv_url_value st) = [] ->
  carregarPlanilha st =
  (Normal None,
   with_trace st
     (trace st
      ++ [StatusPlanilha "danger"
            (Text "Por favor, insira a URL da planilha")])).
Proof.
  intros H. destruct st as [pd rs csv docs idis cdis tr]. simpl in H.
  unfold carregarPlanilha, mbind, read. simpl. now rewrite H.
Qed.

(** * Further properties of the page *)

(** ** Trimming *)

Section Trimmed.

Lemma blank_trimStart_eq s : blank (trimStart s) = blank s.
Proof.
  induction s as [|c t IH]; simpl; auto.
  destruct (is_white_space c) eqn:E; simpl; auto. now rewrite E.
Qed.

Lemma trimStart_nil_blank s : trimStart s = [] -> blank s = true.
Proof. intros H. rewrite <- blank_trimStart_eq, H. reflexivity. Qed.

Lemma trim_nil_blank s : trim s = [] <-> blank s = true.
Proof.
  split; [|apply trim_blank].
  unfold trim, trimEnd. intros H.
  apply (f_equal (@rev N)) in H. rewrite rev_involutive in H. simpl in H.
  apply trimStart_nil_blank in H. rewrite blank_rev in H.
  now rewrite blank_trimStart_eq in H.
Qed.

Lemma eqb_trim_nil s : eqb (trim s) [] = blank s.
Proof.
  destruct (blank s) eqn:B.
  - apply eqb_eq. now apply trim_nil_blank.
  - apply eqb_neq. intros H. apply trim_nil_blank in H. congruence.
Qed.

Lemma trimStart_idempotent s : trimStart (trimStart s) = trimStart s.
Proof.
  induction s as [|c t IH]; simpl; auto.
  destruct (is_white_space c) eqn:E; auto. simpl. now rewrite E.
Qed.

Lemma trimStart_snoc c s :
  is_white_space c = false -> trimStart (s ++ [c]) = trimStart s ++ [c].
Proof.
  intros H. induction s as [|a t IH]; simpl.
  - now rewrite H.
  - destruct (is_white_space a); auto.
Qed.

Lemma trimEnd_cons c s :
  is_white_space c = false -> trimEnd (c :: s) = c :: trimEnd s.
Proof.
  intros H. unfold trimEnd. simpl.
  rewrite (trimStart_snoc c (rev s) H), rev_app_distr. reflexivity.
Qed.

Lemma trimStart_trimEnd s :
  trimStart s = s -> trimStart (trimEnd s) = trimEnd s.
Proof.
  destruct s as [|c t]; [reflexivity|]. simpl.
  destruct (is_white_space c) eqn:E.
  - intros H. apply (f_equal (@List.length N)) in H.
    assert (L : List.length (trimStart t) <= List.length t).
    { clear. induction t as [|a t IH]; simpl; auto.
      destruct (is_white_space a); simpl; lia. }
    simpl in H. lia.
  - intros _. rewrite (trimEnd_cons c t E). simpl. now rewrite E.
Qed.

Lemma trim_trimmed s : trimmed (trim s).
Proof.
  unfold trimmed, trim. split.
  - apply trimStart_trimEnd, trimStart_idempotent.
  - unfold trimEnd. rewrite rev_involutive. apply trimStart_idempotent.
Qed.

Lemma trimmed_trim s : trimmed s -> trim s = s.
Proof.
  intros [A B]. unfold trim, trimEnd. rewrite A, B. apply rev_involutive.
Qed.

Lemma trim_idempotent s : trim (trim s) = trim s.
Proof. apply trimmed_trim, trim_trimmed. Qed.

End Trimmed.

(** ** The start button *)

Lemma updateUI_spec st :
  updateUI st =
  (Normal tt,
   with_iniciar_disabled st
     (negb (truthy (planilhaData st)) || blank (document_urls_value st))).
Proof.
  destruct st as [pd rs csv docs idis cdis tr].
  unfold updateUI, mbind, read, set_iniciar_disabled, with_iniciar_disabled.
  simpl. now rewrite eqb_trim_nil.
Qed.

(** X1.  [updateUI] changes the start button only, and leaves it enabled
    exactly when a dataset is loaded ([planilhaData] truthy) and the
    locator field holds a code unit that is not white space. *)
Theorem updateUI_enables_start (st : state) :
  exec updateUI st =
  with_iniciar_disabled st
    (negb (truthy (planilhaData st)) || blank (document_urls_value st))
  /\ (iniciar_disabled (exec updateUI st) = false
      <-> truthy (planilhaData st) = true
          /\ blank (document_urls_value st) = false).
Proof.
  unfold exec. rewrite updateUI_spec. split; [reflexivity|]. simpl.
  rewrite orb_false_iff, negb_false_iff. tauto.
Qed.

(** X2.  With a dataset loaded, a locator field that holds separators
    and white space only, a comma among them, enables the start button;
    a click on it is then answered by the empty-batch alert, and nothing
    is sent. *)
Theorem separators_enable_start_but_are_refused
    (st : state) (w : list pendente) :
  truthy (planilhaData st) = true ->
  only_blank_or_separator (document_urls_value st) = true ->
  blank (document_urls_value st) = false ->
  let st' := exec updateUI st in
  iniciar_disabled st' = false
  /\ step (mkApp st' w) ClickIniciar
     = mkApp (with_trace st'
                (trace st
                 ++ [Alert "Por favor, insira pelo menos uma URL de documento"]))
         w.
Proof.
  intros T S B st'. subst st'. unfold exec. rewrite updateUI_spec.
  rewrite T, B. simpl. split; [reflexivity|].
  unfold click. simpl.
  rewrite iniciarValidacao_empty.
  - reflexivity.
  - simpl. rewrite parseDocumentUrls_refines. now apply parse_blank.
Qed.

Lemma separators_enable_start_but_are_refused_witness :
  let st :=
    mkState (Some (JObj [])) (Some (JArr [])) (lit "http://planilha")
      (lit " , ,") true false [] in
  iniciar_disabled (exec updateUI st) = false
  /\ parseDocumentUrls (document_urls_value st) = [].
Proof.
  intros st.
  destruct (separators_enable_start_but_are_refused st [] eq_refl eq_refl
              eq_refl) as [A _].
  split; [exact A|reflexivity].
Defined.

(** X3.  On a fresh page, whatever its two fields hold, no dataset is
    loaded and the start button is disabled: a click on it dispatches
    nothing, and a click on the download button is answered by the alert
    that there is nothing to download. *)
Theorem construct_fresh (csv docs : jsstring) :
  let st := construct csv docs in
  planilhaData st = Some JNull
  /\ resultados st = Some (JArr [])
  /\ iniciar_disabled st = true
  /\ carregar_disabled st = false
  /\ trace st = []
  /\ (forall w, step (mkApp st w) ClickIniciar = mkApp st w)
  /\ (forall agora depois,
        reported (downloadRelatorio agora depois) st
        = [Alert "Nenhum resultado para download"]).
Proof.
  unfold construct, exec. rewrite updateUI_spec. simpl.
  repeat split; reflexivity.
Qed.

(** ** Pieces and locators *)

Section Pieces.

Variable sep : N -> bool.

Let free (s : jsstring) : bool := forallb (fun c => negb (sep c)) s.

Lemma split_by_free u : free u = true -> split_by sep u = [u].
Proof.
  unfold free. induction u as [|c t IH]; simpl; auto.
  rewrite andb_true_iff, negb_true_iff. intros [Hc Ht].
  now rewrite Hc, (IH Ht).
Qed.

Lemma split_by_app u c s :
  free u = true -> sep c = true ->
  split_by sep (u ++ c :: s) = u :: split_by sep s.
Proof.
  unfold free. intros Hu Hc. induction u as [|a t IH]; simpl.
  - now rewrite Hc.
  - simpl in Hu. apply andb_true_iff in Hu. destruct Hu as [Ha Ht].
    apply negb_true_iff in Ha. now rewrite Ha, (IH Ht).
Qed.

Lemma split_by_pieces_free s :
  Forall (fun p => free p = true) (split_by sep s).
Proof.
  unfold free. induction s as [|c t IH]; simpl.
  - now repeat constructor.
  - destruct (sep c) eqn:E.
    + constructor; auto.
    + destruct (split_by sep t) as [|p ps].
      * repeat constructor. simpl. now rewrite E.
      * inversion IH; subst. constructor; auto. simpl. now rewrite E.
Qed.

End Pieces.

Section Locators.

Lemma forallb_rev {A} (f : A -> bool) l : forallb f (rev l) = forallb f l.
Proof.
  induction l as [|x l IH]; simpl; auto.
  rewrite forallb_app, IH. simpl. rewrite andb_true_r. apply andb_comm.
Qed.

Lemma forallb_trimStart (f : N -> bool) s :
  forallb f s = true -> forallb f (trimStart s) = true.
Proof.
  induction s as [|c t IH]; simpl; auto.
  destruct (is_white_space c); auto.
  rewrite andb_true_iff. intros [_ H]. auto.
Qed.

Lemma forallb_trim (f : N -> bool) s :
  forallb f s = true -> forallb f (trim s) = true.
Proof.
  intros H. unfold trim, trimEnd. rewrite forallb_rev.
  apply forallb_trimStart. rewrite forallb_rev. now apply forallb_trimStart.
Qed.

Lemma parse_locator value u :
  In u (parse_split_trim_drop value) ->
  u <> [] /\ trimmed u /\ no_separator u = true.
Proof.
  unfold parse_split_trim_drop. rewrite filter_In, in_map_iff.
  intros [[p [Hp Hin]] Hne]. subst u. split; [|split].
  - intros E. rewrite E in Hne. discriminate.
  - apply trim_trimmed.
  - apply forallb_trim.
    pose proof (split_by_pieces_free is_separator value) as F.
    rewrite Forall_forall in F. now apply F.
Qed.

Lemma split_join_comma us :
  us <> [] ->
  Forall (fun u => no_separator u = true) us ->
  split (join_comma us) = us.
Proof.
  unfold split. intros N0 F. induction F as [|u rest Hu _ IH]; [now destruct N0|].
  destruct rest as [|v rest'].
  - simpl. now apply split_by_free.
  - change (join_comma (u :: v :: rest'))
      with (u ++ 44%N :: join_comma (v :: rest')).
    rewrite split_by_app; auto. f_equal. apply IH. discriminate.
Qed.

End Locators.

Lemma parse_locators_all value :
  Forall (fun u => u <> [] /\ trimmed u /\ no_separator u = true)
    (parseDocumentUrls value).
Proof.
  rewrite parseDocumentUrls_refines. apply Forall_forall.
  intros u. apply parse_locator.
Qed.

Lemma parse_join_comma us :
  Forall (fun u => u <> [] /\ trimmed u /\ no_separator u = true) us ->
  parseDocumentUrls (join_comma us) = us.
Proof.
  intros F. rewrite parseDocumentUrls_refines. unfold parse_split_trim_drop.
  destruct us as [|u rest]; [reflexivity|].
  rewrite split_join_comma; [|discriminate|].
  - induction F as [|x xs (Hn & Ht & _) _ IH]; [reflexivity|].
    cbn [map filter]. rewrite (trimmed_trim x Ht).
    destruct (eqb x []) eqn:E; [now apply eqb_eq in E|].
    simpl. now rewrite IH.
  - eapply Forall_impl; [|exact F]. intros x (_ & _ & H). exact H.
Qed.

(** ** The parsing and its description *)

Section Description.

Lemma pieces_split piece text :
  pieces piece text
  = match split text with
    | p :: ps => (rev piece ++ p) :: ps
    | [] => []
    end.
Proof.
  revert piece. unfold split.
  induction text as [|c rest IH]; intros piece; cbn [pieces split_by].
  - now rewrite app_nil_r.
  - unfold is_separator at 1.
    destruct ((c =? 44) || (c =? 10))%N.
    + rewrite app_nil_r, (IH []). cbn [rev List.app].
      destruct (split_by is_separator rest) as [|p ps] eqn:E;
        [now destruct (split_by_not_nil _ _ E)|reflexivity].
    + rewrite (IH (c :: piece)). cbn [rev].
      destruct (split_by is_separator rest) as [|p ps] eqn:E;
        [now destruct (split_by_not_nil _ _ E)|].
      now rewrite <- app_assoc.
Qed.

Lemma pieces_nil_split text : pieces [] text = split text.
Proof.
  rewrite pieces_split. now destruct (split text).
Qed.

Lemma parseDocumentUrls_described value :
  parseDocumentUrls value = split_trim_drop value.
Proof.
  rewrite parseDocumentUrls_refines.
  unfold parse_split_trim_drop, split_trim_drop. rewrite pieces_nil_split.
  apply filter_ext. intros u. apply eqb_nil_length.
Qed.

Lemma trimStart_prefix s : exists a, s = a ++ trimStart s /\ blank a = true.
Proof.
  induction s as [|c t (a & E & B)]; [now exists []|]. simpl.
  destruct (is_white_space c) eqn:W.
  - exists (c :: a). simpl. rewrite W, B. split; [now f_equal|reflexivity].
  - now exists [].
Qed.

Lemma trim_inside s :
  exists a b, s = a ++ trim s ++ b /\ blank a = true /\ blank b = true.
Proof.
  destruct (trimStart_prefix s) as (a & Ea & Ba).
  destruct (trimStart_prefix (rev (trimStart s))) as (b & Eb & Bb).
  exists a, (rev b). split; [|split; [exact Ba|now rewrite blank_rev]].
  unfold trim, trimEnd. rewrite <- rev_app_distr, <- Eb, rev_involutive.
  exact Ea.
Qed.

Lemma pieces_blank text :
  forall piece,
  Forall (fun p => blank p = true) (pieces piece text) ->
  blank piece = true /\ only_space_and_separators text = true.
Proof.
  induction text as [|c rest IH]; intros piece; cbn [pieces].
  - intros F. inversion F; subst. now rewrite <- blank_rev.
  - unfold only_space_and_separators. cbn [forallb].
    fold (only_space_and_separators rest).
    destruct ((c =? 44) || (c =? 10))%N eqn:S.
    + intros F. inversion F as [|p ps Hp Hps]; subst.
      destruct (IH [] Hps) as [_ R]. rewrite R, <- orb_assoc, S.
      rewrite orb_true_r. now rewrite <- blank_rev.
    + intros F. destruct (IH (c :: piece) F) as [B R].
      simpl in B. apply andb_true_iff in B. destruct B as [W B].
      rewrite R, W. auto.
Qed.

Lemma nothing_kept ps :
  filter (fun p => (0 <? List.length p)%nat) (map trim ps) = [] ->
  Forall (fun p => blank p = true) ps.
Proof.
  induction ps as [|p ps IH]; [constructor|]. cbn [map filter].
  destruct (trim p) as [|c t] eqn:E; [|discriminate]. simpl.
  intros H. constructor; [|now apply IH].
  destruct (trim_inside p) as (a & b & Ep & Ba & Bb).
  rewrite E in Ep. rewrite Ep. cbn [List.app].
  now rewrite blank_app, Ba, Bb.
Qed.

Lemma only_space_and_separators_eq value :
  only_space_and_separators value = only_blank_or_separator value.
Proof.
  unfold only_space_and_separators, only_blank_or_separator, is_separator.
  induction value as [|c rest IH]; [reflexivity|].
  cbn [forallb]. now rewrite IH, orb_assoc.
Qed.

End Description.

(** C9.  The locators of a raw input are the pieces between its commas
    and line feeds, trimmed, without the empty ones: the parse of the
    code is the one the words describe.  Trimming takes white space off
    the two ends of a piece and nothing else, so that no locator of the
    list is empty or made of white space only, and none begins or ends
    with white space.  The list is empty exactly when the input holds
    nothing but white space, commas and line feeds, and
    [iniciarValidacao] then refuses it as an empty batch. *)
Theorem parseDocumentUrls_split_trim_drop (value : jsstring) :
  parseDocumentUrls value = split_trim_drop value
  /\ Forall (fun p => exists a b,
               p = a ++ trim p ++ b /\ blank a = true /\ blank b = true)
       (pieces [] value)
  /\ Forall (fun u => u <> [] /\ blank u = false /\ trimmed u)
       (parseDocumentUrls value)
  /\ (parseDocumentUrls value = []
      <-> only_space_and_separators value = true)
  /\ (only_space_and_separators value = true ->
      forall st, document_urls_value st = value ->
        iniciarValidacao st =
        rejected "Por favor, insira pelo menos uma URL de documento" st).
Proof.
  assert (E : only_space_and_separators value = true ->
              parseDocumentUrls value = []).
  { rewrite only_space_and_separators_eq, parseDocumentUrls_refines.
    apply parse_blank. }
  split; [apply parseDocumentUrls_described|]. split; [|split; [|split]].
  - apply Forall_forall. intros p _. apply trim_inside.
  - apply Forall_forall. intros u Hu.
    pose proof (parse_locators_all value) as F.
    rewrite Forall_forall in F. destruct (F u Hu) as (N0 & T & _).
    rewrite parseDocumentUrls_refines in Hu.
    destruct (parse_elements_trimmed value u Hu) as [_ B]. auto.
  - split; [|exact E].
    rewrite parseDocumentUrls_described. unfold split_trim_drop.
    intros H. now apply (pieces_blank value []), nothing_kept.
  - intros H st Hst. apply iniciarValidacao_empty. rewrite Hst. now apply E.
Qed.

Lemma parseDocumentUrls_split_trim_drop_witness :
  let value := lit (" , " ++ String (ascii_of_nat 10) " ,,  ") in
  only_space_and_separators value = true
  /\ parseDocumentUrls value = []
  /\ iniciarValidacao (construct [] value) =
     rejected "Por favor, insira pelo menos uma URL de documento"
       (construct [] value).
Proof.
  intros value.
  assert (H : only_space_and_separators value = true) by reflexivity.
  destruct (parseDocumentUrls_split_trim_drop value) as (_ & _ & _ & K & R).
  split; [exact H|]. split; [now apply K|]. apply R; [exact H|reflexivity].
Defined.

(** X4.  Every locator [parseDocumentUrls] returns is non-empty, has no
    white space at either end, and contains no comma and no line break;
    joining the locators by commas and parsing again gives the same
    list. *)
Theorem parseDocumentUrls_locators (value : jsstring) :
  Forall (fun u => u <> [] /\ trimmed u /\ no_separator u = true)
    (parseDocumentUrls value)
  /\ parseDocumentUrls (join_comma (parseDocumentUrls value))
     = parseDocumentUrls value.
Proof.
  split; [apply parse_locators_all|].
  apply parse_join_comma, parse_locators_all.
Qed.

(** X5.  A list of locators of that form (non-empty, no white space at
    either end, no comma and no line break inside), joined by commas, is
    parsed back as the same list, in the same order and with its
    repetitions. *)
Theorem parseDocumentUrls_join_comma (us : list jsstring) :
  Forall (fun u => u <> [] /\ trimmed u /\ no_separator u = true) us ->
  parseDocumentUrls (join_comma us) = us.
Proof. apply parse_join_comma. Qed.

Lemma parseDocumentUrls_join_comma_witness :
  parseDocumentUrls (join_comma [lit "http://a/1 2"; lit "b"; lit "b"])
  = [lit "http://a/1 2"; lit "b"; lit "b"].
Proof.
  apply parseDocumentUrls_join_comma.
  repeat constructor; try discriminate; reflexivity.
Defined.

(** ** The name of the downloaded file *)

(** X6.  The file is named after the part of the clock reading before
    its first [T]: for a reading [date ++ "T" ++ time] with no [T] in
    [date] the name is [relatorio-validacao-] followed by [date] and
    [.json], whatever [time] is; a reading with no [T] at all is used
    whole. *)
Theorem nome_do_arquivo_date (date time : jsstring) :
  forallb (fun c => negb (c =? 84)%N) date = true ->
  nome_do_arquivo (date ++ 84%N :: time)
  = lit "relatorio-validacao-" ++ date ++ lit ".json"
  /\ nome_do_arquivo date
     = lit "relatorio-validacao-" ++ date ++ lit ".json".
Proof.
  intros H. unfold nome_do_arquivo.
  rewrite (split_by_app (fun c => (c =? 84)%N) date 84%N time H eq_refl).
  rewrite (split_by_free (fun c => (c =? 84)%N) date H).
  split; reflexivity.
Qed.

Lemma nome_do_arquivo_date_witness :
  nome_do_arquivo (lit "2026-11-03T10:00:00.000Z")
  = lit "relatorio-validacao-2026-11-03.json".
Proof.
  apply (nome_do_arquivo_date (lit "2026-11-03") (lit "10:00:00.000Z")).
  reflexivity.
Defined.

(** ** The body of a card *)

(** X7.  A card is made of every result that is not [null] and whose
    values on the card convert to strings, with the number it was given
    and the [url] of the result; of any other result the method makes no
    card and throws a TypeError.  When the result has a truthy [erro]
    the body of the card is the error box and nothing else, whatever its
    status says; otherwise it is the two tables and the six checks,
    where a value that is missing or falsy is replaced by its
    placeholder and a check is shown as passed exactly when its flag is
    truthy.  A result with none of [dados_extraidos], [dados_receita]
    and [validacoes] gives seven placeholders and six failed checks. *)
Theorem criarCardResultado_conteudo (resultado : json) (n : nat) :
  match criarCardResultado resultado n with
  | Normal c =>
      drawable resultado = true
      /\ card_url c = field_of resultado "url"
      /\ numero c = n
      /\ card_conteudo c
         = (if truthy (field_of resultado "erro")
            then ConteudoErro (field_of resultado "erro")
            else dados_do_card resultado)
      /\ (truthy (field_of resultado "dados_extraidos") = false ->
          truthy (field_of resultado "dados_receita") = false ->
          truthy (field_of resultado "validacoes") = false ->
          dados_do_card resultado
          = ConteudoDados
              [("CNPJ:", None); ("Representante Legal:", None);
               ("Data:", None); ("Nome Específico:", None)]
              [("Razão Social:", None); ("Situação:", None);
               ("Endereço:", None)]
              [("CNPJ na Planilha", false); ("Razão Social Válida", false);
               ("CNPJ Ativo na Receita", false);
               ("Representante Válido", false);
               ("Nome Específico Válido", false);
               ("Data Válida (30 dias)", false)])
  | Throw e => drawable resultado = false /\ e = TypeError
  end.
Proof.
  rewrite criarCardResultado_spec.
  destruct (drawable resultado) eqn:D; [|split; reflexivity].
  unfold card_of. cbn [card_url card_conteudo numero].
  do 4 (split; [reflexivity|]).
  intros A B C. unfold dados_do_card, or_empty. rewrite A, B, C.
  reflexivity.
Qed.

(** ** Drawing and exporting the same results *)

Lemma exibirResultados_throws st :
  renders (resultados st) = false ->
  exibirResultados st =
  (Throw TypeError,
   with_trace st
     (trace st ++ [ClearResults; Display "secao-resultados" "block"])).
Proof.
  intros R. rewrite exibirResultados_spec.
  assert (D : draws (resultados st) = false).
  { destruct (draws (resultados st)) eqn:D; auto.
    apply draws_renders in D. congruence. }
  rewrite D. unfold drawing. rewrite R.
  now destruct (resultados st) as [[| | | |items|]|].
Qed.

Lemma first_cards_stop items :
  forallb drawable items = false ->
  forall index,
  exists r,
    nth_error items (List.length (first_cards items index)) = Some r
    /\ drawable r = false.
Proof.
  induction items as [|r rest IH]; [discriminate|].
  cbn [forallb first_cards]. intros H index.
  rewrite criarCardResultado_spec. destruct (drawable r) eqn:D.
  - destruct (IH H (S index)) as (r' & A & B). exists r'. auto.
  - exists r. auto.
Qed.

Lemma first_cards_drawable items :
  forall index k r,
  k < List.length (first_cards items index) ->
  nth_error items k = Some r ->
  drawable r = true
  /\ nth_error (first_cards items index) k
     = Some (card_of r (index + k + 1)).
Proof.
  induction items as [|x rest IH]; intros index k r; [simpl; lia|].
  cbn [first_cards]. rewrite criarCardResultado_spec.
  destruct (drawable x) eqn:D; [|simpl; lia].
  destruct k as [|k]; cbn [List.length nth_error].
  - intros _ [= <-]. now rewrite Nat.add_0_r.
  - intros L Hk. destruct (IH (S index) k r) as [A B]; [lia|exact Hk|].
    split; [exact A|]. rewrite B. do 2 f_equal. lia.
Qed.

(** X8.  [exibirResultados] empties the container and shows the section
    first.  On an array of results with no [null] in it, it then draws
    the three counts and the cards, in the order of the array, the k-th
    card numbered k+1 and carrying the [url] of the k-th result: one
    card per result when a card can be made of each, and otherwise the
    cards of the results before the first one no card can be made of,
    where it stops with a TypeError.  On anything else (not an array, or
    an array with a [null]) it throws a TypeError before it has drawn a
    count or a card. *)
Theorem exibirResultados_draws (st : state) :
  exibirResultados st
  = (if draws (resultados st) then Normal tt else Throw TypeError,
     with_trace st (trace st ++ drawing (resultados st)))
  /\ (renders (resultados st) = false ->
      drawing (resultados st)
      = [ClearResults; Display "secao-resultados" "block"])
  /\ (forall items,
        resultados st = Some (JArr items) ->
        renders (resultados st) = true ->
        exists cs,
          drawing (resultados st)
          = [ClearResults; Display "secao-resultados" "block";
             RenderStats (count_of "valido" items)
               (count_of "invalido" items) (count_of "erro" items)]
            ++ map RenderCard cs
          /\ (forall k r, k < List.length cs ->
                nth_error items k = Some r ->
                exists c, nth_error cs k = Some c
                          /\ numero c = k + 1
                          /\ card_url c = field_of r "url"
                          /\ criarCardResultado r (k + 1) = Normal c)
          /\ if draws (resultados st)
             then List.length cs = List.length items
             else exists r, nth_error items (List.length cs) = Some r
                            /\ drawable r = false).
Proof.
  split; [apply exibirResultados_spec|]. split.
  - intros R. unfold drawing. rewrite R.
    now destruct (resultados st) as [[| | | |items|]|].
  - intros items Rs R. rewrite Rs in *.
    exists (first_cards items 0). split; [|split].
    + unfold drawing. now rewrite R.
    + intros k r Lk Hk.
      destruct (first_cards_drawable items 0 k r Lk Hk) as [D E].
      exists (card_of r (0 + k + 1)). split; [exact E|].
      split; [reflexivity|]. split; [reflexivity|].
      now rewrite criarCardResultado_spec, D.
    + destruct (draws (Some (JArr items))) eqn:D.
      * destruct (card_list_ok items D 0) as (cs & _ & <- & L & _).
        exact L.
      * apply first_cards_stop. exact D.
Qed.

Lemma exibirResultados_draws_witness :
  let ok :=
    JObj [(lit "url", JStr (lit "a")); (lit "status", JStr (lit "valido"))] in
  let bad := JObj [(lit "url", JObj [(lit "toString", JNum (lit "1"))])] in
  let st :=
    mkState (Some (JObj [])) (Some (JArr [ok; bad; ok])) [] [] false false
      [] in
  exibirResultados st
  = (Throw TypeError,
     with_trace st
       [ClearResults; Display "secao-resultados" "block"; RenderStats 2 0 0;
        RenderCard (card_of ok 1)]).
Proof.
  intros ok bad st.
  rewrite (proj1 (exibirResultados_draws st)). vm_compute. reflexivity.
Defined.

(** X9.  The counts drawn on the page and the counts written to the
    report are the same: for a non-empty array of results with no
    [null], the three numbers of the statistics row are the [validos],
    [invalidos] and [erros] of the report downloaded from the same
    state.  The number of cards is its [total_documentos] when a card
    can be made of every result, and smaller when not. *)
Theorem stats_match_report
    (st : state) (items : list json) (agora depois : jsstring) :
  resultados st = Some (JArr items) ->
  items <> [] ->
  renders (resultados st) = true ->
  let validos := count_of "valido" items in
  let invalidos := count_of "invalido" items in
  let erros := count_of "erro" items in
  In (RenderStats validos invalidos erros) (emitted exibirResultados st)
  /\ emitted (downloadRelatorio agora depois) st
     = [Download (nome_do_arquivo depois)
          (Json.stringify (relatorio agora items validos invalidos erros))]
  /\ if draws (resultados st)
     then List.length (cards (emitted exibirResultados st))
          = List.length items
     else List.length (cards (emitted exibirResultados st))
          < List.length items.
Proof.
  intros Rs N0 R validos invalidos erros.
  assert (Em : emitted exibirResultados st
               = [ClearResults; Display "secao-resultados" "block";
                  RenderStats validos invalidos erros]
                 ++ map RenderCard (first_cards items 0)).
  { unfold emitted. rewrite exibirResultados_spec. cbn [snd with_trace trace].
    rewrite skipn_length_app. unfold drawing. rewrite R, Rs. reflexivity. }
  split; [|split].
  - rewrite Em. simpl. auto.
  - rewrite Rs in R. now apply downloadRelatorio_results.
  - rewrite Em, cards_app, cards_map_RenderCard. cbn [cards List.app].
    rewrite Rs. destruct (draws (Some (JArr items))) eqn:D.
    + destruct (card_list_ok items D 0) as (cs & _ & <- & L & _). exact L.
    + destruct (first_cards_stop items D 0) as (r & A & _).
      apply nth_error_Some. congruence.
Qed.

Lemma stats_match_report_witness :
  let r s := JObj [(lit "status", JStr (lit s))] in
  let items := [r "valido"; r "erro"; r "valido"] in
  let st :=
    mkState (Some (JObj [])) (Some (JArr items)) [] [] false false [] in
  In (RenderStats 2 0 1) (emitted exibirResultados st)
  /\ emitted (downloadRelatorio [] []) st
     = [Download (nome_do_arquivo [])
          (Json.stringify (relatorio [] items 2 0 1))]
  /\ List.length (cards (emitted exibirResultados st)) = 3.
Proof.
  intros r items st.
  apply (stats_match_report st items [] [] eq_refl).
  - discriminate.
  - reflexivity.
Defined.

(** X10.  What [downloadRelatorio] does depends on [this.resultados]
    only: an alert and no file when it is falsy or has length 0; one
    file when it is a non-empty array with no [null] in it; and neither,
    a TypeError escaping the handler, in every other case (a [null]
    among the results, or a truthy value that is not an array).  It
    changes nothing of the instance. *)
Theorem downloadRelatorio_cases (st : state) (agora depois : jsstring) :
  exec (downloadRelatorio agora depois) st
  = with_trace st (trace st ++ reported (downloadRelatorio agora depois) st)
  /\ reported (downloadRelatorio agora depois) st
     = if negb (truthy (resultados st)) || is_zero (length_of (resultados st))
       then [Alert "Nenhum resultado para download"]
       else
         match resultados st with
         | Some (JArr items) =>
             if renders (resultados st)
             then [Download (nome_do_arquivo depois)
                     (Json.stringify
                        (relatorio agora items (count_of "valido" items)
                           (count_of "invalido" items)
                           (count_of "erro" items)))]
             else [Uncaught TypeError]
         | _ => [Uncaught TypeError]
         end.
Proof.
  unfold reported, exec. rewrite downloadRelatorio_spec.
  destruct st as [pd rs csv docs idis cdis tr]. unfold with_trace. simpl.
  destruct (negb (truthy rs) || is_zero (length_of rs)).
  - simpl. rewrite skipn_length_app. split; reflexivity.
  - destruct rs as [[| | | |items|]|]; simpl;
      try (rewrite skipn_length_app; split; reflexivity).
    destruct (forallb (fun r => negb (is_null r)) items); simpl;
      rewrite skipn_length_app; split; reflexivity.
Qed.

(** ** How a request that settled is reported *)

Lemma downloadRelatorio_reported agora depois st :
  reported (downloadRelatorio agora depois) st
  = if negb (truthy (resultados st)) || is_zero (length_of (resultados st))
    then [Alert "Nenhum resultado para download"]
    else
      match resultados st with
      | Some (JArr items) =>
          if renders (resultados st)
          then [Download (nome_do_arquivo depois)
                  (Json.stringify
                     (relatorio agora items (count_of "valido" items)
                        (count_of "invalido" items)
                        (count_of "erro" items)))]
          else [Uncaught TypeError]
      | _ => [Uncaught TypeError]
      end.
Proof.
  unfold reported, exec. rewrite downloadRelatorio_spec.
  destruct st as [pd rs csv docs idis cdis tr]. unfold with_trace. simpl.
  destruct (negb (truthy rs) || is_zero (length_of rs)).
  - simpl. now rewrite skipn_length_app.
  - destruct rs as [[| | | |items|]|]; simpl;
      try (now rewrite skipn_length_app).
    destruct (forallb (fun r => negb (is_null r)) items); simpl;
      now rewrite skipn_length_app.
Qed.

(** X11.  A run that fails (the request or its body is rejected, or the
    response does not report success) leaves [this.resultados] as it
    was: the report downloaded after it is the report of the run
    before. *)
Theorem failed_run_keeps_results
    (st : state) (o : outcome) (agora depois : jsstring) :
  run_failed o = true ->
  let st' := exec (iniciarValidacao_resume o) st in
  resultados st' = resultados st
  /\ reported (downloadRelatorio agora depois) st'
     = reported (downloadRelatorio agora depois) st.
Proof.
  intros F st'.
  assert (R : resultados st' = resultados st).
  { subst st'. unfold exec. rewrite iniciarValidacao_resume_eq.
    cbn [resultados]. unfold resultados_after.
    destruct o as [r|r|data]; auto. simpl in F.
    apply negb_true_iff in F. now rewrite F. }
  split; [exact R|]. now rewrite !downloadRelatorio_reported, R.
Qed.

Lemma failed_run_keeps_results_witness :
  let items := [JObj [(lit "status", JStr (lit "valido"))]] in
  let st :=
    mkState (Some (JObj [])) (Some (JArr items)) [] (lit "x") true false [] in
  let o := Responds (JObj [(lit "success", JBool false);
                           (lit "error", JStr (lit "timeout"))]) in
  resultados (exec (iniciarValidacao_resume o) st) = Some (JArr items).
Proof.
  intros items st o.
  apply (failed_run_keeps_results st o [] [] eq_refl).
Defined.

Lemma emitted_iniciarValidacao_resume o st :
  emitted (iniciarValidacao_resume o) st = closing o.
Proof.
  unfold emitted. rewrite iniciarValidacao_resume_eq. apply skipn_length_app.
Qed.

(** X12.  When a run fails, the error is reported three times over: on
    the console, as a progress update that resets the bar to 0 (a line
    of the log in the plain class), and as a second line of the log in
    the danger class; the caption of the button is then restored.  The
    error is the reason of the rejection when the request or its body
    was rejected; when the response carries a truthy [data.error] it is
    that value, or the TypeError of the constructor of the error when
    the value does not convert to a string; and it is the text 'Erro no
    processamento' otherwise.  The update to 60 comes before, unless it
    is the request itself that was rejected. *)
Theorem iniciarValidacao_reports_failure (st : state) (o : outcome) :
  run_failed o = true ->
  let e := failure "Erro no processamento" o in
  emitted (iniciarValidacao_resume o) st
  = match o with
    | FetchRejects _ => []
    | _ => [ProgressBar 60;
            LogEntry (Text "Processando documentos...") "light"]
    end
    ++ [ConsoleError "Erro no processamento:" e;
        ProgressBar 0;
        LogEntry (ErroMsg e) "light";
        LogEntry (ErroMsg e) "danger";
        Caption "iniciar-validacao" "Iniciar Validação"]
  /\ e = match o with
         | FetchRejects reason => Rejected reason
         | JsonRejects reason => Rejected reason
         | Responds data =>
             if is_null data then TypeError
             else
               let v := field_of data "error" in
               if truthy v then
                 if converts v
                 then match v with
                      | Some detail => ErrorOf detail
                      | None => TypeError
                      end
                 else TypeError
               else ErrorLiteral "Erro no processamento"
         end.
Proof.
  intros F e. subst e. rewrite emitted_iniciarValidacao_resume. split.
  - unfold closing. destruct o as [reason|reason|data]; try reflexivity.
    simpl in F. apply negb_true_iff in F. now rewrite F.
  - unfold failure, error_or. destruct o as [reason|reason|data]; auto.
    destruct (is_null data); auto.
    destruct (field_of data "error") as [v|]; reflexivity.
Qed.

Lemma iniciarValidacao_reports_failure_witness :
  let st := construct [] (lit "a") in
  let o := Responds (JObj [(lit "success", JBool false);
                           (lit "error", JStr (lit "timeout"))]) in
  In (LogEntry (ErroMsg (ErrorOf (JStr (lit "timeout")))) "danger")
    (emitted (iniciarValidacao_resume o) st).
Proof.
  intros st o.
  destruct (iniciarValidacao_reports_failure st o eq_refl) as [E _].
  rewrite E. simpl. auto 10.
Defined.

(** X13.  What a load that settled shows.  When it ends well: the
    success message with the four counts of [dados], then the caption
    of the button restored.  Otherwise: the error on the console and in
    the status box, in the danger class, then the caption restored; the
    error is the reason of the rejection, [data.error] when truthy (the
    TypeError of the constructor of the error when that value does not
    convert to a string), the text 'Erro desconhecido' when the
    response reports no success and no error, and a TypeError when the
    response reports success but has no [dados], or has counts that do
    not convert to strings. *)
Theorem carregarPlanilha_reports (st : state) (o : outcome) :
  emitted (carregarPlanilha_resume o) st
  = if loads o then
      [StatusPlanilha "success" (counts_message (dados_of o));
       Caption "carregar-planilha" "Carregar Planilha"]
    else
      [ConsoleError "Erro ao carregar planilha:" (load_failure o);
       StatusPlanilha "danger" (ErroMsg (load_failure o));
       Caption "carregar-planilha" "Carregar Planilha"].
Proof.
  unfold emitted. rewrite carregarPlanilha_resume_eq.
  cbn [snd trace]. rewrite skipn_length_app. unfold load_closing.
  now destruct (loads o).
Qed.

(** ** After a load has settled *)

(** X14.  When a load settles, in whatever way, the load button is
    enabled again, the results of the last run are untouched, and the
    dataset is [data.planilha_data] if the load ended well and [null] if
    it did not.  The start button is then enabled exactly when that
    dataset is truthy and the locator field is not blank: a response
    that reports success with a falsy [planilha_data] leaves it
    disabled. *)
Theorem carregarPlanilha_settles (st : state) (o : outcome) :
  let st' := exec (carregarPlanilha_resume o) st in
  planilhaData st'
  = (if loads o
     then match o with
          | Responds data => field_of data "planilha_data"
          | _ => None
          end
     else Some JNull)
  /\ carregar_disabled st' = false
  /\ resultados st' = resultados st
  /\ csv_url_value st' = csv_url_value st
  /\ document_urls_value st' = document_urls_value st
  /\ (iniciar_disabled st' = false
      <-> truthy (planilhaData st') = true
          /\ blank (document_urls_value st) = false).
Proof.
  intros st'. subst st'.
  destruct (carregarPlanilha_resume_spec o st) as (l & E & _).
  unfold exec. rewrite E. cbn [planilhaData carregar_disabled resultados
    csv_url_value document_urls_value iniciar_disabled].
  split.
  { unfold planilha_after. destruct o; reflexivity. }
  repeat (split; [reflexivity|]).
  rewrite eqb_trim_nil, orb_false_iff, negb_false_iff. tauto.
Qed.

(** ** Requests in flight *)

Section InFlight.

Lemma iniciarValidacao_cases st :
  (accepted st = true
   /\ iniciarValidacao st
      = (Normal (Some AguardaDocumentos),
         mkState (planilhaData st) (resultados st) (csv_url_value st)
           (document_urls_value st) true (carregar_disabled st)
           (trace st ++ opening st)))
  \/ (accepted st = false
      /\ exists text, iniciarValidacao st = rejected text st).
Proof.
  destruct (accepted st) eqn:A.
  - left. split; auto. now apply iniciarValidacao_accepted.
  - right. split; auto. unfold accepted in A.
    unfold iniciarValidacao, mbind, read.
    destruct (List.length (parseDocumentUrls (document_urls_value st)))
      as [|n] eqn:L; [eexists; reflexivity|].
    simpl in A. destruct (3 <? S n)%nat eqn:T.
    + eexists; reflexivity.
    + apply Nat.ltb_ge in T. apply Nat.leb_gt in A. lia.
Qed.

Lemma exec_input_docs v st :
  exec (set_document_urls_value v ;;; updateUI) st
  = mkState (planilhaData st) (resultados st) (csv_url_value st) v
      (negb (truthy (planilhaData st)) || blank v)
      (carregar_disabled st) (trace st).
Proof.
  destruct st as [pd rs csv docs idis cdis tr].
  unfold exec, mbind, updateUI, read, set_document_urls_value,
    set_iniciar_disabled. simpl.
  now rewrite eqb_trim_nil.
Qed.

Lemma exec_input_csv v st :
  exec (set_csv_url_value v ;;; updateUI) st
  = mkState (planilhaData st) (resultados st) v (document_urls_value st)
      (negb (truthy (planilhaData st)) || blank (document_urls_value st))
      (carregar_disabled st) (trace st).
Proof.
  destruct st as [pd rs csv docs idis cdis tr].
  unfold exec, mbind, updateUI, read, set_csv_url_value,
    set_iniciar_disabled. simpl.
  now rewrite eqb_trim_nil.
Qed.

Lemma filter_remove_nth {A} (f : A -> bool) n :
  forall l x, nth_error l n = Some x ->
  List.length (filter f l)
  = (if f x then 1 else 0) + List.length (filter f (remove_nth n l)).
Proof.
  induction n as [|n IH]; intros [|y l] x H; simpl in *; try discriminate.
  - injection H as ->. destruct (f x); reflexivity.
  - pose proof (IH l x H) as K.
    destruct (f y), (f x); simpl in *; lia.
Qed.

Lemma step_one_load a ev : one_load a -> one_load (step a ev).
Proof.
  destruct a as [st w]. unfold one_load, loads_in_flight.
  cbn [page waiting]. intros H.
  destruct ev as [v|v| | |agora depois|n o]; cbn [step page waiting].
  - rewrite exec_input_csv. exact H.
  - rewrite exec_input_docs. exact H.
  - unfold click. cbn [page waiting].
    destruct (carregar_disabled st) eqn:C; cbn [page waiting];
      [rewrite ?C; exact H|].
    destruct H as [[H0 _]|[_ H1]]; [|discriminate].
    destruct (carregarPlanilha_spec st) as (l & p & E & _ & Np).
    rewrite E. destruct p as [[|]|]; cbn [page waiting carregar_disabled].
    + right. rewrite filter_app, length_app, H0. auto.
    + now destruct Np.
    + left. auto.
  - unfold click. cbn [page waiting].
    destruct (iniciar_disabled st); cbn [page waiting]; [exact H|].
    destruct (iniciarValidacao_cases st) as [[_ E]|[_ [text E]]];
      rewrite E; unfold rejected; cbn [page waiting carregar_disabled snd emit];
      auto.
    rewrite filter_app, length_app. cbn [filter is_load List.length].
    now rewrite Nat.add_0_r.
  - destruct (exec_downloadRelatorio agora depois st) as (l & E & _).
    rewrite E. exact H.
  - destruct (nth_error w n) as [p|] eqn:Hn; cbn [page waiting]; auto.
    pose proof (filter_remove_nth is_load n w p Hn) as F.
    destruct p; cbn [is_load resume] in *.
    + destruct (carregarPlanilha_resume_spec o st) as (l & E & _).
      unfold exec. rewrite E. cbn [carregar_disabled]. left. split; auto.
      destruct H as [[H0 _]|[H1 _]]; lia.
    + destruct (iniciarValidacao_resume_spec o st) as (l & E & _).
      unfold exec. rewrite E. cbn [carregar_disabled].
      simpl in F. rewrite <- F. exact H.
Qed.

Lemma run_one_load evs : forall a, one_load a -> one_load (run a evs).
Proof.
  induction evs as [|ev rest IH]; intros a H; simpl; auto.
  apply IH, step_one_load, H.
Qed.

End InFlight.

(** X15.  However the page is used from its start, at most one load
    request is in flight, and the load button is disabled exactly while
    one is: a second click cannot send a second load before the first
    has settled. *)
Theorem at_most_one_load_in_flight
    (csv docs : jsstring) (evs : list event) :
  let a := run (mkApp (construct csv docs) []) evs in
  loads_in_flight a <= 1
  /\ (carregar_disabled (page a) = true <-> loads_in_flight a = 1).
Proof.
  intros a.
  assert (H : one_load a).
  { apply run_one_load. left. split; [reflexivity|].
    unfold construct, exec. rewrite updateUI_spec. reflexivity. }
  destruct H as [[H0 C]|[H1 C]]; rewrite C.
  - rewrite H0. split; [lia|]. split; [discriminate|lia].
  - rewrite H1. split; [lia|]. tauto.
Qed.

(** ** What is sent to the processing endpoint *)

Section Requests.

Lemma accepted_not_blank st :
  accepted st = true -> blank (document_urls_value st) = false.
Proof.
  unfold accepted, parseDocumentUrls. intros H.
  destruct (blank (document_urls_value st)) eqn:B; auto.
  rewrite (trim_blank _ B) in H. discriminate.
Qed.

Lemma locators_not_blank value :
  forallb (fun u => negb (blank u)) (parseDocumentUrls value) = true.
Proof.
  apply forallb_forall. intros u Hu.
  rewrite parseDocumentUrls_refines in Hu.
  apply parse_elements_trimmed in Hu. destruct Hu as [_ B]. now rewrite B.
Qed.

Lemma no_processing_request_legitimate l :
  filter is_processing_request l = [] -> forallb legitimate l = true.
Proof.
  induction l as [|e l IH]; simpl; auto.
  destruct e as [| | | |[u|urls pd]| | | | | | | |]; simpl; auto; discriminate.
Qed.

Lemma opening_legitimate st :
  truthy (planilhaData st) = true ->
  accepted st = true ->
  forallb legitimate (opening st) = true.
Proof.
  intros T A. unfold opening. cbn [forallb legitimate].
  unfold accepted in A. apply andb_true_iff in A. destruct A as [A1 A2].
  rewrite T, A1, A2, locators_not_blank. reflexivity.
Qed.

Lemma step_legitimate a ev :
  guarded (page a) ->
  forallb legitimate (trace (page a)) = true ->
  guarded (page (step a ev))
  /\ forallb legitimate (trace (page (step a ev))) = true.
Proof.
  destruct a as [st w]. unfold guarded. cbn [page waiting]. intros G L.
  assert (U : forall pd docs,
            truthy pd = false -> negb (truthy pd) || blank docs = true).
  { intros pd docs ->. reflexivity. }
  destruct ev as [v|v| | |agora depois|n o]; cbn [step page waiting].
  - rewrite exec_input_csv. cbn [planilhaData iniciar_disabled trace]. auto.
  - rewrite exec_input_docs. cbn [planilhaData iniciar_disabled trace]. auto.
  - unfold click. cbn [page waiting].
    destruct (carregar_disabled st); cbn [page]; [auto|].
    destruct (carregarPlanilha_spec st) as (l & p & E & R & _).
    rewrite E.
    assert (K : forall q, page (match p with
                                | Some w0 => mkApp q (w ++ [w0])
                                | None => mkApp q w
                                end) = q) by (intros q; now destruct p).
    rewrite K. cbn [planilhaData iniciar_disabled trace].
    rewrite forallb_app, L, (no_processing_request_legitimate l R). auto.
  - unfold click. cbn [page waiting].
    destruct (iniciar_disabled st) eqn:D; cbn [page]; [rewrite D; auto|].
    assert (T : truthy (planilhaData st) = true).
    { destruct (truthy (planilhaData st)) eqn:T; [reflexivity|].
      now apply G. }
    destruct (iniciarValidacao_cases st) as [[A E]|[_ [text E]]];
      rewrite E; unfold rejected;
      cbn [page snd emit planilhaData iniciar_disabled trace].
    + rewrite forallb_app, L, (opening_legitimate st T A). auto.
    + rewrite forallb_app, L. split; [congruence|reflexivity].
  - destruct (exec_downloadRelatorio agora depois st) as (l & E & R).
    rewrite E. unfold with_trace. cbn [planilhaData iniciar_disabled trace].
    rewrite forallb_app, L.
    rewrite (no_processing_request_legitimate l
               (processing_request_is_request l R)).
    auto.
  - destruct (nth_error w n) as [[|]|]; cbn [page resume]; auto.
    + destruct (carregarPlanilha_resume_spec o st) as (l & E & R).
      unfold exec. rewrite E. cbn [planilhaData iniciar_disabled trace].
      rewrite eqb_trim_nil, forallb_app, L.
      rewrite (no_processing_request_legitimate l
                 (processing_request_is_request l R)).
      auto.
    + destruct (iniciarValidacao_resume_spec o st) as (l & E & _ & R).
      unfold exec. rewrite E. cbn [planilhaData iniciar_disabled trace].
      rewrite eqb_trim_nil, forallb_app, L.
      rewrite (no_processing_request_legitimate l
                 (processing_request_is_request l R)).
      auto.
Qed.

Lemma run_legitimate evs :
  forall a,
  guarded (page a) ->
  forallb legitimate (trace (page a)) = true ->
  guarded (page (run a evs))
  /\ forallb legitimate (trace (page (run a evs))) = true.
Proof.
  induction evs as [|ev rest IH]; intros a G L; simpl; auto.
  destruct (step_legitimate a ev G L) as [G' L']. now apply IH.
Qed.

End Requests.

(** X16.  However the page is used from its start, the start button is
    disabled whenever no dataset is loaded, and every request that was
    sent to the processing endpoint carries a truthy [planilha_data] and
    one to three locators, none of them blank. *)
Theorem every_processing_request_is_legitimate
    (csv docs : jsstring) (evs : list event) :
  let a := run (mkApp (construct csv docs) []) evs in
  (truthy (planilhaData (page a)) = false -> iniciar_disabled (page a) = true)
  /\ forall document_urls planilha_data,
       In (Fetch (ProcessarDocumentos document_urls planilha_data))
         (trace (page a)) ->
       truthy planilha_data = true
       /\ 1 <= List.length document_urls <= 3
       /\ Forall (fun u => blank u = false) document_urls.
Proof.
  intros a.
  destruct (run_legitimate evs (mkApp (construct csv docs) [])) as [G L].
  { unfold guarded, construct, exec. rewrite updateUI_spec. reflexivity. }
  { unfold construct, exec. rewrite updateUI_spec. reflexivity. }
  split; [exact G|].
  intros urls pd H. rewrite forallb_forall in L. specialize (L _ H).
  cbn [legitimate] in L. rewrite !andb_true_iff, !Nat.leb_le in L.
  destruct L as [[[T A] B] F]. repeat split; auto.
  apply Forall_forall. intros u Hu. rewrite forallb_forall in F.
  now apply negb_true_iff, F.
Qed.

(** X17.  The page does not keep a second run from starting while one
    is in flight: the click that starts a run disables the start button,
    but any edit of the locator field runs [updateUI], which enables it
    again.  With a dataset loaded and one to three locators, a click, an
    edit that leaves the field as it is and a second click send the same
    request twice, and both are left in flight. *)
Theorem editing_reenables_start (st : state) (w : list pendente) :
  truthy (planilhaData st) = true ->
  accepted st = true ->
  iniciar_disabled st = false ->
  let request :=
    Fetch (ProcessarDocumentos (parseDocumentUrls (document_urls_value st))
             (planilhaData st)) in
  let a1 := step (mkApp st w) ClickIniciar in
  let a2 := step a1 (InputDocumentUrls (document_urls_value st)) in
  let a3 := step a2 ClickIniciar in
  iniciar_disabled (page a1) = true
  /\ iniciar_disabled (page a2) = false
  /\ waiting a3 = w ++ [AguardaDocumentos; AguardaDocumentos]
  /\ filter is_processing_request (trace (page a3))
     = filter is_processing_request (trace st) ++ [request; request].
Proof.
  intros T A D request a1 a2 a3.
  pose proof (accepted_not_blank st A) as B.
  assert (E1 : a1 = mkApp (mkState (planilhaData st) (resultados st)
                             (csv_url_value st) (document_urls_value st) true
                             (carregar_disabled st) (trace st ++ opening st))
                      (w ++ [AguardaDocumentos])).
  { subst a1. cbn [step]. unfold click. cbn [page waiting].
    rewrite D, (iniciarValidacao_accepted st A). reflexivity. }
  assert (E2 : a2 = mkApp (mkState (planilhaData st) (resultados st)
                             (csv_url_value st) (document_urls_value st) false
                             (carregar_disabled st) (trace st ++ opening st))
                      (w ++ [AguardaDocumentos])).
  { subst a2. rewrite E1. cbn [step page waiting]. rewrite exec_input_docs.
    cbn [planilhaData resultados csv_url_value carregar_disabled trace].
    now rewrite T, B. }
  assert (E3 : a3 = mkApp (mkState (planilhaData st) (resultados st)
                             (csv_url_value st) (document_urls_value st) true
                             (carregar_disabled st)
                             ((trace st ++ opening st) ++ opening st))
                      ((w ++ [AguardaDocumentos]) ++ [AguardaDocumentos])).
  { subst a3. rewrite E2. cbn [step]. unfold click. cbn [page waiting
      iniciar_disabled].
    rewrite iniciarValidacao_accepted by exact A. reflexivity. }
  clearbody a3. clearbody a2. clearbody a1. subst a1 a2 a3.
  cbn [page waiting iniciar_disabled trace].
  split; [reflexivity|]. split; [reflexivity|].
  split; [now rewrite <- app_assoc|].
  rewrite !filter_app, <- app_assoc. reflexivity.
Qed.

Lemma editing_reenables_start_witness :
  let st :=
    mkState (Some (JObj [])) (Some (JArr [])) (lit "http://planilha")
      (lit "a,b") false false [] in
  waiting (step (step (step (mkApp st []) ClickIniciar)
                   (InputDocumentUrls (lit "a,b"))) ClickIniciar)
  = [AguardaDocumentos; AguardaDocumentos].
Proof.
  intros st.
  apply (editing_reenables_start st [] eq_refl eq_refl eq_refl).
Defined.

(** ** A response that reports success with results that cannot be drawn *)

(** X18.  When the response reports success but its [resultados] is not
    an array, or holds a [null], the run is first reported as completed
    (the bar at 100 and the line 'Processamento concluído!' in the
    success class) and [this.resultados] takes the value as it came;
    drawing it then throws, and the run ends as a failure: the TypeError
    on the console, the bar back to 0 and the error logged twice.  No
    count and no card is drawn. *)
Theorem undrawable_results_are_kept (st : state) (data : json) :
  succeeded data = true ->
  renders (field_of data "resultados") = false ->
  let o := Responds data in
  resultados (exec (iniciarValidacao_resume o) st)
  = field_of data "resultados"
  /\ emitted (iniciarValidacao_resume o) st
     = [ProgressBar 60;
        LogEntry (Text "Processando documentos...") "light";
        ProgressBar 100;
        LogEntry (Text "Processamento concluído!") "success";
        ClearResults;
        Display "secao-resultados" "block";
        ConsoleError "Erro no processamento:" TypeError;
        ProgressBar 0;
        LogEntry (ErroMsg TypeError) "light";
        LogEntry (ErroMsg TypeError) "danger";
        Caption "iniciar-validacao" "Iniciar Validação"].
Proof.
  intros S R o. subst o. split.
  { unfold exec. rewrite iniciarValidacao_resume_eq.
    cbn [resultados resultados_after]. now rewrite S. }
  rewrite emitted_iniciarValidacao_resume. unfold closing, drawing.
  rewrite S, R.
  assert (D : draws (field_of data "resultados") = false).
  { destruct (draws (field_of data "resultados")) eqn:D; auto.
    apply draws_renders in D. congruence. }
  rewrite D.
  now destruct (field_of data "resultados") as [[| | | |items|]|].
Qed.

Lemma undrawable_results_are_kept_witness :
  let data := JObj [(lit "success", JBool true);
                    (lit "resultados", JArr [JNull])] in
  resultados (exec (iniciarValidacao_resume (Responds data))
                (construct [] (lit "a")))
  = Some (JArr [JNull]).
Proof.
  intros data.
  apply (undrawable_results_are_kept (construct [] (lit "a")) data
           eq_refl eq_refl).
Defined.
